(** * XSerialOne: frame normalisation, modifiers, pipeline tick and wire encoder

    A shallow embedding of the Python sources
    - [XSerialOne/base.py]             ([FrameState], [_normalize_values], [from_dict], [to_dict])
    - [XSerialOne/modules/*.py]        (deadzone, hair trigger, anti-recoil, chat override,
                                        XInput generator)
    - [XSerialOne/serial_interface.py] ([Packet.pack], [SerialInterface])
    - [XSerialOne/pipeline.py]         ([InputPipeline.update], [run_loop])

    Python floats are IEEE-754 binary64 values: they are embedded as Rocq's
    primitive floats, whose operations are the same hardware operations, and
    general facts about them are derived from their specification
    ([FloatAxioms], over [SpecFloat]).  Python exceptions are values of
    [exn]; code that may raise returns a [result]. *)

From Stdlib Require Import String Ascii ZArith Bool Lia Floats List.
Import ListNotations.

Local Open Scope string_scope.
Local Open Scope list_scope.
Local Open Scope Z_scope.

(* Decimal float literals denote the nearest double, as in Python. *)
Set Warnings "-inexact-float,-register-all".

(* ================================================================== *)
(** ** Exceptions and fallible results *)

(** The exception classes the modelled code can meet.  [KeyboardInterrupt]
    and [SystemExit] derive from [BaseException] only, so an
    [except Exception] clause does not catch them. *)
Inductive exn : Type :=
| TypeError
| ValueError
| OverflowError
| IndexError
| AttributeError
| RuntimeError
| StructError
| SerialException
| OtherException (name : string)
| KeyboardInterrupt
| SystemExit.

Definition is_Exception (e : exn) : bool :=
  match e with
  | KeyboardInterrupt | SystemExit => false
  | _ => true
  end.

Inductive result (A : Type) : Type :=
| Ok (a : A)
| Raise (e : exn).
Arguments Ok {A} a.
Arguments Raise {A} e.

Definition rbind {A B : Type} (r : result A) (k : A -> result B) : result B :=
  match r with
  | Ok a => k a
  | Raise e => Raise e
  end.

Notation "'let?' x ':=' r 'in' k" := (rbind r (fun x => k))
  (at level 10, x name, r at level 100, k at level 200).

(** [try: a = r; k a  except Exception: h], where only [r] can raise. *)
Definition try_except {A B : Type} (r : result A) (k : A -> result B)
    (h : result B) : result B :=
  match r with
  | Ok a => k a
  | Raise e => if is_Exception e then h else Raise e
  end.

Fixpoint rmap {A B : Type} (f : A -> result B) (l : list A) : result (list B) :=
  match l with
  | [] => Ok []
  | x :: xs =>
      let? y := f x in
      let? ys := rmap f xs in
      Ok (y :: ys)
  end.

(* ================================================================== *)
(** ** Python floats *)

Module PyFloat.

(** [min(a, b)] of two arguments: the first, unless the second is
    strictly smaller.  [max(a, b)]: the first, unless the second is
    strictly greater.  (Both matter for NaN, which compares false.) *)
Definition py_min (a b : float) : float := if (b <? a)%float then b else a.
Definition py_max (a b : float) : float := if (a <? b)%float then b else a.

Definition one : float := 1%float.
Definition neg_one : float := (-1)%float.
Definition zero : float := 0%float.

(** [-1.0 <= x <= 1.0] *)
Definition in_unit_range (x : float) : bool :=
  ((neg_one <=? x) && (x <=? one))%float.

(** [float(n)] for an int: correctly rounded, [OverflowError] when the
    int is too large for a double. *)
Definition float_of_int (z : Z) : result float :=
  match binary_normalize prec emax z 0 false with
  | S754_infinity _ => Raise OverflowError
  | sf => Ok (SF2Prim sf)
  end.

(** [int(x)] for a float: truncation toward zero; [ValueError] on NaN,
    [OverflowError] on an infinity. *)
Definition int_of_float (x : float) : result Z :=
  match Prim2SF x with
  | S754_zero _ => Ok 0
  | S754_nan => Raise ValueError
  | S754_infinity _ => Raise OverflowError
  | S754_finite s m e => Ok (cond_Zopp s (Z.shiftl (Zpos m) e))
  end.

(** The doubles [1.0], [-1.0] and [0.5] as their sign, significand and
    exponent. *)
Definition one_sf : spec_float := S754_finite false 4503599627370496 (-52).
Definition neg_one_sf : spec_float := S754_finite true 4503599627370496 (-52).


End PyFloat.
Import PyFloat.

(* ================================================================== *)
(** ** Raw Python values *)

(** The values a raw sample can be made of: the built-in data values, and
    objects of other classes.  A dict is kept as its list of items; only a
    [str] key can equal the keys that the code looks up.  An object of
    another class is known by what [bool(x)], [float(x)] and [int(x)] do
    on it, each returning a value or raising ([__bool__], [__float__],
    [__int__] are arbitrary code); it is no [str], [list], [tuple] or
    [dict] and has no method [get]. *)
Inductive pyval : Type :=
| VNone
| VBool (b : bool)
| VInt (z : Z)
| VFloat (x : float)
| VStr (s : string)
| VList (items : list pyval)
| VTuple (items : list pyval)
| VDict (items : list (pyval * pyval))
| VObject (on_bool : result bool) (on_float : result float) (on_int : result Z).

Definition is_empty {A : Type} (l : list A) : bool :=
  match l with [] => true | _ => false end.

(** [bool(x)]: truthiness.  On a built-in value it returns; on an object
    of another class it does what the object's [__bool__] does, raising
    included. *)
Definition py_bool (x : pyval) : result bool :=
  match x with
  | VNone => Ok false
  | VBool b => Ok b
  | VInt z => Ok (negb (z =? 0))
  | VFloat f => Ok (negb (f =? zero)%float)
  | VStr s => Ok (negb (String.eqb s ""))
  | VList l | VTuple l => Ok (negb (is_empty l))
  | VDict d => Ok (negb (is_empty d))
  | VObject on_bool _ _ => on_bool
  end.

Definition key_is (k : string) (x : pyval) : bool :=
  match x with
  | VStr s => String.eqb k s
  | _ => false
  end.

(** [d.get(k)] for a [str] key: the value, or [None] when absent. *)
Fixpoint dict_get (d : list (pyval * pyval)) (k : string) : pyval :=
  match d with
  | [] => VNone
  | (k', v) :: rest => if key_is k k' then v else dict_get rest k
  end.

(** [isinstance(x, (list, tuple))], giving the items. *)
Definition as_sequence (x : pyval) : option (list pyval) :=
  match x with
  | VList l | VTuple l => Some l
  | _ => None
  end.

Section Conversions.

(** Python's parsers of numeric text, [float(s)] and [int(s)] for a
    [str]: a value, or [None] for [ValueError]. *)
Variable float_of_str : string -> option float.
Variable int_of_str : string -> option Z.

(** [float(x)] *)
Definition py_float (x : pyval) : result float :=
  match x with
  | VBool b => Ok (if b then one else zero)
  | VInt z => float_of_int z
  | VFloat f => Ok f
  | VStr s => match float_of_str s with
              | Some f => Ok f
              | None => Raise ValueError
              end
  | VNone | VList _ | VTuple _ | VDict _ => Raise TypeError
  | VObject _ on_float _ => on_float
  end.

(** [int(x)] *)
Definition py_int (x : pyval) : result Z :=
  match x with
  | VBool b => Ok (if b then 1 else 0)
  | VInt z => Ok z
  | VFloat f => int_of_float f
  | VStr s => match int_of_str s with
              | Some z => Ok z
              | None => Raise ValueError
              end
  | VNone | VList _ | VTuple _ | VDict _ => Raise TypeError
  | VObject _ _ on_int => on_int
  end.

End Conversions.

(* ================================================================== *)
(** ** [base.py]: the frame and its normalisation *)

Record FrameState : Type := {
  buttons : list bool;
  axes : list float;
  dpad : Z * Z
}.

(** [FrameState()] *)
Definition default_state : FrameState :=
  {| buttons := repeat false 10; axes := repeat zero 6; dpad := (0, 0) |}.

(** The data-model invariants. *)
Definition dpad_component_ok (h : Z) : bool :=
  (h =? -1) || (h =? 0) || (h =? 1).

Definition frame_ok (f : FrameState) : bool :=
  (Nat.eqb (length (buttons f)) 10)
  && (Nat.eqb (length (axes f)) 6)
  && forallb in_unit_range (axes f)
  && dpad_component_ok (fst (dpad f))
  && dpad_component_ok (snd (dpad f)).

(** [to_dict] *)
Definition to_dict (f : FrameState) : pyval :=
  VDict [ (VStr "buttons", VList (map VBool (buttons f)));
          (VStr "axes", VList (map VFloat (axes f)));
          (VStr "dpad", VTuple [VInt (fst (dpad f)); VInt (snd (dpad f))]) ].

Section Normalize.

Variable float_of_str : string -> option float.
Variable int_of_str : string -> option Z.

(** The local helper [_to_float_clamped]. *)
Definition to_float_clamped (x : pyval) : result float :=
  try_except (py_float float_of_str x)
    (fun v => Ok (py_max neg_one (py_min one v)))
    (Ok zero).

Definition clamp_int (h : Z) : Z := Z.max (-1) (Z.min 1 h).

(** The [dict] that [_normalize_values] builds. *)
Record normalized : Type := {
  n_buttons : list bool;
  n_axes : list float;
  n_dpad : Z * Z
}.

Definition normalize_buttons (obj : list (pyval * pyval)) : result (list bool) :=
  match as_sequence (dict_get obj "buttons") with
  | Some l =>
      let? b := rmap py_bool l in
      Ok (firstn 10 (b ++ repeat false 10))
  | None => Ok (repeat false 10)
  end.

Definition normalize_axes (obj : list (pyval * pyval)) : result (list float) :=
  match as_sequence (dict_get obj "axes") with
  | Some l =>
      let? a := rmap to_float_clamped l in
      Ok (firstn 6 (a ++ repeat zero 6))
  | None => Ok (repeat zero 6)
  end.

Definition normalize_dpad (obj : list (pyval * pyval)) : result (Z * Z) :=
  match as_sequence (dict_get obj "dpad") with
  | Some (d0 :: d1 :: _) =>
      try_except
        (let? hx := py_int int_of_str d0 in
         let? hy := py_int int_of_str d1 in
         Ok (hx, hy))
        (fun h => Ok (clamp_int (fst h), clamp_int (snd h)))
        (Ok (0, 0))
  | _ => Ok (0, 0)
  end.

Definition _normalize_values (obj : pyval) : result normalized :=
  match obj with
  | VDict d =>
      let? b := normalize_buttons d in
      let? a := normalize_axes d in
      let? h := normalize_dpad d in
      Ok {| n_buttons := b; n_axes := a; n_dpad := h |}
  | _ => Ok {| n_buttons := repeat false 10;
               n_axes := repeat zero 6;
               n_dpad := (0, 0) |}
  end.

Definition from_dict (obj : pyval) : result FrameState :=
  let? data := _normalize_values obj in
  Ok {| buttons := n_buttons data; axes := n_axes data; dpad := n_dpad data |}.

End Normalize.

(* ================================================================== *)
(** ** [frame_constants.py] *)

Module Axis.
Definition LEFTSTICKX : nat := 0.
Definition LEFTSTICKY : nat := 1.
Definition RIGHTSTICKX : nat := 2.
Definition RIGHTSTICKY : nat := 3.
Definition LEFTTRIGGER : nat := 4.
Definition RIGHTTRIGGER : nat := 5.
End Axis.

(* ================================================================== *)
(** ** Python list indexing *)

(** [l[i]] *)
Definition list_get {A : Type} (l : list A) (i : nat) : result A :=
  match nth_error l i with
  | Some x => Ok x
  | None => Raise IndexError
  end.

Fixpoint replace_nth {A : Type} (l : list A) (i : nat) (v : A) : list A :=
  match l, i with
  | [], _ => []
  | _ :: xs, O => v :: xs
  | x :: xs, S j => x :: replace_nth xs j v
  end.

(** [l[i] = v] *)
Definition list_set {A : Type} (l : list A) (i : nat) (v : A) : result (list A) :=
  if Nat.ltb i (List.length l) then Ok (replace_nth l i v) else Raise IndexError.

(* ================================================================== *)
(** ** [modules/]: the shipped modifiers *)

(** A modifier object: its class and its attributes.  [MockModifier] is
    the test suite's modifier, wrapping an arbitrary transform. *)
Inductive Modifier : Type :=
| DeadzoneModifier (deadzone_left deadzone_right : float)
| HairTriggers (threshold : float)
| BasicAntiRecoilModifier (recoil_strength trigger_threshold : float)
| TwitchChatModifier (msg_queue : list pyval)
| MockModifier (transform_fn : FrameState -> result FrameState).

(** The constructors' defaults. *)
Definition DeadzoneModifier_default : Modifier := DeadzoneModifier 0.2 0.2.
Definition HairTriggers_default : Modifier := HairTriggers 0.1.

(** [DeadzoneModifier.update] *)
Definition deadzone_axis (axes deadzones : list float) (i : nat) : result float :=
  let? v := list_get axes i in
  let? d := list_get deadzones i in
  Ok (if (abs v <? d)%float then zero else v).

Definition deadzone_update (deadzone_left deadzone_right : float)
    (state : FrameState) : result FrameState :=
  let axes0 := axes state in
  let deadzones := repeat deadzone_left 2 ++ repeat deadzone_right 2 in
  let? new_axes := rmap (deadzone_axis axes0 deadzones) (seq 0 4) in
  Ok {| buttons := buttons state;
        axes := new_axes ++ skipn 4 axes0;
        dpad := dpad state |}.

(** [HairTriggers.update] *)
Definition hair_update (threshold : float) (state : FrameState) : result FrameState :=
  let axes0 := axes state in
  let? rt := list_get axes0 Axis.RIGHTTRIGGER in
  let? axes1 :=
    if (threshold <? rt)%float
    then list_set axes0 Axis.RIGHTTRIGGER one
    else list_set axes0 Axis.RIGHTTRIGGER neg_one in
  Ok {| buttons := buttons state; axes := axes1; dpad := dpad state |}.

(** [BasicAntiRecoilModifier.update] *)
Definition antirecoil_update (recoil_strength trigger_threshold : float)
    (state : FrameState) : result FrameState :=
  let axes0 := axes state in
  let? right_x := list_get axes0 Axis.RIGHTSTICKX in
  let? right_y := list_get axes0 Axis.RIGHTSTICKY in
  let? rt := list_get axes0 Axis.RIGHTTRIGGER in
  let? axes1 :=
    if (trigger_threshold <=? rt)%float then
      let recoil_force := (abs recoil_strength * (rt / 1))%float in
      let current_magnitude := sqrt (right_x * right_x + right_y * right_y)%float in
      if (0.01 <? current_magnitude)%float then
        let? a := list_set axes0 Axis.RIGHTSTICKX right_x in
        list_set a Axis.RIGHTSTICKY (right_y + recoil_force)%float
      else
        let? y := list_get axes0 Axis.RIGHTSTICKY in
        list_set axes0 Axis.RIGHTSTICKY (y + recoil_force)%float
    else Ok axes0 in
  Ok {| buttons := buttons state; axes := axes1; dpad := dpad state |}.

(** [msg.get("msg")]: only a dict has the method. *)
Definition msg_get (msg : pyval) (k : string) : result pyval :=
  match msg with
  | VDict d => Ok (dict_get d k)
  | _ => Raise AttributeError
  end.

(** [msg and msg.get("msg") == word], as the condition of an [if]. *)
Definition msg_says (msg : pyval) (word : string) : result bool :=
  let? truthy := py_bool msg in
  if truthy then
    let? v := msg_get msg "msg" in
    Ok (key_is word v)
  else Ok false.

(** [TwitchChatModifier.update]; the modifier's state is the content of
    its listener's queue. *)
Definition twitch_update (msg_queue : list pyval) (state : FrameState)
    : result FrameState * list pyval :=
  match msg_queue with
  | [] => (Ok state, [])
  | msg :: rest =>
      (let axes0 := axes state in
       let? left := msg_says msg "left" in
       let? axes1 :=
         if left then
           let? x := list_get axes0 0 in
           list_set axes0 0 (py_max neg_one (x - 0.5)%float)
         else
           let? right := msg_says msg "right" in
           if right then
             let? x := list_get axes0 0 in
             list_set axes0 0 (py_min one (x + 0.5)%float)
           else Ok axes0 in
       Ok {| buttons := buttons state; axes := axes1; dpad := dpad state |},
       rest)
  end.

(** [mod.update(state)]: the result and the modifier afterwards. *)
Definition update_modifier (m : Modifier) (state : FrameState)
    : result FrameState * Modifier :=
  match m with
  | DeadzoneModifier dl dr => (deadzone_update dl dr state, m)
  | HairTriggers th => (hair_update th state, m)
  | BasicAntiRecoilModifier s th => (antirecoil_update s th state, m)
  | TwitchChatModifier q =>
      let '(r, q') := twitch_update q state in (r, TwitchChatModifier q')
  | MockModifier fn => (fn state, m)
  end.

Definition frame (b : list bool) (a : list float) (d : Z * Z) : FrameState :=
  {| buttons := b; axes := a; dpad := d |}.

(* ================================================================== *)
(** ** [struct.pack]: the fields of the format [<HffffffB] *)

Definition bytes : Type := list Z.

(** The [n] low bytes of [v], least significant first. *)
Fixpoint le_bytes (n : nat) (v : Z) : bytes :=
  match n with
  | O => []
  | S k => (v mod 256) :: le_bytes k (v / 256)
  end.

(** [H]: unsigned 16-bit, [struct.error] when out of range. *)
Definition pack_H (v : Z) : result bytes :=
  if (0 <=? v) && (v <=? 65535) then Ok (le_bytes 2 v) else Raise StructError.

(** [B]: unsigned 8-bit, [struct.error] when out of range. *)
Definition pack_B (v : Z) : result bytes :=
  if (0 <=? v) && (v <=? 255) then Ok (le_bytes 1 v) else Raise StructError.

(** The double rounded to binary32 (24-bit significand, [emax = 128]),
    to nearest even, as the C conversion to [float] does. *)
Definition to_binary32 (x : spec_float) : spec_float :=
  match x with
  | S754_finite s m e => binary_round 24 128 s m e
  | _ => x
  end.

Definition sign_bit (s : bool) : Z := if s then 2 ^ 31 else 0.

(** The IEEE-754 binary32 interchange encoding. *)
Definition bits_of_binary32 (x : spec_float) : Z :=
  match x with
  | S754_zero s => sign_bit s
  | S754_infinity s => sign_bit s + 255 * 2 ^ 23
  | S754_nan => 255 * 2 ^ 23 + 2 ^ 22
  | S754_finite s m e =>
      if 2 ^ 23 <=? Zpos m
      then sign_bit s + (e + 150) * 2 ^ 23 + (Zpos m - 2 ^ 23)
      else sign_bit s + Zpos m
  end.

Definition is_infinity_sf (x : spec_float) : bool :=
  match x with S754_infinity _ => true | _ => false end.

(** [f]: the value as a binary32; [OverflowError] when a finite double
    rounds to an infinity.  Rocq's floats have a single NaN, where
    Python's carry a sign bit and a payload that [struct.pack] keeps: for
    a NaN the four bytes here are those of the positive quiet NaN, so the
    bytes of a NaN are right up to its sign and payload only.  A NaN is
    outside the unit range, so no frame that satisfies the invariants has
    one. *)
Definition pack_f (x : float) : result bytes :=
  let d := Prim2SF x in
  let y := to_binary32 d in
  if is_infinity_sf y && negb (is_infinity_sf d)
  then Raise OverflowError
  else Ok (le_bytes 4 (bits_of_binary32 y)).

(** [struct.pack('<HffffffB', b, *ax, d)] *)
Definition struct_pack_HffffffB (b : Z) (ax : list float) (d : Z) : result bytes :=
  if negb (Nat.eqb (List.length ax) 6) then Raise StructError else
  let? hb := pack_H b in
  let? fs := rmap pack_f ax in
  let? db := pack_B d in
  Ok (hb ++ concat fs ++ db).

(* ================================================================== *)
(** ** [serial_interface.py] *)

Record Packet : Type := {
  p_buttons : Z;
  p_axes : list float;
  p_dpad_code : Z
}.

Definition HEADER : Z := 0xFF.

Definition sum_bytes (l : bytes) : Z := fold_right Z.add 0 l.

(** [Packet.pack] *)
Definition pack (p : Packet) : result bytes :=
  let ax := firstn 6 (p_axes p ++ repeat zero 6) in
  let? payload := struct_pack_HffffffB (p_buttons p) ax (p_dpad_code p) in
  let checksum := Z.land (sum_bytes payload) 0xFF in
  let? head := pack_B HEADER in
  let? tail := pack_B checksum in
  Ok (head ++ payload ++ tail).

(** The serial port object: what was written to it, whether it is open,
    and whether the link is faulty (a write then raises). *)
Record Serial : Type := {
  written_data : list bytes;
  is_open : bool;
  write_fails : bool
}.

Definition serial_write (s : Serial) (data : bytes) : result unit * Serial :=
  if write_fails s then (Raise SerialException, s)
  else (Ok tt, {| written_data := written_data s ++ [data];
                  is_open := is_open s;
                  write_fails := write_fails s |}).

Record SerialInterface : Type := { ser : option Serial }.

(** [str.upper], on ASCII text. *)
Definition upper_ascii (c : ascii) : ascii :=
  let n := nat_of_ascii c in
  if (Nat.leb 97 n && Nat.leb n 122)%bool then ascii_of_nat (n - 32) else c.

Fixpoint upper (s : string) : string :=
  match s with
  | EmptyString => EmptyString
  | String c rest => String (upper_ascii c) (upper rest)
  end.

(** The condition of [SerialInterface.__init__] for the mock mode. *)
Definition is_mock_port (port : pyval) : result bool :=
  let? truthy := py_bool port in
  Ok (negb truthy
      || match port with
         | VStr s => String.prefix "MOCK" (upper s)
         | _ => false
         end).

(** [SerialInterface.__init__]; [serial_Serial] is pyserial's constructor,
    which opens the port or raises. *)
Definition SerialInterface_init (serial_Serial : pyval -> Z -> result Serial)
    (port : pyval) (baud : Z) : result SerialInterface :=
  let? mock := is_mock_port port in
  if mock then Ok {| ser := None |}
  else
    let? s := serial_Serial port baud in
    Ok {| ser := Some s |}.

(** [buttons_to_bitmask] *)
Fixpoint bitmask_from (i : Z) (l : list bool) (mask : Z) : Z :=
  match l with
  | [] => mask
  | pressed :: rest =>
      bitmask_from (i + 1) rest (if pressed then Z.lor mask (Z.shiftl 1 i) else mask)
  end.

Definition buttons_to_bitmask (l : list bool) : Z :=
  Z.land (bitmask_from 0 l 0) 0xFFFF.

(** [dpad_encode] *)
Definition dpad_encode (d : Z * Z) : Z :=
  let '(hx, hy) := d in (hx + 1) + (hy + 1) * 3.

(** What a caller can pass where a [FrameState] is expected. *)
Inductive pyobj : Type :=
| FrameObj (f : FrameState)
| OtherObj (v : pyval).

Definition packet_of_frame (f : FrameState) : Packet :=
  {| p_buttons := buttons_to_bitmask (buttons f);
     p_axes := axes f;
     p_dpad_code := dpad_encode (dpad f) |}.

(** [SerialInterface.send_frame]: the outcome and the interface afterwards. *)
Definition send_frame (si : SerialInterface) (frame_state : pyobj)
    : result unit * SerialInterface :=
  match frame_state with
  | OtherObj _ => (Raise TypeError, si)
  | FrameObj f =>
      let packet := packet_of_frame f in
      match ser si with
      | None => (Raise RuntimeError, si)
      | Some s =>
          match pack packet with
          | Raise e => (Raise e, si)
          | Ok data =>
              let '(r, s') := serial_write s data in
              (r, {| ser := Some s' |})
          end
      end
  end.

(** [SerialInterface.close] *)
Definition close_interface (si : SerialInterface) : SerialInterface :=
  match ser si with
  | Some s => {| ser := Some {| written_data := written_data s;
                               is_open := false;
                               write_fails := write_fails s |} |}
  | None => si
  end.

(** Everything written through an interface so far. *)
Definition written (si : SerialInterface) : list bytes :=
  match ser si with
  | Some s => written_data s
  | None => []
  end.

(* ================================================================== *)
(** ** [pipeline.py] *)

(** A generator object: what its [generate()] does at each successive
    call (a frame, [None], or an exception), and how often it was called. *)
Record Generator : Type := {
  behaviour : nat -> result (option FrameState);
  calls : nat
}.

Definition generate (g : Generator) : result (option FrameState) * Generator :=
  (behaviour g (calls g), {| behaviour := behaviour g; calls := S (calls g) |}).

(** An observer callback: its identity and, for each frame it is called
    with, the exception it raises, if any. *)
Record Callback : Type := {
  cb_id : nat;
  cb_call : FrameState -> option exn
}.

(** The observable calls of a tick: callback [id] was invoked with [arg]. *)
Inductive event : Type :=
| Called (id : nat) (arg : FrameState).

Record InputPipeline : Type := {
  generators : list Generator;
  modifiers : list Modifier;
  send_interval : float;
  last_send : float;
  serial : option SerialInterface;
  _on_generate_callbacks : list Callback;
  _on_post_mod_callbacks : list Callback
}.

(** [InputPipeline.__init__] *)
Definition InputPipeline_init (serial_Serial : pyval -> Z -> result Serial)
    (serial_port : pyval) (baud : Z) (interval : float) : result InputPipeline :=
  let? truthy := py_bool serial_port in
  let? s := if truthy
            then let? si := SerialInterface_init serial_Serial serial_port baud in Ok (Some si)
            else Ok None in
  Ok {| generators := []; modifiers := [];
        send_interval := interval; last_send := zero;
        serial := s;
        _on_generate_callbacks := []; _on_post_mod_callbacks := [] |}.

Definition add_generator (p : InputPipeline) (gen : Generator) : InputPipeline :=
  {| generators := generators p ++ [gen]; modifiers := modifiers p;
     send_interval := send_interval p; last_send := last_send p;
     serial := serial p;
     _on_generate_callbacks := _on_generate_callbacks p;
     _on_post_mod_callbacks := _on_post_mod_callbacks p |}.

Definition add_modifier (p : InputPipeline) (m : Modifier) : InputPipeline :=
  {| generators := generators p; modifiers := modifiers p ++ [m];
     send_interval := send_interval p; last_send := last_send p;
     serial := serial p;
     _on_generate_callbacks := _on_generate_callbacks p;
     _on_post_mod_callbacks := _on_post_mod_callbacks p |}.

Definition add_generate_callback (p : InputPipeline) (cb : Callback) : InputPipeline :=
  {| generators := generators p; modifiers := modifiers p;
     send_interval := send_interval p; last_send := last_send p;
     serial := serial p;
     _on_generate_callbacks := _on_generate_callbacks p ++ [cb];
     _on_post_mod_callbacks := _on_post_mod_callbacks p |}.

Definition add_post_mod_callback (p : InputPipeline) (cb : Callback) : InputPipeline :=
  {| generators := generators p; modifiers := modifiers p;
     send_interval := send_interval p; last_send := last_send p;
     serial := serial p;
     _on_generate_callbacks := _on_generate_callbacks p;
     _on_post_mod_callbacks := _on_post_mod_callbacks p ++ [cb] |}.

(** [combine_generators]: the first generator's frame, and the generator
    list afterwards. *)
Definition combine_generators (gens : list Generator)
    : result (option FrameState) * list Generator :=
  match gens with
  | [] => (Ok None, [])
  | g :: rest => let '(r, g') := generate g in (r, g' :: rest)
  end.

(** [apply_modifiers]: the fold, and the modifier list afterwards. *)
Fixpoint apply_modifiers (mods : list Modifier) (state : FrameState)
    : result FrameState * list Modifier :=
  match mods with
  | [] => (Ok state, [])
  | m :: rest =>
      let '(r, m') := update_modifier m state in
      match r with
      | Ok state' =>
          let '(r', rest') := apply_modifiers rest state' in (r', m' :: rest')
      | Raise e => (Raise e, m' :: rest)
      end
  end.

(** [for cb in list(cbs): try: cb(state) except Exception: pass] *)
Fixpoint run_callbacks (cbs : list Callback) (state : FrameState)
    : result unit * list event :=
  match cbs with
  | [] => (Ok tt, [])
  | cb :: rest =>
      match try_except
              (match cb_call cb state with Some e => Raise e | None => Ok tt end)
              (fun _ => Ok tt) (Ok tt) with
      | Ok _ => let '(r, log) := run_callbacks rest state in
                (r, Called (cb_id cb) state :: log)
      | Raise e => (Raise e, [Called (cb_id cb) state])
      end
  end.

(** The state a tick leaves behind. *)
Definition tick_state (p : InputPipeline) (gens : list Generator)
    (mods : list Modifier) (sent_at : float) (s : option SerialInterface)
    : InputPipeline :=
  {| generators := gens; modifiers := mods;
     send_interval := send_interval p; last_send := sent_at;
     serial := s;
     _on_generate_callbacks := _on_generate_callbacks p;
     _on_post_mod_callbacks := _on_post_mod_callbacks p |}.

(** The rate gate and the transmit step at the end of [update]. *)
Definition gate_open (p : InputPipeline) (now : float) : bool :=
  (send_interval p <=? now - last_send p)%float.

Definition transmit (p : InputPipeline) (now : float) (state : FrameState)
    : result unit * float * option SerialInterface :=
  match serial p with
  | Some si =>
      if gate_open p now then
        let '(r, si') := send_frame si (FrameObj state) in
        match r with
        | Ok _ => (Ok tt, now, Some si')
        | Raise e => (Raise e, last_send p, Some si')
        end
      else (Ok tt, last_send p, Some si)
  | None => (Ok tt, last_send p, None)
  end.

(** [InputPipeline.update]: one tick at clock reading [now].  The result
    is what the call returns or raises, the pipeline afterwards, and the
    callbacks the tick invoked. *)
Definition update (p : InputPipeline) (now : float)
    : result (option FrameState) * InputPipeline * list event :=
  let '(r0, gens) := combine_generators (generators p) in
  let p0 := tick_state p gens (modifiers p) (last_send p) (serial p) in
  match r0 with
  | Raise e => (Raise e, p0, [])
  | Ok None => (Ok None, p0, [])
  | Ok (Some state) =>
      let '(r1, log1) := run_callbacks (_on_generate_callbacks p) state in
      match r1 with
      | Raise e => (Raise e, p0, log1)
      | Ok _ =>
          let '(r2, mods) := apply_modifiers (modifiers p) state in
          let p2 := tick_state p gens mods (last_send p) (serial p) in
          match r2 with
          | Raise e => (Raise e, p2, log1)
          | Ok state' =>
              let '(r3, log3) := run_callbacks (_on_post_mod_callbacks p) state' in
              match r3 with
              | Raise e => (Raise e, p2, log1 ++ log3)
              | Ok _ =>
                  let '(r4, sent_at, s) := transmit p now state' in
                  let p4 := tick_state p gens mods sent_at s in
                  match r4 with
                  | Raise e => (Raise e, p4, log1 ++ log3)
                  | Ok _ => (Ok (Some state'), p4, log1 ++ log3)
                  end
              end
          end
      end
  end.

(** How [run_loop] ends. *)
Inductive loop_end : Type :=
| StillRunning
| Stopped
| Crashed (e : exn).

(** [run_loop], driven by the successive clock readings: it runs until a
    tick raises; [KeyboardInterrupt] closes the transport and stops the
    loop, any other exception leaves it. *)
Fixpoint run_loop (p : InputPipeline) (clock : list float)
    : loop_end * InputPipeline * list event :=
  match clock with
  | [] => (StillRunning, p, [])
  | now :: later =>
      let '(r, p', log) := update p now in
      match r with
      | Ok _ =>
          let '(e, p'', log') := run_loop p' later in (e, p'', log ++ log')
      | Raise KeyboardInterrupt =>
          (Stopped,
           tick_state p' (generators p') (modifiers p') (last_send p')
             (option_map close_interface (serial p')),
           log)
      | Raise e => (Crashed e, p', log)
      end
  end.

(** Everything the pipeline's transport received so far. *)
Definition transmitted (p : InputPipeline) : list bytes :=
  match serial p with
  | Some si => written si
  | None => []
  end.

(* ================================================================== *)
(** ** [modules/xinput.py]: the XInput generator *)

Module XInput.

(** [BUTTON_MAP], in the order of the dict. *)
Definition BUTTON_MAP : list (string * Z) :=
  [ ("A", 0x1000); ("B", 0x2000); ("X", 0x4000); ("Y", 0x8000);
    ("LB", 0x0100); ("RB", 0x0200); ("BACK", 0x0020); ("START", 0x0010);
    ("LS", 0x0040); ("RS", 0x0080) ].

Definition ERROR_SUCCESS : Z := 0.
Definition ERROR_DEVICE_NOT_CONNECTED : Z := 1167.

(** [except (C1, C2)]: the handler takes the listed classes only. *)
Definition is_TypeError_or_ValueError (e : exn) : bool :=
  match e with TypeError | ValueError => true | _ => false end.

Definition is_IndexError_or_ValueError (e : exn) : bool :=
  match e with IndexError | ValueError => true | _ => false end.

(** [ValueError] or [BufferError]; the latter is not among the exceptions
    the modelled operations raise. *)
Definition is_ValueError_or_BufferError (e : exn) : bool :=
  match e with ValueError => true | _ => false end.

(** A [try] block with one handler: what the block gives, unless it raises
    an exception of the handler's classes. *)
Definition try_block {A : Type} (classes : exn -> bool) (body : result A)
    (handler : result A) : result A :=
  match body with
  | Ok a => Ok a
  | Raise e => if classes e then handler else Raise e
  end.

(** [_normalize_stick], with the default scale. *)
Definition _normalize_stick (value : Z) : result float :=
  try_block is_TypeError_or_ValueError
    (let? v := float_of_int value in
     Ok (py_max neg_one (py_min one (v / 32768)%float)))
    (Ok zero).

(** [_normalize_trigger] *)
Definition _normalize_trigger (value : Z) : result float :=
  try_block is_TypeError_or_ValueError
    (let? v := float_of_int value in
     Ok (py_max neg_one (py_min one ((v - 127.5) / 127.5)%float)))
    (Ok zero).

(** [raw[i:j]] and [raw[i]] on the bytes of the state buffer. *)
Definition slice (raw : list Z) (i j : nat) : list Z := firstn (j - i) (skipn i raw).

(** [int.from_bytes(b, 'little')] *)
Fixpoint int_from_bytes_little (b : list Z) : Z :=
  match b with
  | [] => 0
  | x :: rest => x + 256 * int_from_bytes_little rest
  end.

(** [ctypes.c_short.from_buffer_copy(b).value] on a little-endian machine:
    the first two bytes as a signed 16-bit int, [ValueError] when there
    are fewer. *)
Definition c_short_value (b : list Z) : result Z :=
  match b with
  | lo :: hi :: _ =>
      let u := lo + 256 * hi in
      Ok (if u <? 32768 then u else u - 65536)
  | _ => Raise ValueError
  end.

(** The local variables that [read_xinput] returns in its dict. *)
Record locals : Type := {
  l_buttons : list bool;
  l_axes : list float;
  l_dpad : Z * Z
}.

Definition is_set (w mask : Z) : bool := negb (Z.land w mask =? 0).

(** The four stick reads, in their own [try]. *)
Definition read_sticks (raw : list Z) : result (float * float * float * float) :=
  try_block is_ValueError_or_BufferError
    (let? lx := (let? v := c_short_value (slice raw 8 10) in _normalize_stick v) in
     let? ly := (let? v := c_short_value (slice raw 10 12) in _normalize_stick v) in
     let? rx := (let? v := c_short_value (slice raw 12 14) in _normalize_stick v) in
     let? ry := (let? v := c_short_value (slice raw 14 16) in _normalize_stick v) in
     Ok (lx, (- ly)%float, rx, (- ry)%float))
    (Ok (zero, zero, zero, zero)).

(** The dpad from the button word: four tests in a row, each assigning
    over what the one before it assigned. *)
Definition read_dpad (wButtons : Z) : Z * Z :=
  let hx := 0 in
  let hy := 0 in
  let hy := if is_set wButtons 0x0001 then 1 else hy in
  let hy := if is_set wButtons 0x0002 then -1 else hy in
  let hx := if is_set wButtons 0x0004 then -1 else hx in
  let hx := if is_set wButtons 0x0008 then 1 else hx in
  (hx, hy).

(** The body of the inner [try] of [read_xinput]: the locals as far as
    they were assigned, and the exception that ended the block, if any. *)
Definition decode_state (raw : list Z) (st : locals) : locals * option exn :=
  let wButtons := int_from_bytes_little (slice raw 4 6) in
  let st1 := {| l_buttons := map (fun entry => is_set wButtons (snd entry)) BUTTON_MAP
                             ++ skipn (List.length BUTTON_MAP) (l_buttons st);
                l_axes := l_axes st; l_dpad := l_dpad st |} in
  match (let? b := list_get raw 6 in _normalize_trigger b) with
  | Raise e => (st1, Some e)
  | Ok lt =>
      match (let? b := list_get raw 7 in _normalize_trigger b) with
      | Raise e => (st1, Some e)
      | Ok rt =>
          match read_sticks raw with
          | Raise e => (st1, Some e)
          | Ok (lx, ly, rx, ry) =>
              ({| l_buttons := l_buttons st1;
                  l_axes := [lx; ly; rx; ry; lt; rt];
                  l_dpad := read_dpad wButtons |}, None)
          end
      end
  end.

(** The dict that [read_xinput] returns. *)
Definition locals_dict (st : locals) : pyval :=
  VDict [ (VStr "buttons", VList (map VBool (l_buttons st)));
          (VStr "axes", VList (map VFloat (l_axes st)));
          (VStr "dpad", VTuple [VInt (fst (l_dpad st)); VInt (snd (l_dpad st))]) ].

Definition neutral : locals :=
  {| l_buttons := repeat false 10; l_axes := repeat zero 6; l_dpad := (0, 0) |}.

(** [read_xinput]; [driver] is what the call of [XInputGetState] does: it
    returns a result code and leaves the state buffer, or raises. *)
Definition read_xinput (driver : result (Z * list Z)) : result pyval :=
  match driver with
  | Raise e => if is_Exception e then Ok (locals_dict neutral) else Raise e
  | Ok (res, raw) =>
      if (res =? ERROR_SUCCESS) && Nat.leb 16 (List.length raw) then
        let '(st, raised) := decode_state raw neutral in
        match raised with
        | None => Ok (locals_dict st)
        | Some e =>
            if is_IndexError_or_ValueError e then Ok (locals_dict st)
            else if is_Exception e then Ok (locals_dict st)
            else Raise e
        end
      else Ok (locals_dict neutral)
  end.

(** [generate]; [dll_loaded] is the truth of [self.xinput]. *)
Definition generate (float_of_str : string -> option float)
    (int_of_str : string -> option Z) (dll_loaded : bool)
    (driver : result (Z * list Z)) : result FrameState :=
  if negb dll_loaded then Ok default_state
  else
    match (let? raw := read_xinput driver in
           from_dict float_of_str int_of_str raw) with
    | Ok f => Ok f
    | Raise e => if is_Exception e then Ok default_state else Raise e
    end.

(** [float(n)] for an int that fits a double. *)
Definition float_of (z : Z) : float := SF2Prim (binary_normalize prec emax z 0 false).

(** The stick and trigger scalings, where nothing is raised. *)
Definition stick (z : Z) : float :=
  py_max neg_one (py_min one (float_of z / 32768)%float).

Definition trigger (z : Z) : float :=
  py_max neg_one (py_min one ((float_of z - 127.5) / 127.5)%float).

(** The signed 16-bit int of two bytes, low byte first. *)
Definition short (lo hi : Z) : Z :=
  if lo + 256 * hi <? 32768 then lo + 256 * hi else lo + 256 * hi - 65536.

(** Byte [i] of the state buffer. *)
Definition byte (raw : list Z) (i : nat) : Z := nth i raw 0.

(** The frame that the state buffer of a connected controller stands for:
    the ten buttons in the order of [BUTTON_MAP], the sticks with the
    vertical axes negated, the triggers, the dpad. *)
Definition decoded (raw : list Z) : FrameState :=
  let w := byte raw 4 + 256 * byte raw 5 in
  frame (map (fun entry => is_set w (snd entry)) BUTTON_MAP)
        [ stick (short (byte raw 8) (byte raw 9));
          (- stick (short (byte raw 10) (byte raw 11)))%float;
          stick (short (byte raw 12) (byte raw 13));
          (- stick (short (byte raw 14) (byte raw 15)))%float;
          trigger (byte raw 6);
          trigger (byte raw 7) ]
        (read_dpad w).

End XInput.

(* ================================================================== *)
(** ** Vocabulary of the statements, and test doubles *)

(** What the deadzone does to one stick axis [v] under threshold [T]:
    zero exactly when [abs(v) < T], else [v]; in particular [v] is kept
    when [abs(v)] equals [T]. *)
Definition deadzoned (T v v' : float) : Prop :=
  (if (abs v <? T)%float then v' = zero else v' = v)
  /\ ((abs v =? T)%float = true -> v' = v).




(** A port argument that names no real port: [None], or text whose
    upper-case form starts with MOCK. *)
Definition names_no_port (port : pyval) : bool :=
  match port with
  | VNone => true
  | VStr s => String.prefix "MOCK" (upper s)
  | _ => false
  end.

(** The pipeline a tick at [now] leaves behind. *)
Definition after (p : InputPipeline) (now : float) : InputPipeline :=
  snd (fst (update p now)).

(** A callback list whose members raise nothing but [Exception]s. *)
Definition raise_only_Exception (cbs : list Callback) : Prop :=
  forall cb f e, In cb cbs -> cb_call cb f = Some e -> is_Exception e = true.

(** The calls a callback list receives for a frame, in order. *)
Definition calls_of (cbs : list Callback) (state : FrameState) : list event :=
  map (fun cb => Called (cb_id cb) state) cbs.

(** Test doubles: a generator that fails at every call, one that yields
    the same frame at every call, a callback that fails at every call, and
    the serial port of the test suite. *)
Definition failing_generator (e : exn) : Generator :=
  {| behaviour := fun _ => Raise e; calls := 0 |}.

Definition constant_generator (f : FrameState) : Generator :=
  {| behaviour := fun _ => Ok (Some f); calls := 0 |}.

Definition failing_callback (id : nat) (e : exn) : Callback :=
  {| cb_id := id; cb_call := fun _ => Some e |}.

Definition quiet_callback (id : nat) : Callback :=
  {| cb_id := id; cb_call := fun _ => None |}.

Definition mock_serial : Serial :=
  {| written_data := []; is_open := true; write_fails := false |}.

Definition mock_pipeline (gens : list Generator) (mods : list Modifier)
    (pre post : list Callback) : InputPipeline :=
  {| generators := gens; modifiers := mods;
     send_interval := 0.005; last_send := zero;
     serial := Some {| ser := Some mock_serial |};
     _on_generate_callbacks := pre; _on_post_mod_callbacks := post |}.

(** Text parsers that accept nothing: enough for raw samples without
    numeric text. *)
Definition no_float_text : string -> option float := fun _ => None.
Definition no_int_text : string -> option Z := fun _ => None.

Definition sample_frame : FrameState :=
  frame [true; false; true; false; false; true; false; false; true; false]
        [0.5; -1; 1; 0; 0.25; -0.75]%float (1, -1).

Definition steady_pipeline : InputPipeline :=
  mock_pipeline [constant_generator sample_frame] [DeadzoneModifier_default] [] [].

Definition faulty_pipeline : InputPipeline :=
  mock_pipeline [failing_generator RuntimeError] [DeadzoneModifier_default]
    [quiet_callback 1] [quiet_callback 2].

Definition chat_left : Modifier :=
  TwitchChatModifier [VDict [(VStr "user", VStr "xyz"); (VStr "msg", VStr "left")]].

Definition noisy_pipeline : InputPipeline :=
  mock_pipeline [constant_generator sample_frame] [HairTriggers_default]
    [failing_callback 1 ValueError; quiet_callback 2]
    [quiet_callback 3; failing_callback 4 RuntimeError].

Definition sample_frame_fired : FrameState :=
  frame [true; false; true; false; false; true; false; false; true; false]
        [0.5; -1; 1; 0; 0.25; -1]%float (1, -1).

(** A built-in value: no object of another class. *)
Definition is_builtin (x : pyval) : bool :=
  match x with
  | VObject _ _ _ => false
  | _ => true
  end.

(** [bool(x)] returns; what [float(x)], [int(x)] raise, if they raise, is
    an [Exception]. *)
Definition bool_returns (x : pyval) : bool :=
  match py_bool x with
  | Ok _ => true
  | Raise _ => false
  end.

Definition float_caught (float_of_str : string -> option float) (x : pyval) : bool :=
  match py_float float_of_str x with
  | Ok _ => true
  | Raise e => is_Exception e
  end.

Definition int_caught (int_of_str : string -> option Z) (x : pyval) : bool :=
  match py_int int_of_str x with
  | Ok _ => true
  | Raise e => is_Exception e
  end.

(** The entries of the list or tuple under key [k], if there is one. *)
Definition entries (d : list (pyval * pyval)) (k : string) : list pyval :=
  match as_sequence (dict_get d k) with
  | Some l => l
  | None => []
  end.

(** A raw value whose conversions are contained: the truth test of every
    button entry returns, and the numeric conversions of the axis entries
    and of the first two dpad entries raise nothing outside [Exception].
    A raw value that is no dict has nothing to convert. *)
Definition conversions_contained (float_of_str : string -> option float)
    (int_of_str : string -> option Z) (raw : pyval) : bool :=
  match raw with
  | VDict d =>
      forallb bool_returns (entries d "buttons")
      && forallb (float_caught float_of_str) (entries d "axes")
      && forallb (int_caught int_of_str) (firstn 2 (entries d "dpad"))
  | _ => true
  end.

(** A raw value whose button, axis and dpad entries are built-in values. *)
Definition builtin_entries (raw : pyval) : bool :=
  match raw with
  | VDict d =>
      forallb is_builtin (entries d "buttons")
      && forallb is_builtin (entries d "axes")
      && forallb is_builtin (entries d "dpad")
  | _ => true
  end.

(** The value of [bool(x)]. *)
Definition py_truth (x : pyval) : bool :=
  match py_bool x with
  | Ok b => b
  | Raise _ => false
  end.

(** A healthy pipeline: its first generator yields, at every call, a frame
    that satisfies the invariants; its modifiers are deadzones and hair
    triggers; its callbacks raise nothing but [Exception]s; and its
    transport, if any, is an open port whose writes succeed. *)
Definition steady_generator (g : Generator) : Prop :=
  forall n, exists f, behaviour g n = Ok (Some f) /\ frame_ok f = true.

Definition range_keeping (m : Modifier) : bool :=
  match m with
  | DeadzoneModifier _ _ | HairTriggers _ => true
  | _ => false
  end.

Definition healthy_transport (s : option SerialInterface) : Prop :=
  match s with
  | None => True
  | Some si => match ser si with
               | Some port => write_fails port = false
               | None => False
               end
  end.

Definition healthy (p : InputPipeline) : Prop :=
  (exists g rest, generators p = g :: rest /\ steady_generator g)
  /\ forallb range_keeping (modifiers p) = true
  /\ raise_only_Exception (_on_generate_callbacks p)
  /\ raise_only_Exception (_on_post_mod_callbacks p)
  /\ healthy_transport (serial p).

(** The pipeline's port, if it has one, is closed. *)
Definition port_closed (p : InputPipeline) : Prop :=
  match serial p with
  | Some si => match ser si with
               | Some port => is_open port = false
               | None => True
               end
  | None => True
  end.

(** An axis value, or zero where the deadzone struck. *)
Definition zeroed_or (z : bool) (v : float) : float := if z then zero else v.

(** A raw dict as an untrusted source may give it, and what
    [from_dict] makes of it. *)
Definition raw_sample : list (pyval * pyval) :=
  [ (VStr "buttons", VList [VBool true; VStr "x"; VNone; VInt 0]);
    (VStr "axes", VList [VFloat 0.5; VFloat (-0.25)]);
    (VStr "dpad", VTuple [VInt 5; VStr "x"]) ].

Definition raw_sample_frame : FrameState :=
  frame [true; true; false; false; false; false; false; false; false; false]
        [0.5; -0.25; 0; 0; 0; 0]%float (0, 0).

(** A frame with one axis only. *)
Definition one_axis_frame : FrameState := frame [] [0.5%float] (0, 0).

(** Pipelines without a transport, and with an interface whose port is
    not open. *)
Definition offline_pipeline : InputPipeline :=
  {| generators := [constant_generator sample_frame];
     modifiers := [HairTriggers_default];
     send_interval := 0.005; last_send := zero;
     serial := None;
     _on_generate_callbacks := []; _on_post_mod_callbacks := [] |}.

Definition closed_port_pipeline : InputPipeline :=
  {| generators := [constant_generator sample_frame];
     modifiers := [HairTriggers_default];
     send_interval := 0.005; last_send := zero;
     serial := Some {| ser := None |};
     _on_generate_callbacks := [quiet_callback 1];
     _on_post_mod_callbacks := [quiet_callback 2] |}.

(** A state buffer: button A and dpad up held, left trigger fully pressed,
    left stick fully left and fully up, right stick halfway down. *)
Definition sample_state : list Z :=
  [0; 0; 0; 0; 0x01; 0x10; 255; 0; 0; 128; 255; 127; 0; 0; 0; 192; 0; 0; 0; 0].

(** A pipeline whose first observer ends the process: [sys.exit()] in a
    callback raises [SystemExit]. *)
Definition exiting_pipeline : InputPipeline :=
  mock_pipeline [constant_generator sample_frame] [HairTriggers_default]
    [failing_callback 1 SystemExit; quiet_callback 2] [quiet_callback 3].

(** Objects of other classes: one whose truth test raises, as that of a
    numpy array of two elements does; one whose [__float__] and [__int__]
    call [sys.exit()]; one whose conversions fail with ordinary errors. *)
Definition ambiguous_array : pyval :=
  VObject (Raise ValueError) (Raise TypeError) (Raise TypeError).

Definition exiting_number : pyval :=
  VObject (Ok true) (Raise SystemExit) (Raise SystemExit).

Definition failing_number : pyval :=
  VObject (Ok true) (Raise (OtherException "ZeroDivisionError")) (Raise OverflowError).

(* ================================================================== *)
(** * Facts about float comparison *)

Module FloatFacts.

Lemma SFcompare_antisym (x y : spec_float) :
  SFcompare y x = option_map CompOpp (SFcompare x y).
Proof.
  destruct x as [sx| sx | | sx mx ex], y as [sy | sy | | sy my ey]; simpl;
    try reflexivity;
    try (destruct sx; reflexivity);
    try (destruct sy; reflexivity);
    try (destruct sx, sy; reflexivity).
  destruct sx, sy; simpl; try reflexivity;
    rewrite (Z.compare_antisym ex ey);
    destruct (ex ?= ey); simpl; try reflexivity;
    pose proof (Pos.compare_cont_antisym mx my Eq) as H; simpl in H;
    rewrite <- H; destruct (Pos.compare_cont Eq mx my); reflexivity.
Qed.

Lemma SFcompare_Eq_finite (x : spec_float) (s : bool) (m : positive) (e : Z) :
  SFcompare x (S754_finite s m e) = Some Eq -> x = S754_finite s m e.
Proof.
  destruct x as [sx | sx | | sx mx ex]; simpl.
  - destruct s; discriminate.
  - destruct sx; discriminate.
  - discriminate.
  - destruct sx, s; try discriminate;
      destruct (ex ?= e) eqn:He; try discriminate;
      apply Z.compare_eq in He; subst ex; intros H;
      destruct (Pos.compare_cont Eq mx m) eqn:Hm; try discriminate;
      apply Pos.compare_eq in Hm; subst; reflexivity.
Qed.

Lemma ltb_leb (x y : float) : (x <? y)%float = true -> (x <=? y)%float = true.
Proof.
  rewrite ltb_spec, leb_spec. unfold SFltb, SFleb.
  destruct (SFcompare (Prim2SF x) (Prim2SF y)) as [[ | | ] | ]; congruence.
Qed.

Lemma ltb_not_leb (x y : float) : (x <? y)%float = true -> (y <=? x)%float = false.
Proof.
  rewrite ltb_spec, leb_spec. unfold SFltb, SFleb.
  rewrite (SFcompare_antisym (Prim2SF x) (Prim2SF y)).
  destruct (SFcompare (Prim2SF x) (Prim2SF y)) as [[ | | ] | ]; simpl; congruence.
Qed.

Lemma leb_not_ltb (x y : float) : (x <=? y)%float = true -> (y <? x)%float = false.
Proof.
  rewrite ltb_spec, leb_spec. unfold SFltb, SFleb.
  rewrite (SFcompare_antisym (Prim2SF x) (Prim2SF y)).
  destruct (SFcompare (Prim2SF x) (Prim2SF y)) as [[ | | ] | ]; simpl; congruence.
Qed.

Lemma eqb_not_ltb (x y : float) : (x =? y)%float = true -> (x <? y)%float = false.
Proof.
  rewrite eqb_spec, ltb_spec. unfold SFeqb, SFltb.
  destruct (SFcompare (Prim2SF x) (Prim2SF y)) as [[ | | ] | ]; congruence.
Qed.

(** A float that is [<=] but not [<] a non-zero finite constant is that
    constant. *)
Lemma leb_not_ltb_eq (x c : float) (s : bool) (m : positive) (e : Z) :
  Prim2SF c = S754_finite s m e ->
  (x <=? c)%float = true -> (x <? c)%float = false -> x = c.
Proof.
  intros Hc. rewrite ltb_spec, leb_spec. unfold SFltb, SFleb.
  destruct (SFcompare (Prim2SF x) (Prim2SF c)) as [[ | | ] | ] eqn:H; try congruence.
  intros _ _. rewrite Hc in H. apply SFcompare_Eq_finite in H.
  apply Prim2SF_inj. congruence.
Qed.

Lemma geb_not_gtb_eq (x c : float) (s : bool) (m : positive) (e : Z) :
  Prim2SF c = S754_finite s m e ->
  (c <=? x)%float = true -> (c <? x)%float = false -> x = c.
Proof.
  intros Hc. rewrite ltb_spec, leb_spec. unfold SFltb, SFleb.
  rewrite (SFcompare_antisym (Prim2SF x) (Prim2SF c)).
  destruct (SFcompare (Prim2SF x) (Prim2SF c)) as [[ | | ] | ] eqn:H; simpl; try congruence.
  intros _ _. rewrite Hc in H. apply SFcompare_Eq_finite in H.
  apply Prim2SF_inj. congruence.
Qed.

Lemma Prim2SF_one : Prim2SF one = S754_finite false 4503599627370496 (-52).
Proof. reflexivity. Qed.

Lemma Prim2SF_neg_one : Prim2SF neg_one = S754_finite true 4503599627370496 (-52).
Proof. reflexivity. Qed.

(** *** Division by [1.0] is exact

    [x / 1.0] is [x] for every double, through the specification of the
    division: the quotient of the significands is exact, and rounding
    an exact canonical value changes nothing. *)

Lemma div_eucl_div_mod (a b : Z) : Z.div_eucl a b = (a / b, a mod b).
Proof. unfold Z.div, Z.modulo. now destruct (Z.div_eucl a b). Qed.

Lemma valid_finite_cases (m : positive) (e : Z) :
  bounded prec emax m e = true ->
  e <= 971 /\ ((Zpos (digits2_pos m) = 53 /\ -1074 < e) \/ (e = -1074 /\ Zpos (digits2_pos m) <= 53)).
Proof.
  unfold bounded, canonical_mantissa, fexp, SpecFloat.emin, prec, emax.
  intros H. apply andb_prop in H. destruct H as [H1 H2].
  apply Z.eqb_eq in H1. apply Z.leb_le in H2. lia.
Qed.

Lemma SFdiv_one (x : spec_float) :
  valid_binary x = true ->
  SFdiv prec emax x (S754_finite false 4503599627370496 (-52)) = x.
Proof.
  destruct x as [s | s | | s m e]; cbn [SFdiv valid_binary]; intros Hv;
    try (now rewrite ?xorb_false_r).
  apply valid_finite_cases in Hv. destruct Hv as [Hmax [[Hd He] | [He Hd]]].
  - unfold SFdiv_core_binary. cbn [Zdigits2]. rewrite Hd.
    change (Zpos (digits2_pos 4503599627370496)) with 53.
    replace (Z.min (fexp prec emax (53 + e - (53 + -52))) (e - -52)) with (e - 1)
      by (unfold fexp, SpecFloat.emin, prec, emax; lia).
    replace (e - -52 - (e - 1)) with 53 by lia.
    rewrite div_eucl_div_mod.
    rewrite Z.shiftl_mul_pow2 by lia.
    change (2 ^ 53) with (2 * 4503599627370496).
    rewrite Z.mul_assoc, Z.div_mul, Z.mod_mul by lia.
    change (new_location 4503599627370496 0) with loc_Exact.
    unfold binary_round_aux, shr_fexp.
    replace (Z.pos m * 2) with (Zpos m~0) by lia. cbn [Zdigits2 digits2_pos].
    rewrite Pos2Z.inj_succ, Hd.
    replace (fexp prec emax (Z.succ 53 + (e - 1)) - (e - 1)) with 1
      by (unfold fexp, SpecFloat.emin, prec, emax; lia).
    cbn [shr shr_record_of_loc iter_pos shr_1 shr_m loc_of_shr_record round_nearest_even orb].
    cbn [Zdigits2]. rewrite Hd.
    replace (fexp prec emax (53 + (e - 1 + 1)) - (e - 1 + 1)) with 0
      by (unfold fexp, SpecFloat.emin, prec, emax; lia).
    cbn [shr shr_m shr_record_of_loc].
    replace (e - 1 + 1) with e by lia.
    replace (e <=? emax - prec) with true by (symmetry; apply Z.leb_le; unfold emax, prec; lia).
    now rewrite xorb_false_r.
  - subst e. unfold SFdiv_core_binary. cbn [Zdigits2].
    change (Zpos (digits2_pos 4503599627370496)) with 53.
    assert (Hd1 : 1 <= Zpos (digits2_pos m)) by lia.
    replace (Z.min (fexp prec emax (Zpos (digits2_pos m) + -1074 - (53 + -52))) (-1074 - -52))
      with (-1074) by (unfold fexp, SpecFloat.emin, prec, emax; lia).
    change (-1074 - -52 - -1074) with 52.
    rewrite div_eucl_div_mod.
    rewrite Z.shiftl_mul_pow2 by lia.
    change (2 ^ 52) with 4503599627370496.
    rewrite Z.div_mul, Z.mod_mul by lia.
    change (new_location 4503599627370496 0) with loc_Exact.
    unfold binary_round_aux, shr_fexp. cbn [Zdigits2].
    replace (fexp prec emax (Zpos (digits2_pos m) + -1074) - -1074) with 0
      by (unfold fexp, SpecFloat.emin, prec, emax; lia).
    cbn [shr shr_record_of_loc shr_m loc_of_shr_record round_nearest_even].
    cbn [Zdigits2].
    replace (fexp prec emax (Zpos (digits2_pos m) + -1074) - -1074) with 0
      by (unfold fexp, SpecFloat.emin, prec, emax; lia).
    cbn [shr shr_m]. now rewrite xorb_false_r.
Qed.

Lemma div_one (x : float) : (x / 1)%float = x.
Proof.
  apply Prim2SF_inj. rewrite div_spec. unfold SF64div.
  change (Prim2SF 1) with (S754_finite false 4503599627370496 (-52)).
  apply SFdiv_one, Prim2SF_valid.
Qed.

(** The clamp [max(-1.0, min(1.0, v))] always lands in the unit range... *)
Lemma clamp_in_unit_range (v : float) :
  in_unit_range (py_max neg_one (py_min one v)) = true.
Proof.
  unfold py_min. destruct (v <? one)%float eqn:H1.
  - unfold py_max. destruct (neg_one <? v)%float eqn:H2.
    + unfold in_unit_range. now rewrite (ltb_leb _ _ H1), (ltb_leb _ _ H2).
    + reflexivity.
  - reflexivity.
Qed.

(** ... and leaves a value of the unit range as it is. *)
Lemma clamp_id (v : float) :
  in_unit_range v = true -> py_max neg_one (py_min one v) = v.
Proof.
  unfold in_unit_range. intros H. apply andb_prop in H. destruct H as [Hlo Hhi].
  unfold py_min. destruct (v <? one)%float eqn:H1.
  - unfold py_max. destruct (neg_one <? v)%float eqn:H2; [reflexivity|].
    symmetry. exact (geb_not_gtb_eq _ _ _ _ _ Prim2SF_neg_one Hlo H2).
  - rewrite (leb_not_ltb_eq _ _ _ _ _ Prim2SF_one Hhi H1). reflexivity.
Qed.

(** *** Adding and subtracting [0.5] within the unit range

    For [x <= 1.0] the difference [x - 0.5] is not above [1.0], and for
    [-1.0 <= x] the sum [x + 0.5] is not below [-1.0]: either the exact
    result has the harmless sign, which rounding keeps, or it is a small
    multiple of [2^-53] that is representable as it is. *)

Lemma digits2_pos_size (p : positive) : digits2_pos p = Pos.size p.
Proof. induction p; simpl; congruence. Qed.

Lemma digits_upper (p : positive) : Zpos p < 2 ^ Zpos (digits2_pos p).
Proof.
  rewrite digits2_pos_size. pose proof (Pos.size_gt p) as H.
  rewrite <- Pos2Z.inj_pow. exact H.
Qed.

Lemma digits_lower (p : positive) : 2 ^ Zpos (digits2_pos p) <= 2 * Zpos p.
Proof.
  rewrite digits2_pos_size. pose proof (Pos.size_le p) as H.
  rewrite <- Pos2Z.inj_pow. exact H.
Qed.

Lemma digits_iter_xO (p k : positive) :
  Zpos (digits2_pos (Pos.iter xO p k)) = Zpos (digits2_pos p) + Zpos k.
Proof.
  apply (Pos.iter_ind _ xO p
           (fun k a => Zpos (digits2_pos a) = Zpos (digits2_pos p) + Zpos k)).
  - simpl. lia.
  - intros q a IH. simpl. lia.
Qed.







Lemma valid_mantissa_bound (m : positive) (e : Z) :
  bounded prec emax m e = true -> Zpos m < 2 ^ 53.
Proof.
  intros H. apply valid_finite_cases in H. destruct H as [_ H].
  pose proof (digits_upper m) as Hu.
  assert (2 ^ Zpos (digits2_pos m) <= 2 ^ 53) by (apply Z.pow_le_mono_r; lia).
  lia.
Qed.

(** [x <= 1.0] for a positive double, on its significand and exponent. *)
Lemma le_one_cases (m : positive) (e : Z) :
  bounded prec emax m e = true ->
  SFleb (S754_finite false m e) one_sf = true ->
  e <= -53 \/ (e = -52 /\ m = 4503599627370496%positive).
Proof.
  intros Hv. unfold SFleb, one_sf; cbn [SFcompare].
  destruct (Z.compare_spec e (-52)) as [He | He | He]; try discriminate; [| lia].
  subst e. intros H. right. split; [reflexivity |].
  apply valid_finite_cases in Hv. destruct Hv as [_ [[Hd _] | [Hd _]]]; [| lia].
  pose proof (digits_lower m) as Hlo. rewrite Hd in Hlo.
  change (2 ^ 53) with (2 * 4503599627370496) in Hlo.
  destruct (Pos.compare_cont Eq m 4503599627370496) eqn:Hc; try discriminate.
  - now apply Pos.compare_eq in Hc.
  - assert (Hlt : Z.pos m < 4503599627370496) by exact Hc.
    clear Hc. exfalso. lia.
Qed.

Lemma ge_neg_one_cases (m : positive) (e : Z) :
  bounded prec emax m e = true ->
  SFleb neg_one_sf (S754_finite true m e) = true ->
  e <= -53 \/ (e = -52 /\ m = 4503599627370496%positive).
Proof.
  intros Hv. unfold SFleb, neg_one_sf; cbn [SFcompare].
  destruct (Z.compare_spec (-52) e) as [He | He | He]; try discriminate; [| lia].
  subst e. intros H. right. split; [reflexivity |].
  apply valid_finite_cases in Hv. destruct Hv as [_ [[Hd _] | [Hd _]]]; [| lia].
  pose proof (digits_lower m) as Hlo. rewrite Hd in Hlo.
  change (2 ^ 53) with (2 * 4503599627370496) in Hlo.
  destruct (Pos.compare_cont Eq 4503599627370496 m) eqn:Hc; try discriminate.
  - apply Pos.compare_eq in Hc. now subst.
  - assert (Hgt : 4503599627370496 > Z.pos m) by exact Hc.
    clear Hc. exfalso. lia.
Qed.










(** *** Rounding a double of the unit range to binary32 never overflows *)

Lemma shr_1_bounds (mrs : shr_record) :
  0 <= shr_m mrs -> 0 <= shr_m (shr_1 mrs) <= shr_m mrs.
Proof.
  destruct mrs as [m r s]. cbn [shr_m shr_1].
  destruct m as [| [p | p |] | p]; cbn [shr_m]; lia.
Qed.

Lemma iter_shr_1_bounds (p : positive) (mrs : shr_record) :
  0 <= shr_m mrs -> 0 <= shr_m (iter_pos shr_1 p mrs) <= shr_m mrs.
Proof.
  revert mrs. induction p as [p IH | p IH |]; intros mrs H; cbn [iter_pos].
  - pose proof (shr_1_bounds mrs H) as H1.
    pose proof (IH (shr_1 mrs) (proj1 H1)) as H2.
    pose proof (IH _ (proj1 H2)) as H3. lia.
  - pose proof (IH mrs H) as H2.
    pose proof (IH _ (proj1 H2)) as H3. lia.
  - now apply shr_1_bounds.
Qed.

Lemma shr_bounds (mrs : shr_record) (e n : Z) :
  0 <= shr_m mrs ->
  0 <= shr_m (fst (shr mrs e n)) <= shr_m mrs
  /\ snd (shr mrs e n) <= Z.max e (e + n).
Proof.
  intros H. destruct n as [| p | p]; cbn [shr fst snd]; try lia.
  split; [now apply iter_shr_1_bounds | lia].
Qed.

Lemma shr_m_of_loc (m : Z) (l : location) : shr_m (shr_record_of_loc m l) = m.
Proof. destruct l as [| []]; reflexivity. Qed.

Lemma round_nearest_even_bounds (m : Z) (l : location) :
  0 <= m -> 0 <= round_nearest_even m l <= m + 1.
Proof.
  intros H. destruct l as [| []]; cbn [round_nearest_even]; try lia.
  destruct (Z.even m); lia.
Qed.

Lemma Zdigits2_bound (a k : Z) : 0 <= k -> 0 <= a < 2 ^ k -> Zdigits2 a <= k.
Proof.
  intros Hk [Ha Hlt]. destruct a as [| p | p]; cbn [Zdigits2]; try lia.
  pose proof (digits_lower p) as Hlo.
  destruct (Z_le_gt_dec (Zpos (digits2_pos p)) k) as [H | H]; [exact H |].
  assert (2 ^ (k + 1) <= 2 ^ Zpos (digits2_pos p)) by (apply Z.pow_le_mono_r; lia).
  rewrite Z.pow_add_r in * by lia. lia.
Qed.

(** Rounding to binary32 a value below [2] in magnitude, given as a
    significand below [2^53] at an exponent of at most [-52]. *)
Lemma binary_round_aux_32_finite (s : bool) (m e : Z) (l : location) :
  0 <= m < 2 ^ 53 -> e <= -52 ->
  is_infinity_sf (binary_round_aux 24 128 s m e l) = false.
Proof.
  intros Hm He. unfold binary_round_aux, shr_fexp.
  pose proof (Zdigits2_bound m 53 ltac:(lia) Hm) as Hd.
  pose proof (shr_bounds (shr_record_of_loc m l) e
                (fexp 24 128 (Zdigits2 m + e) - e)) as H1.
  rewrite shr_m_of_loc in H1. specialize (H1 (proj1 Hm)).
  destruct (shr (shr_record_of_loc m l) e _) as [mrs' e'].
  cbn [fst snd] in H1. destruct H1 as [Hm' He'].
  assert (He'' : e' <= -23) by (unfold fexp, SpecFloat.emin in He'; lia).
  pose proof (round_nearest_even_bounds (shr_m mrs') (loc_of_shr_record mrs')
                (proj1 Hm')) as Hr.
  set (mr := round_nearest_even (shr_m mrs') (loc_of_shr_record mrs')) in *.
  assert (Hmr : 0 <= mr < 2 ^ 54)
    by (change (2 ^ 54) with (2 * 2 ^ 53); lia).
  pose proof (Zdigits2_bound mr 54 ltac:(lia) Hmr) as Hd'.
  pose proof (shr_bounds (shr_record_of_loc mr loc_Exact) e'
                (fexp 24 128 (Zdigits2 mr + e') - e')) as H2.
  rewrite shr_m_of_loc in H2. specialize (H2 (proj1 Hmr)).
  destruct (shr (shr_record_of_loc mr loc_Exact) e' _) as [mrs'' e''].
  cbn [fst snd] in H2. destruct H2 as [_ H2].
  assert (Hfin : e'' <= 104) by (unfold fexp, SpecFloat.emin in H2; lia).
  destruct (shr_m mrs''); try reflexivity.
  replace (e'' <=? 128 - 24) with true by (symmetry; apply Z.leb_le; lia).
  reflexivity.
Qed.

Lemma to_binary32_finite (s : bool) (m : positive) (e : Z) :
  bounded prec emax m e = true -> e <= -52 ->
  is_infinity_sf (to_binary32 (S754_finite s m e)) = false.
Proof.
  intros Hv He. pose proof (valid_mantissa_bound m e Hv) as Hb.
  apply valid_finite_cases in Hv. destruct Hv as [_ Hv].
  cbn [to_binary32]. unfold binary_round.
  assert (Hal : shl_align m e (fexp 24 128 (Zpos (digits2_pos m) + e)) = (m, e)).
  { unfold shl_align.
    destruct (fexp 24 128 (Zpos (digits2_pos m) + e) - e) as [| k | k] eqn:Hk;
      try reflexivity.
    unfold fexp, SpecFloat.emin in Hk. lia. }
  rewrite Hal. apply binary_round_aux_32_finite; lia.
Qed.

(** [struct.pack('f', x)] succeeds, with four bytes, for [x] in the unit
    range. *)
Lemma pack_f_in_unit_range (x : float) :
  in_unit_range x = true ->
  pack_f x = Ok (le_bytes 4 (bits_of_binary32 (to_binary32 (Prim2SF x)))).
Proof.
  unfold in_unit_range. intros H. apply andb_prop in H. destruct H as [Hlo Hhi].
  rewrite leb_spec in Hlo, Hhi. rewrite Prim2SF_one in Hhi.
  rewrite Prim2SF_neg_one in Hlo. fold one_sf in Hhi. fold neg_one_sf in Hlo.
  unfold pack_f. pose proof (Prim2SF_valid x) as Hv.
  destruct (Prim2SF x) as [s | s | | s m e]; try reflexivity.
  cbn [valid_binary] in Hv.
  assert (He : e <= -52).
  { destruct s.
    - destruct (ge_neg_one_cases m e Hv Hlo) as [? | [? _]]; lia.
    - destruct (le_one_cases m e Hv Hhi) as [? | [? _]]; lia. }
  rewrite (to_binary32_finite s m e Hv He). reflexivity.
Qed.

End FloatFacts.

(* ================================================================== *)
(** * Normalisation ([base.py]) *)

Section NormalizeFacts.

Variable float_of_str : string -> option float.
Variable int_of_str : string -> option Z.

Import FloatFacts.

Lemma Ok_inj {A : Type} (a b : A) : Ok a = Ok b -> a = b.
Proof. intros H. now injection H. Qed.

Lemma float_of_int_raises (z : Z) (e : exn) :
  float_of_int z = Raise e -> is_Exception e = true.
Proof.
  unfold float_of_int.
  destruct (binary_normalize prec emax z 0 false); intros H; inversion H; reflexivity.
Qed.

Lemma int_of_float_raises (x : float) (e : exn) :
  int_of_float x = Raise e -> is_Exception e = true.
Proof.
  unfold int_of_float.
  destruct (Prim2SF x); intros H; inversion H; reflexivity.
Qed.

(** On a built-in value [float(x)] and [int(x)] raise nothing that
    [except Exception] misses, and [bool(x)] returns. *)
Lemma builtin_float_caught (x : pyval) :
  is_builtin x = true -> float_caught float_of_str x = true.
Proof.
  unfold float_caught. destruct x; cbn [is_builtin py_float]; intros Hx;
    try reflexivity; try discriminate Hx.
  - destruct (float_of_int z) as [v | e] eqn:H; [reflexivity |].
    exact (float_of_int_raises _ _ H).
  - destruct (float_of_str s); reflexivity.
Qed.

Lemma builtin_int_caught (x : pyval) :
  is_builtin x = true -> int_caught int_of_str x = true.
Proof.
  unfold int_caught. destruct x; cbn [is_builtin py_int]; intros Hx;
    try reflexivity; try discriminate Hx.
  - destruct (int_of_float x) as [v | e] eqn:H; [reflexivity |].
    exact (int_of_float_raises _ _ H).
  - destruct (int_of_str s); reflexivity.
Qed.

Lemma builtin_bool_returns (x : pyval) :
  is_builtin x = true -> bool_returns x = true.
Proof.
  unfold bool_returns. destruct x; cbn [is_builtin py_bool]; intros Hx;
    try reflexivity. discriminate Hx.
Qed.

(** What [_to_float_clamped] returns is within the unit range... *)
Lemma to_float_clamped_range (x : pyval) (v : float) :
  to_float_clamped float_of_str x = Ok v -> in_unit_range v = true.
Proof.
  unfold to_float_clamped, try_except.
  destruct (py_float float_of_str x) as [w | e].
  - intros H. apply Ok_inj in H. subst v. apply clamp_in_unit_range.
  - destruct (is_Exception e); intros H; [| discriminate H].
    apply Ok_inj in H. subst v. reflexivity.
Qed.

(** ... and it returns, unless [float(x)] raises past [except Exception]. *)
Lemma to_float_clamped_ok (x : pyval) :
  float_caught float_of_str x = true ->
  exists v, to_float_clamped float_of_str x = Ok v.
Proof.
  unfold float_caught, to_float_clamped, try_except.
  destruct (py_float float_of_str x) as [v | e]; intros H.
  - eexists; reflexivity.
  - rewrite H. eexists; reflexivity.
Qed.

Lemma rmap_py_bool_ok (l : list pyval) :
  forallb bool_returns l = true -> exists b, rmap py_bool l = Ok b.
Proof.
  induction l as [| x xs IH]; cbn [forallb rmap]; intros H.
  - now exists [].
  - apply andb_prop in H. destruct H as [Hx Hxs]. destruct (IH Hxs) as [b Hb].
    rewrite Hb. unfold bool_returns in Hx.
    destruct (py_bool x) as [bx | e]; [| discriminate Hx].
    eexists; reflexivity.
Qed.

Lemma rmap_clamped_ok (l : list pyval) :
  forallb (float_caught float_of_str) l = true ->
  exists a, rmap (to_float_clamped float_of_str) l = Ok a.
Proof.
  induction l as [| x xs IH]; cbn [forallb rmap]; intros H.
  - now exists [].
  - apply andb_prop in H. destruct H as [Hx Hxs]. destruct (IH Hxs) as [a Ha].
    destruct (to_float_clamped_ok x Hx) as [v Hv]. rewrite Hv, Ha.
    eexists; reflexivity.
Qed.

Lemma rmap_clamped_range (l : list pyval) (a : list float) :
  rmap (to_float_clamped float_of_str) l = Ok a ->
  forallb in_unit_range a = true.
Proof.
  revert a. induction l as [| x xs IH]; cbn [rmap]; intros a H.
  - apply Ok_inj in H. subst a. reflexivity.
  - destruct (to_float_clamped float_of_str x) as [v | e] eqn:Hv;
      cbn [rbind] in H; [| discriminate H].
    destruct (rmap (to_float_clamped float_of_str) xs) as [vs | e];
      cbn [rbind] in H; [| discriminate H].
    apply Ok_inj in H. subst a. cbn [forallb].
    now rewrite (to_float_clamped_range x v Hv), (IH vs eq_refl).
Qed.

Lemma pad_length {A : Type} (n : nat) (l : list A) (d : A) :
  List.length (firstn n (l ++ repeat d n)) = n.
Proof.
  rewrite length_firstn, length_app, repeat_length. lia.
Qed.

Lemma In_firstn {A : Type} (n : nat) (l : list A) (x : A) :
  In x (firstn n l) -> In x l.
Proof.
  intros H. rewrite <- (firstn_skipn n l). apply in_or_app. now left.
Qed.

Lemma pad_forallb {A : Type} (P : A -> bool) (n : nat) (l : list A) (d : A) :
  forallb P l = true -> P d = true ->
  forallb P (firstn n (l ++ repeat d n)) = true.
Proof.
  intros Hl Hd. apply forallb_forall. intros x Hx.
  apply In_firstn in Hx. apply in_app_or in Hx. destruct Hx as [Hx | Hx].
  - rewrite forallb_forall in Hl. now apply Hl.
  - apply repeat_spec in Hx. now subst.
Qed.

Lemma pad_exact {A : Type} (n : nat) (l : list A) (d : A) :
  List.length l = n -> firstn n (l ++ repeat d n) = l.
Proof.
  intros H. subst n. rewrite firstn_app, Nat.sub_diag, firstn_all. simpl.
  apply app_nil_r.
Qed.

(** The three fields: what each is when it is built, and that it is
    built unless a conversion raises past its guard. *)
Lemma normalize_buttons_shape (d : list (pyval * pyval)) (b : list bool) :
  normalize_buttons d = Ok b -> List.length b = 10%nat.
Proof.
  unfold normalize_buttons. destruct (as_sequence (dict_get d "buttons")) as [l |].
  - destruct (rmap py_bool l) as [b0 | e]; cbn [rbind]; intros H;
      [| discriminate H].
    apply Ok_inj in H. subst b. apply pad_length.
  - intros H. apply Ok_inj in H. subst b. reflexivity.
Qed.

Lemma normalize_buttons_ok (d : list (pyval * pyval)) :
  forallb bool_returns (entries d "buttons") = true ->
  exists b, normalize_buttons d = Ok b.
Proof.
  unfold normalize_buttons, entries.
  destruct (as_sequence (dict_get d "buttons")) as [l |]; intros H.
  - destruct (rmap_py_bool_ok l H) as [b Hb]. rewrite Hb. eexists; reflexivity.
  - eexists; reflexivity.
Qed.

Lemma normalize_axes_shape (d : list (pyval * pyval)) (a : list float) :
  normalize_axes float_of_str d = Ok a ->
  List.length a = 6%nat /\ forallb in_unit_range a = true.
Proof.
  unfold normalize_axes. destruct (as_sequence (dict_get d "axes")) as [l |].
  - destruct (rmap (to_float_clamped float_of_str) l) as [a0 | e] eqn:Ha;
      cbn [rbind]; intros H; [| discriminate H].
    apply Ok_inj in H. subst a. split; [apply pad_length |].
    apply pad_forallb; [exact (rmap_clamped_range l a0 Ha) | reflexivity].
  - intros H. apply Ok_inj in H. subst a. split; reflexivity.
Qed.

Lemma normalize_axes_ok (d : list (pyval * pyval)) :
  forallb (float_caught float_of_str) (entries d "axes") = true ->
  exists a, normalize_axes float_of_str d = Ok a.
Proof.
  unfold normalize_axes, entries.
  destruct (as_sequence (dict_get d "axes")) as [l |]; intros H.
  - destruct (rmap_clamped_ok l H) as [a Ha]. rewrite Ha. eexists; reflexivity.
  - eexists; reflexivity.
Qed.

Lemma clamp_int_ok (h : Z) : dpad_component_ok (clamp_int h) = true.
Proof.
  assert (H : clamp_int h = -1 \/ clamp_int h = 0 \/ clamp_int h = 1)
    by (unfold clamp_int; lia).
  destruct H as [-> | [-> | ->]]; reflexivity.
Qed.

Lemma normalize_dpad_shape (d : list (pyval * pyval)) (h : Z * Z) :
  normalize_dpad int_of_str d = Ok h ->
  dpad_component_ok (fst h) = true /\ dpad_component_ok (snd h) = true.
Proof.
  unfold normalize_dpad.
  destruct (as_sequence (dict_get d "dpad")) as [[| d0 [| d1 rest]] |];
    try (intros H; apply Ok_inj in H; subst h; split; reflexivity).
  unfold try_except.
  destruct (py_int int_of_str d0) as [hx | e0]; cbn [rbind].
  - destruct (py_int int_of_str d1) as [hy | e1]; cbn [rbind fst snd].
    + intros H. apply Ok_inj in H. subst h. split; apply clamp_int_ok.
    + destruct (is_Exception e1); intros H; [| discriminate H].
      apply Ok_inj in H. subst h. split; reflexivity.
  - destruct (is_Exception e0); intros H; [| discriminate H].
    apply Ok_inj in H. subst h. split; reflexivity.
Qed.

Lemma normalize_dpad_ok (d : list (pyval * pyval)) :
  forallb (int_caught int_of_str) (firstn 2 (entries d "dpad")) = true ->
  exists h, normalize_dpad int_of_str d = Ok h.
Proof.
  unfold normalize_dpad, entries.
  destruct (as_sequence (dict_get d "dpad")) as [[| d0 [| d1 rest]] |];
    try (intros _; eexists; reflexivity).
  cbn [firstn forallb]. unfold int_caught, try_except. intros H.
  apply andb_prop in H. destruct H as [H0 H]. apply andb_prop in H.
  destruct H as [H1 _].
  destruct (py_int int_of_str d0) as [hx | e0]; cbn [rbind].
  - destruct (py_int int_of_str d1) as [hy | e1]; cbn [rbind].
    + eexists; reflexivity.
    + rewrite H1. eexists; reflexivity.
  - rewrite H0. eexists; reflexivity.
Qed.

(** Every raw value made of built-in values has its conversions
    contained. *)
Lemma builtin_entries_contained (raw : pyval) :
  builtin_entries raw = true ->
  conversions_contained float_of_str int_of_str raw = true.
Proof.
  unfold builtin_entries, conversions_contained.
  destruct raw; try reflexivity. intros H.
  apply andb_prop in H. destruct H as [H Hd]. apply andb_prop in H.
  destruct H as [Hb Ha].
  assert (G : forall (P : pyval -> bool) l,
             (forall x, is_builtin x = true -> P x = true) ->
             forallb is_builtin l = true -> forallb P l = true).
  { intros P l HP Hl. apply forallb_forall. intros x Hx.
    apply HP. rewrite forallb_forall in Hl. now apply Hl. }
  rewrite (G _ _ builtin_bool_returns Hb), (G _ _ builtin_float_caught Ha).
  cbn [andb]. apply (G _ _ builtin_int_caught).
  apply forallb_forall. intros x Hx. apply In_firstn in Hx.
  rewrite forallb_forall in Hd. now apply Hd.
Qed.

(** C1.  For every raw value, whatever its shape and whatever the text
    parsers answer, in which the truth test of every button entry returns
    and the numeric conversions of the axis entries and of the first two
    dpad entries raise nothing outside [Exception],
    [FrameState.from_dict] raises nothing and returns a frame that
    satisfies the data-model invariants: 10 buttons, 6 axes each within
    [-1.0, 1.0], dpad components in {-1, 0, 1}.  Every raw value whose
    entries are built-in values is of that kind. *)
Theorem from_dict_total_valid (raw : pyval) :
  (conversions_contained float_of_str int_of_str raw = true ->
   exists f, from_dict float_of_str int_of_str raw = Ok f /\ frame_ok f = true)
  /\ (builtin_entries raw = true ->
      conversions_contained float_of_str int_of_str raw = true).
Proof.
  split; [| apply builtin_entries_contained].
  unfold from_dict, _normalize_values, conversions_contained.
  destruct raw; try (intros _; eexists; split; reflexivity).
  intros H. apply andb_prop in H. destruct H as [H Hd].
  apply andb_prop in H. destruct H as [Hb Ha].
  destruct (normalize_buttons_ok items Hb) as [b Eb].
  destruct (normalize_axes_ok items Ha) as [a Ea].
  destruct (normalize_dpad_ok items Hd) as [h Eh].
  destruct (normalize_axes_shape items a Ea) as [La Ra].
  destruct (normalize_dpad_shape items h Eh) as [Hx Hy].
  rewrite Eb, Ea, Eh. cbn [rbind]. eexists; split; [reflexivity |].
  unfold frame_ok; cbn [buttons axes dpad n_buttons n_axes n_dpad].
  rewrite (normalize_buttons_shape items b Eb), La, Ra, Hx, Hy. reflexivity.
Qed.

Lemma rmap_py_bool_VBool (b : list bool) : rmap py_bool (map VBool b) = Ok b.
Proof.
  induction b as [| x xs IH]; simpl; [reflexivity | now rewrite IH].
Qed.

Lemma rmap_clamped_VFloat (a : list float) :
  forallb in_unit_range a = true ->
  rmap (to_float_clamped float_of_str) (map VFloat a) = Ok a.
Proof.
  induction a as [| x xs IH]; simpl; [reflexivity |].
  intros H. apply andb_prop in H. destruct H as [Hx Hxs].
  rewrite (clamp_id _ Hx), (IH Hxs). reflexivity.
Qed.

Lemma clamp_int_id (h : Z) : dpad_component_ok h = true -> clamp_int h = h.
Proof.
  unfold dpad_component_ok, clamp_int. intros H.
  apply orb_true_iff in H. destruct H as [H | H].
  - apply orb_true_iff in H. destruct H as [H | H]; apply Z.eqb_eq in H; subst; reflexivity.
  - apply Z.eqb_eq in H; subst; reflexivity.
Qed.

(** C3.  Normalising the plain-form export of a frame that satisfies the
    data-model invariants gives back exactly that frame:
    [FrameState.from_dict(f.to_dict()) == f]. *)
Theorem from_dict_to_dict (f : FrameState) :
  frame_ok f = true ->
  from_dict float_of_str int_of_str (to_dict f) = Ok f.
Proof.
  destruct f as [b a [hx hy]]. unfold frame_ok; cbn [buttons axes dpad fst snd].
  intros H.
  apply andb_prop in H; destruct H as [H Hy].
  apply andb_prop in H; destruct H as [H Hx].
  apply andb_prop in H; destruct H as [H Ha].
  apply andb_prop in H; destruct H as [Lb La].
  apply Nat.eqb_eq in Lb. apply Nat.eqb_eq in La.
  unfold from_dict, to_dict, _normalize_values; cbn [buttons axes dpad fst snd].
  unfold normalize_buttons, normalize_axes, normalize_dpad.
  change (dict_get _ "buttons") with (VList (map VBool b)).
  change (dict_get _ "axes") with (VList (map VFloat a)).
  change (dict_get _ "dpad") with (VTuple [VInt hx; VInt hy]).
  cbn [as_sequence py_int rbind try_except fst snd].
  rewrite rmap_py_bool_VBool, (rmap_clamped_VFloat _ Ha). cbn [rbind].
  rewrite (pad_exact _ _ _ Lb), (pad_exact _ _ _ La).
  rewrite (clamp_int_id _ Hx), (clamp_int_id _ Hy). reflexivity.
Qed.

End NormalizeFacts.

(* ================================================================== *)
(** * The modifiers ([modules/]) *)

Section ModifierFacts.

Import FloatFacts.

Open Scope float_scope.

Lemma deadzoned_intro (T v : float) :
  deadzoned T v (if abs v <? T then zero else v).
Proof.
  split.
  - destruct (abs v <? T); reflexivity.
  - intros H. now rewrite (eqb_not_ltb _ _ H).
Qed.

(** C8.  On every frame (six axes), the deadzone modifier zeroes each of
    the four stick axes exactly when its absolute value is strictly below
    the threshold of its stick and otherwise passes it through; a value
    whose absolute value equals the threshold is kept; the two trigger
    axes, the buttons and the dpad are returned as they were. *)
Theorem deadzone_update_spec (dl dr : float) (b : list bool)
    (lx ly rx ry lt rt : float) (d : Z * Z) :
  exists lx' ly' rx' ry',
    update_modifier (DeadzoneModifier dl dr) (frame b [lx; ly; rx; ry; lt; rt] d)
    = (Ok (frame b [lx'; ly'; rx'; ry'; lt; rt] d), DeadzoneModifier dl dr)
    /\ deadzoned dl lx lx' /\ deadzoned dl ly ly'
    /\ deadzoned dr rx rx' /\ deadzoned dr ry ry'.
Proof.
  do 4 eexists. split; [reflexivity |].
  repeat split; apply deadzoned_intro.
Qed.

(** A frame with fewer than four axes makes the deadzone raise. *)
Lemma deadzone_update_short (dl dr : float) (f : FrameState) :
  (List.length (axes f) < 4)%nat -> deadzone_update dl dr f = Raise IndexError.
Proof.
  unfold deadzone_update. destruct (axes f) as [| a0 [| a1 [| a2 [| a3 r]]]];
    simpl; intros H; try reflexivity; lia.
Qed.

(** The anti-recoil on a six-axis frame, whatever the trigger. *)
Lemma antirecoil_update_eq (s th : float) (b : list bool)
    (lx ly rx ry lt rt : float) (d : Z * Z) :
  antirecoil_update s th (frame b [lx; ly; rx; ry; lt; rt] d)
  = Ok (frame b [lx; ly; rx; if th <=? rt then ry + abs s * rt else ry; lt; rt] d).
Proof.
  unfold antirecoil_update, frame; cbn [axes buttons dpad list_get nth_error
    Axis.RIGHTSTICKX Axis.RIGHTSTICKY Axis.RIGHTTRIGGER rbind].
  rewrite div_one. destruct (th <=? rt); [| reflexivity].
  destruct (0.01 <? sqrt (rx * rx + ry * ry)); reflexivity.
Qed.

(** C7 (as the code has it).  For a right trigger [t] at or above the
    threshold, the anti-recoil output has right-stick-Y equal to the input
    right-stick-Y plus [abs(strength) * t], and every other axis, the
    buttons and the dpad unchanged; for [t] below the threshold the frame
    is returned unchanged. *)
Theorem antirecoil_update_spec (s th : float) (b : list bool)
    (lx ly rx ry lt rt : float) (d : Z * Z) :
  ((th <=? rt) = true ->
   antirecoil_update s th (frame b [lx; ly; rx; ry; lt; rt] d)
   = Ok (frame b [lx; ly; rx; ry + abs s * rt; lt; rt] d))
  /\ ((rt <? th) = true ->
      antirecoil_update s th (frame b [lx; ly; rx; ry; lt; rt] d)
      = Ok (frame b [lx; ly; rx; ry; lt; rt] d)).
Proof.
  rewrite antirecoil_update_eq. split; intros H.
  - now rewrite H.
  - now rewrite (ltb_not_leb _ _ H).
Qed.

(** With a strength that is not negative, such as the constructor's 0.3,
    the compensation is [strength * t] itself. *)
Lemma antirecoil_update_nonneg (s th : float) (b : list bool)
    (lx ly rx ry lt rt : float) (d : Z * Z) :
  abs s = s -> (th <=? rt) = true ->
  antirecoil_update s th (frame b [lx; ly; rx; ry; lt; rt] d)
  = Ok (frame b [lx; ly; rx; ry + s * rt; lt; rt] d).
Proof.
  intros Hs H. rewrite antirecoil_update_eq, H, Hs. reflexivity.
Qed.

End ModifierFacts.

(** C7 as stated fails: with the strength configured to -0.3 and the
    trigger at 1.0, above the threshold, the code turns a right-stick-Y of
    0.0 into 0.3, where the claim has [0.0 + (-0.3) * 1.0 = -0.3]; so the
    claimed equation does not hold for every configuration. *)
Lemma antirecoil_strength_sign_counterexample :
  ((0.1 <=? 1)%float = true
   /\ antirecoil_update (-0.3) 0.1 (frame [] [0; 0; 0; 0; 0; 1]%float (0, 0))
      = Ok (frame [] [0; 0; 0; 0.3; 0; 1]%float (0, 0))
   /\ (0 + -0.3 * 1 =? 0.3)%float = false)
  /\ ~ (forall (s th : float) (b : list bool) (lx ly rx ry lt rt : float)
               (d : Z * Z),
          (th <=? rt)%float = true ->
          antirecoil_update s th (frame b [lx; ly; rx; ry; lt; rt] d)
          = Ok (frame b [lx; ly; rx; (ry + s * rt)%float; lt; rt] d)).
Proof.
  split; [repeat split |].
  intros H.
  specialize (H (-0.3)%float 0.1%float [] 0%float 0%float 0%float 0%float
                0%float 1%float (0, 0) eq_refl).
  apply (f_equal (fun r => match r with
                           | Ok f => match nth_error (axes f) 3 with
                                     | Some y => (y <? 0)%float
                                     | None => false
                                     end
                           | Raise _ => false
                           end)) in H.
  vm_compute in H. discriminate H.
Qed.


(* ================================================================== *)
(** * The invariants under the shipped modifiers *)

Section InvariantFacts.

Import FloatFacts.

(** The parts of a frame that satisfies the invariants. *)
Lemma frame_ok_inv (f : FrameState) :
  frame_ok f = true ->
  exists lx ly rx ry lt rt,
    axes f = [lx; ly; rx; ry; lt; rt]
    /\ List.length (buttons f) = 10%nat
    /\ in_unit_range lx = true /\ in_unit_range ly = true
    /\ in_unit_range rx = true /\ in_unit_range ry = true
    /\ in_unit_range lt = true /\ in_unit_range rt = true
    /\ dpad_component_ok (fst (dpad f)) = true
    /\ dpad_component_ok (snd (dpad f)) = true.
Proof.
  unfold frame_ok. intros H.
  apply andb_prop in H; destruct H as [H Hy].
  apply andb_prop in H; destruct H as [H Hx].
  apply andb_prop in H; destruct H as [H Ha].
  apply andb_prop in H; destruct H as [Lb La].
  apply Nat.eqb_eq in Lb. apply Nat.eqb_eq in La.
  destruct (axes f) as [| lx [| ly [| rx [| ry [| lt [| rt [| x r]]]]]]];
    try discriminate La.
  cbn [forallb] in Ha.
  repeat (apply andb_prop in Ha;
          let H1 := fresh "R" in destruct Ha as [H1 Ha]).
  exists lx, ly, rx, ry, lt, rt. repeat split; assumption.
Qed.

Lemma deadzone_value_in_range (T v : float) :
  in_unit_range v = true ->
  in_unit_range (if (abs v <? T)%float then zero else v) = true.
Proof. intros H. destruct (abs v <? T)%float; [reflexivity | exact H]. Qed.




End InvariantFacts.


(* ================================================================== *)
(** * The wire encoder and the serial interface ([serial_interface.py]) *)

Section SerialFacts.

Import FloatFacts.

Lemma land_ones_range (a n : Z) : 0 <= n -> 0 <= Z.land a (Z.ones n) < 2 ^ n.
Proof.
  intros Hn. rewrite Z.land_ones by exact Hn.
  apply Z.mod_pos_bound. now apply Z.pow_pos_nonneg.
Qed.

Lemma pack_H_ok (v : Z) : 0 <= v <= 65535 -> pack_H v = Ok (le_bytes 2 v).
Proof.
  intros [H1 H2]. unfold pack_H.
  apply Z.leb_le in H1. apply Z.leb_le in H2. now rewrite H1, H2.
Qed.

Lemma pack_B_ok (v : Z) : 0 <= v <= 255 -> pack_B v = Ok (le_bytes 1 v).
Proof.
  intros [H1 H2]. unfold pack_B.
  apply Z.leb_le in H1. apply Z.leb_le in H2. now rewrite H1, H2.
Qed.

Lemma buttons_to_bitmask_range (l : list bool) : 0 <= buttons_to_bitmask l <= 65535.
Proof.
  unfold buttons_to_bitmask.
  pose proof (land_ones_range (bitmask_from 0 l 0) 16 ltac:(lia)) as H.
  change (Z.ones 16) with 0xFFFF in H. change (2 ^ 16) with 65536 in H. lia.
Qed.

Lemma dpad_encode_range (d : Z * Z) :
  dpad_component_ok (fst d) = true -> dpad_component_ok (snd d) = true ->
  0 <= dpad_encode d <= 255.
Proof.
  destruct d as [hx hy]. unfold dpad_component_ok. cbn [fst snd dpad_encode].
  intros Hx Hy.
  apply orb_true_iff in Hx. destruct Hx as [Hx | Hx];
    [apply orb_true_iff in Hx; destruct Hx as [Hx | Hx] |];
    apply Z.eqb_eq in Hx;
    (apply orb_true_iff in Hy; destruct Hy as [Hy | Hy];
     [apply orb_true_iff in Hy; destruct Hy as [Hy | Hy] |];
     apply Z.eqb_eq in Hy); lia.
Qed.

Lemma checksum_range (payload : bytes) :
  0 <= Z.land (sum_bytes payload) 0xFF <= 255.
Proof.
  pose proof (land_ones_range (sum_bytes payload) 8 ltac:(lia)) as H.
  change (Z.ones 8) with 0xFF in H. change (2 ^ 8) with 256 in H. lia.
Qed.

Lemma checksum_mod (payload : bytes) :
  Z.land (sum_bytes payload) 0xFF mod 256 = sum_bytes payload mod 256.
Proof.
  change 0xFF with (Z.ones 8). rewrite Z.land_ones by lia.
  change (2 ^ 8) with 256. apply Z.mod_mod. lia.
Qed.

(** The packet of a valid frame: the header, a payload of 27 bytes, and
    the low byte of the payload's sum. *)
Lemma pack_layout (f : FrameState) :
  frame_ok f = true ->
  exists payload,
    List.length payload = 27%nat
    /\ pack (packet_of_frame f)
       = Ok ([0xFF] ++ payload ++ [Z.land (sum_bytes payload) 0xFF mod 256]).
Proof.
  intros Hf. apply frame_ok_inv in Hf.
  destruct Hf as (lx & ly & rx & ry & lt & rt & Ha & Lb & R0 & R1 & R2 & R3 & R4 & R5 & Dx & Dy).
  unfold pack, packet_of_frame. cbn [p_buttons p_axes p_dpad_code]. rewrite Ha.
  cbn [firstn app]. unfold struct_pack_HffffffB.
  cbn [List.length Nat.eqb negb rmap].
  rewrite (pack_H_ok _ (buttons_to_bitmask_range (buttons f))).
  rewrite (pack_f_in_unit_range _ R0), (pack_f_in_unit_range _ R1),
    (pack_f_in_unit_range _ R2), (pack_f_in_unit_range _ R3),
    (pack_f_in_unit_range _ R4), (pack_f_in_unit_range _ R5).
  rewrite (pack_B_ok _ (dpad_encode_range _ Dx Dy)).
  cbn [rbind].
  rewrite (pack_B_ok _ (checksum_range _)).
  change (pack_B HEADER) with (Ok (A := bytes) [255]).
  cbn [rbind]. eexists. split; [| reflexivity]. reflexivity.
Qed.

(** C2.  For every frame that satisfies the data-model invariants, the
    encoder succeeds and produces exactly 29 bytes; byte 0 is 0xFF and
    byte 28 is the sum of bytes 1 to 27, inclusive, modulo 256. *)
Theorem pack_valid_frame (f : FrameState) :
  frame_ok f = true ->
  exists data,
    pack (packet_of_frame f) = Ok data
    /\ List.length data = 29%nat
    /\ nth_error data 0 = Some 0xFF
    /\ nth_error data 28 = Some (sum_bytes (firstn 27 (skipn 1 data)) mod 256).
Proof.
  intros Hf. destruct (pack_layout f Hf) as [payload [Hlen Hpack]].
  set (c := Z.land (sum_bytes payload) 255 mod 256) in *.
  exists ([255] ++ payload ++ [c]). split; [exact Hpack |].
  change ([255] ++ payload ++ [c]) with (255 :: (payload ++ [c])).
  split; [| split].
  - cbn [List.length]. rewrite length_app, Hlen. reflexivity.
  - reflexivity.
  - change (nth_error (255 :: (payload ++ [c])) 28)
      with (nth_error (payload ++ [c]) 27).
    change (skipn 1 (255 :: (payload ++ [c]))) with (payload ++ [c]).
    rewrite nth_error_app2 by lia. rewrite Hlen, Nat.sub_diag.
    rewrite <- Hlen. rewrite firstn_app, firstn_all, Nat.sub_diag.
    cbn [firstn nth_error]. rewrite app_nil_r.
    unfold c. now rewrite checksum_mod.
Qed.

(** C10.  [send_frame] raises at its own boundary and writes nothing:
    [TypeError] for an argument that is not a [FrameState], on any
    interface; and, on an interface built for no real port ([None], or a
    name starting with MOCK), [RuntimeError] for a [FrameState]. *)
Theorem send_frame_raises (serial_Serial : pyval -> Z -> result Serial)
    (port : pyval) (baud : Z) :
  names_no_port port = true ->
  (forall (si : SerialInterface) (v : pyval),
      send_frame si (OtherObj v) = (Raise TypeError, si))
  /\ exists si,
      SerialInterface_init serial_Serial port baud = Ok si
      /\ ser si = None
      /\ written si = []
      /\ forall f, send_frame si (FrameObj f) = (Raise RuntimeError, si).
Proof.
  intros Hp. split; [reflexivity |].
  exists {| ser := None |}. repeat split.
  unfold SerialInterface_init, is_mock_port.
  destruct port; try discriminate Hp; cbn [py_bool rbind negb orb].
  - reflexivity.
  - cbn [names_no_port] in Hp. rewrite Hp, orb_true_r. reflexivity.
Qed.

(** More generally, an interface whose port is not open raises
    [RuntimeError] for every frame, and is left as it was. *)
Lemma send_frame_not_open (si : SerialInterface) (f : FrameState) :
  ser si = None -> send_frame si (FrameObj f) = (Raise RuntimeError, si).
Proof. intros H. unfold send_frame. now rewrite H. Qed.

(** On an open, healthy port a valid frame is written as its 29 bytes. *)
Lemma send_frame_writes (s : Serial) (f : FrameState) :
  frame_ok f = true -> write_fails s = false ->
  exists data,
    pack (packet_of_frame f) = Ok data
    /\ send_frame {| ser := Some s |} (FrameObj f)
       = (Ok tt, {| ser := Some {| written_data := written_data s ++ [data];
                                   is_open := is_open s;
                                   write_fails := write_fails s |} |}).
Proof.
  intros Hf Hw. destruct (pack_layout f Hf) as [payload [_ Hd]].
  eexists. split; [exact Hd |].
  unfold send_frame, serial_write. cbn [ser]. now rewrite Hd, Hw.
Qed.

End SerialFacts.

(* ================================================================== *)
(** * The pipeline tick ([pipeline.py]) *)

Section PipelineFacts.

Import FloatFacts.

(** *** The rate gate *)

Lemma send_frame_written (si si' : SerialInterface) (arg : pyobj) (r : result unit) :
  send_frame si arg = (r, si') ->
  match r with
  | Ok _ => exists data, written si' = written si ++ [data]
  | Raise _ => written si' = written si
  end.
Proof.
  unfold send_frame. destruct arg as [f | v].
  - destruct (ser si) as [s |] eqn:Hs.
    + destruct (pack (packet_of_frame f)) as [data | e].
      * unfold serial_write. destruct (write_fails s); intros H; inversion H; subst.
        -- unfold written. cbn [ser]. now rewrite Hs.
        -- exists data. unfold written. cbn [ser written_data]. now rewrite Hs.
      * intros H; inversion H; subst. reflexivity.
    + intros H; inversion H; subst. reflexivity.
  - intros H; inversion H; subst. reflexivity.
Qed.

(** What the transmit step does: nothing, or, with the gate open, one
    write and the time stamp. *)
Lemma transmit_cases (p : InputPipeline) (now : float) (state : FrameState)
    (r : result unit) (sent_at : float) (s : option SerialInterface) :
  transmit p now state = (r, sent_at, s) ->
  let p' := tick_state p (generators p) (modifiers p) sent_at s in
  (transmitted p' = transmitted p /\ sent_at = last_send p)
  \/ (gate_open p now = true /\ sent_at = now
      /\ exists data, transmitted p' = transmitted p ++ [data]).
Proof.
  unfold transmit, transmitted. cbn [tick_state serial].
  destruct (serial p) as [si |].
  - destruct (gate_open p now).
    + destruct (send_frame si (FrameObj state)) as [r' si'] eqn:Hs.
      apply send_frame_written in Hs.
      destruct r' as [[] | e]; intros H; inversion H; subst.
      * right. repeat split. exact Hs.
      * left. split; [exact Hs | reflexivity].
    + intros H; inversion H; subst. left. split; reflexivity.
  - intros H; inversion H; subst. left. split; reflexivity.
Qed.

Lemma tick_cases (p : InputPipeline) (now : float) :
  send_interval (after p now) = send_interval p
  /\ ((transmitted (after p now) = transmitted p
       /\ last_send (after p now) = last_send p)
      \/ (gate_open p now = true
          /\ last_send (after p now) = now
          /\ exists data, transmitted (after p now) = transmitted p ++ [data])).
Proof.
  unfold after, update.
  destruct (combine_generators (generators p)) as [r0 gens].
  destruct r0 as [[state |] | e]; cbn [fst snd];
    try (split; [reflexivity | left; split; reflexivity]).
  destruct (run_callbacks (_on_generate_callbacks p) state) as [r1 log1].
  destruct r1 as [[] | e]; cbn [fst snd];
    try (split; [reflexivity | left; split; reflexivity]).
  destruct (apply_modifiers (modifiers p) state) as [r2 mods].
  destruct r2 as [state' | e]; cbn [fst snd];
    try (split; [reflexivity | left; split; reflexivity]).
  destruct (run_callbacks (_on_post_mod_callbacks p) state') as [r3 log3].
  destruct r3 as [[] | e]; cbn [fst snd];
    try (split; [reflexivity | left; split; reflexivity]).
  destruct (transmit p now state') as [[r4 sent_at] s] eqn:Ht.
  apply transmit_cases in Ht.
  assert (G : send_interval (tick_state p gens mods sent_at s) = send_interval p
              /\ ((transmitted (tick_state p gens mods sent_at s) = transmitted p
                   /\ last_send (tick_state p gens mods sent_at s) = last_send p)
                  \/ (gate_open p now = true
                      /\ last_send (tick_state p gens mods sent_at s) = now
                      /\ exists data,
                          transmitted (tick_state p gens mods sent_at s)
                          = transmitted p ++ [data]))).
  { split; [reflexivity |]. exact Ht. }
  destruct r4; cbn [fst snd]; exact G.
Qed.

(** C4.  Whatever ticks came before, a tick either transmits nothing and
    leaves the last-transmit time as it was, or it transmits one packet,
    and then the gate [now - last_send >= send_interval] held and the
    last-transmit time becomes [now]; hence of two successive ticks closer
    together than the interval at most one transmits. *)
Theorem rate_gate (p : InputPipeline) (t1 t2 : float) :
  ((transmitted (after p t1) = transmitted p
    /\ last_send (after p t1) = last_send p)
   \/ ((send_interval p <=? t1 - last_send p)%float = true
       /\ last_send (after p t1) = t1
       /\ exists data, transmitted (after p t1) = transmitted p ++ [data]))
  /\ ((t2 - t1 <? send_interval p)%float = true ->
      (List.length (transmitted (after (after p t1) t2))
       <= S (List.length (transmitted p)))%nat).
Proof.
  destruct (tick_cases p t1) as [Hi H1]. split; [exact H1 |].
  intros Hclose.
  destruct (tick_cases (after p t1) t2) as [_ H2].
  destruct H1 as [[T1 L1] | [G1 [L1 [d1 T1]]]].
  - destruct H2 as [[T2 _] | [_ [_ [d2 T2]]]]; rewrite T2, T1.
    + lia.
    + rewrite length_app. cbn [List.length]. lia.
  - destruct H2 as [[T2 _] | [G2 _]].
    + rewrite T2, T1, length_app. cbn [List.length]. lia.
    + unfold gate_open in G2. rewrite Hi, L1 in G2.
      rewrite (ltb_not_leb _ _ Hclose) in G2. discriminate G2.
Qed.

(** *** A failing generator *)


(** *** Failing observers *)

Lemma run_callbacks_isolated (cbs : list Callback) (state : FrameState) :
  raise_only_Exception cbs ->
  run_callbacks cbs state = (Ok tt, calls_of cbs state).
Proof.
  induction cbs as [| cb rest IH]; intros H; [reflexivity |].
  cbn [run_callbacks calls_of map].
  assert (Hrest : raise_only_Exception rest)
    by (intros c f e Hin; apply H; now right).
  rewrite (IH Hrest). unfold try_except.
  destruct (cb_call cb state) as [e |] eqn:Hc; [| reflexivity].
  rewrite (H cb state e (or_introl eq_refl) Hc). reflexivity.
Qed.

(** C9.  In a tick whose generator yields a frame, observer callbacks
    that raise an exception derived from [Exception] (what the guard
    [except Exception] around each call catches) change nothing: every
    callback of both lists is invoked, in order, the first list with the
    generated frame and the second with the modifiers' result; the
    modifier fold and the transmit step run; and the tick returns the
    transformed frame, unless the transmit step itself raises. *)
Theorem observer_isolation (p : InputPipeline) (g : Generator)
    (rest : list Generator) (now : float) (state state' : FrameState)
    (mods : list Modifier) :
  raise_only_Exception (_on_generate_callbacks p) ->
  raise_only_Exception (_on_post_mod_callbacks p) ->
  generators p = g :: rest ->
  behaviour g (calls g) = Ok (Some state) ->
  apply_modifiers (modifiers p) state = (Ok state', mods) ->
  update p now
  = (match fst (fst (transmit p now state')) with
     | Ok _ => Ok (Some state')
     | Raise e => Raise e
     end,
     tick_state p (snd (generate g) :: rest) mods
       (snd (fst (transmit p now state'))) (snd (transmit p now state')),
     calls_of (_on_generate_callbacks p) state
       ++ calls_of (_on_post_mod_callbacks p) state').
Proof.
  intros Hpre Hpost Hg Hb Hm.
  unfold update, combine_generators. rewrite Hg. unfold generate at 1.
  rewrite Hb. rewrite (run_callbacks_isolated _ state Hpre), Hm.
  rewrite (run_callbacks_isolated _ state' Hpost).
  destruct (transmit p now state') as [[r4 sent_at] s]. cbn [fst snd].
  destruct r4; reflexivity.
Qed.

End PipelineFacts.

(* ================================================================== *)
(** * Concrete instances *)

Lemma from_dict_total_valid_witness :
  exists f,
    from_dict no_float_text no_int_text
      (VDict [ (VStr "buttons", VList [VBool true; failing_number; VNone]);
               (VStr "axes", VList [VFloat 2; failing_number; VStr "bad"]);
               (VStr "dpad", VTuple [VInt 5; failing_number]) ]) = Ok f
    /\ frame_ok f = true.
Proof.
  apply (proj1 (from_dict_total_valid no_float_text no_int_text
                  (VDict [ (VStr "buttons", VList [VBool true; failing_number; VNone]);
                           (VStr "axes", VList [VFloat 2; failing_number; VStr "bad"]);
                           (VStr "dpad", VTuple [VInt 5; failing_number]) ]))).
  reflexivity.
Defined.

(** C1 as stated fails: a conversion that raises past [except Exception]
    makes [from_dict] raise, and so does a button entry whose truth test
    raises. *)
Lemma from_dict_raises_counterexample :
  from_dict no_float_text no_int_text
    (VDict [(VStr "axes", VList [VFloat 0.5; exiting_number])])
  = Raise SystemExit
  /\ from_dict no_float_text no_int_text
       (VDict [(VStr "dpad", VList [VInt 1; exiting_number])])
     = Raise SystemExit
  /\ from_dict no_float_text no_int_text
       (VDict [(VStr "buttons", VList [VBool true; ambiguous_array])])
     = Raise ValueError
  /\ ~ (exists f,
          from_dict no_float_text no_int_text
            (VDict [(VStr "axes", VList [VFloat 0.5; exiting_number])]) = Ok f
          /\ frame_ok f = true).
Proof.
  repeat split. intros [f [H _]]. discriminate H.
Qed.

Lemma from_dict_to_dict_witness :
  from_dict no_float_text no_int_text (to_dict sample_frame) = Ok sample_frame.
Proof. apply from_dict_to_dict. reflexivity. Defined.

Lemma pack_valid_frame_witness :
  exists data,
    pack (packet_of_frame sample_frame) = Ok data
    /\ List.length data = 29%nat
    /\ nth_error data 0 = Some 0xFF
    /\ nth_error data 28 = Some (sum_bytes (firstn 27 (skipn 1 data)) mod 256).
Proof. apply pack_valid_frame. reflexivity. Defined.

Lemma rate_gate_witness :
  (List.length (transmitted (after (after steady_pipeline 1) 1.001))
   <= S (List.length (transmitted steady_pipeline)))%nat.
Proof.
  apply (proj2 (rate_gate steady_pipeline 1 1.001)). reflexivity.
Defined.




Lemma antirecoil_update_spec_witness :
  antirecoil_update 0.3 0.1
    (frame (repeat false 10) [0; 0; 0.5; 0.25; 0; 1]%float (0, 0))
  = Ok (frame (repeat false 10)
          [0; 0; 0.5; (0.25 + abs 0.3 * 1); 0; 1]%float (0, 0))
  /\ antirecoil_update 0.3 0.1
       (frame (repeat false 10) [0; 0; 0.5; 0.25; 0; 0.099]%float (0, 0))
     = Ok (frame (repeat false 10) [0; 0; 0.5; 0.25; 0; 0.099]%float (0, 0)).
Proof.
  split.
  - apply (proj1 (antirecoil_update_spec 0.3 0.1 (repeat false 10)
                    0 0 0.5 0.25 0 1 (0, 0))).
    reflexivity.
  - apply (proj2 (antirecoil_update_spec 0.3 0.1 (repeat false 10)
                    0 0 0.5 0.25 0 0.099 (0, 0))).
    reflexivity.
Defined.

Lemma noisy_callbacks_raise_only_Exception :
  raise_only_Exception (_on_generate_callbacks noisy_pipeline)
  /\ raise_only_Exception (_on_post_mod_callbacks noisy_pipeline).
Proof.
  split; intros cb f e [<- | [<- | []]] H; inversion H; reflexivity.
Defined.

Lemma observer_isolation_witness :
  fst (fst (update noisy_pipeline 1)) = Ok (Some sample_frame_fired)
  /\ snd (update noisy_pipeline 1)
     = [Called 1 sample_frame; Called 2 sample_frame;
        Called 3 sample_frame_fired; Called 4 sample_frame_fired]
  /\ List.length (transmitted (after noisy_pipeline 1)) = 1%nat.
Proof.
  unfold after.
  rewrite (observer_isolation noisy_pipeline (constant_generator sample_frame) []
             1 sample_frame sample_frame_fired [HairTriggers_default]
             (proj1 noisy_callbacks_raise_only_Exception)
             (proj2 noisy_callbacks_raise_only_Exception)
             eq_refl eq_refl eq_refl).
  repeat split.
Defined.

(** C9 as stated fails: a callback that raises [SystemExit] ends the
    tick with that exception; the callback after it is not invoked, no
    modifier runs and nothing is transmitted. *)
Lemma observer_isolation_counterexample :
  fst (fst (update exiting_pipeline 1)) = Raise SystemExit
  /\ snd (update exiting_pipeline 1) = [Called 1 sample_frame]
  /\ transmitted (after exiting_pipeline 1) = []
  /\ last_send (after exiting_pipeline 1) = last_send exiting_pipeline.
Proof. repeat split. Qed.

Lemma send_frame_raises_witness :
  (forall (si : SerialInterface) (v : pyval),
      send_frame si (OtherObj v) = (Raise TypeError, si))
  /\ exists si,
      SerialInterface_init (fun _ _ => Raise SerialException) (VStr "mock0") 115200
      = Ok si
      /\ ser si = None
      /\ written si = []
      /\ forall f, send_frame si (FrameObj f) = (Raise RuntimeError, si).
Proof.
  apply (send_frame_raises (fun _ _ => Raise SerialException) (VStr "mock0") 115200).
  reflexivity.
Defined.

(* ================================================================== *)
(** * Worked examples, from the test suite and the documented scenario *)

(** [{buttons: [True, "x", None], axes: [2.0, -2.0, "bad", 0, 0, 0],
     dpad: [5, -5]}], for any parser that rejects the text [bad]. *)
Example normalize_scenario (float_of_str : string -> option float)
    (int_of_str : string -> option Z) :
  float_of_str "bad" = None ->
  from_dict float_of_str int_of_str
    (VDict [ (VStr "buttons", VList [VBool true; VStr "x"; VNone]);
             (VStr "axes", VList [VFloat 2; VFloat (-2); VStr "bad";
                                  VInt 0; VInt 0; VInt 0]);
             (VStr "dpad", VList [VInt 5; VInt (-5)]) ])
  = Ok (frame [true; true; false; false; false; false; false; false; false; false]
              [1; -1; 0; 0; 0; 0]%float (1, -1)).
Proof.
  intros Hbad. vm_compute. rewrite Hbad. reflexivity.
Qed.

(** A NaN axis is clamped to 1.0, an infinite one to the nearer bound. *)
Example normalize_non_finite_axes :
  from_dict no_float_text no_int_text
    (VDict [ (VStr "axes", VTuple [VFloat nan; VFloat infinity; VFloat neg_infinity]) ])
  = Ok (frame (repeat false 10) [1; 1; -1; 0; 0; 0]%float (0, 0)).
Proof. reflexivity. Qed.

Example normalize_not_a_dict :
  from_dict no_float_text no_int_text (VList [VInt 1; VInt 2]) = Ok default_state.
Proof. reflexivity. Qed.

Example bitmask_all_true : buttons_to_bitmask (repeat true 10) = 0x3FF.
Proof. reflexivity. Qed.

Example bitmask_single :
  map (fun i => buttons_to_bitmask (replace_nth (repeat false 10) i true)) (seq 0 10)
  = map (fun i => Z.shiftl 1 (Z.of_nat i)) (seq 0 10).
Proof. reflexivity. Qed.

Example dpad_codes :
  map dpad_encode [(-1, -1); (0, -1); (1, -1); (-1, 0); (0, 0); (1, 0);
                   (-1, 1); (0, 1); (1, 1)]
  = [0; 1; 2; 3; 4; 5; 6; 7; 8].
Proof. reflexivity. Qed.

Example pack_default_state :
  pack (packet_of_frame default_state)
  = Ok ([255; 0; 0] ++ repeat 0 24 ++ [4; 4]).
Proof. reflexivity. Qed.

Example pack_full_deflection :
  pack (packet_of_frame (frame (repeat true 10) [1; -1; 0.5; 0; 0; 0]%float (1, 1)))
  = Ok ([255; 255; 3; 0; 0; 128; 63; 0; 0; 128; 191; 0; 0; 0; 63]
        ++ repeat 0 12 ++ [8; 71]).
Proof. reflexivity. Qed.

(** [struct.pack('<f', x)] on a few doubles: inexact ones, a binary32
    subnormal, an underflow to zero, and one too large for a binary32. *)
Example pack_f_samples :
  map pack_f [0.3; -0.75; 0.1; 1e-40; 1e-46; 1e39]%float
  = [Ok [154; 153; 153; 62]; Ok [0; 0; 64; 191]; Ok [205; 204; 204; 61];
     Ok [194; 22; 1; 0]; Ok [0; 0; 0; 0]; Raise OverflowError].
Proof. reflexivity. Qed.

Example hair_trigger_boundary :
  map (fun t => hair_update 0.1 (frame [] [0; 0; 0; 0; 0; t]%float (0, 0)))
      [0.09; 0.1; 0.11]%float
  = [Ok (frame [] [0; 0; 0; 0; 0; -1]%float (0, 0));
     Ok (frame [] [0; 0; 0; 0; 0; -1]%float (0, 0));
     Ok (frame [] [0; 0; 0; 0; 0; 1]%float (0, 0))].
Proof. reflexivity. Qed.

Example antirecoil_full_trigger :
  antirecoil_update 0.3 0.1 (frame (repeat false 10) [0; 0; 0; 0; 0; 1]%float (0, 0))
  = Ok (frame (repeat false 10) [0; 0; 0; 0.3; 0; 1]%float (0, 0)).
Proof. reflexivity. Qed.

Example antirecoil_extreme :
  antirecoil_update 0.3 0.1 (frame (repeat false 10) [1; 1; 1; 1; 1; 1]%float (0, 0))
  = Ok (frame (repeat false 10) [1; 1; 1; 1.3; 1; 1]%float (0, 0)).
Proof. reflexivity. Qed.

Example deadzone_boundary :
  deadzone_update 0.2 0.2 (frame [] [0.19; 0.2; -0.21; -0.1; 0.1; 0.05]%float (0, 0))
  = Ok (frame [] [0; 0.2; -0.21; 0; 0.1; 0.05]%float (0, 0)).
Proof. reflexivity. Qed.

Example antirecoil_negligible_movement :
  antirecoil_update 0.3 0.1
    (frame (repeat false 10) [0; 0; 0.009; 0.009; 0; 1]%float (0, 0))
  = Ok (frame (repeat false 10) [0; 0; 0.009; (0.009 + 0.3); 0; 1]%float (0, 0)).
Proof. reflexivity. Qed.

(** The first tick of the steady pipeline transmits, the second, one
    millisecond later, does not; a third, after the interval, does. *)
Example steady_pipeline_ticks :
  map (fun p => List.length (transmitted p))
      [after steady_pipeline 1;
       after (after steady_pipeline 1) 1.001;
       after (after (after steady_pipeline 1) 1.001) 1.006]
  = [1; 1; 2]%nat.
Proof. reflexivity. Qed.

(** A pipeline built for the port MOCK has a transport that is not open:
    its first transmitting tick raises. *)
Example mock_port_pipeline_raises :
  match InputPipeline_init (fun _ _ => Raise SerialException) (VStr "MOCK") 115200 0.005 with
  | Ok p => fst (fst (update (add_generator p (constant_generator sample_frame)) 1))
  | Raise e => Raise e
  end = Raise RuntimeError.
Proof. reflexivity. Qed.

(** With no generator registered a tick returns [None], invokes no
    callback and transmits nothing. *)
Example no_generator_tick :
  update (mock_pipeline [] [DeadzoneModifier_default] [quiet_callback 1] [])  1
  = (Ok None, mock_pipeline [] [DeadzoneModifier_default] [quiet_callback 1] [], []).
Proof. reflexivity. Qed.


(* ================================================================== *)
(** * Further properties of the normalisation *)

Section NormalizeMore.

Variable float_of_str : string -> option float.
Variable int_of_str : string -> option Z.

Import FloatFacts.

Lemma rmap_py_bool_truth (l : list pyval) (b : list bool) :
  rmap py_bool l = Ok b -> b = map py_truth l.
Proof.
  revert b. induction l as [| x xs IH]; cbn [rmap map]; intros b H.
  - apply Ok_inj in H. now subst b.
  - unfold py_truth at 1.
    destruct (py_bool x) as [bx | e]; cbn [rbind] in H; [| discriminate H].
    destruct (rmap py_bool xs) as [bs | e]; cbn [rbind] in H; [| discriminate H].
    apply Ok_inj in H. subst b. now rewrite (IH bs eq_refl).
Qed.

Lemma firstn_repeat {A : Type} (d : A) (k n : nat) :
  (k <= n)%nat -> firstn k (repeat d n) = repeat d k.
Proof.
  revert n. induction k as [| k IH]; intros n H; [reflexivity |].
  destruct n as [| n]; [lia |]. cbn [repeat firstn]. rewrite IH by lia. reflexivity.
Qed.

(** Padding to [n] keeps the first [n] items in place and fills up with
    the default. *)
Lemma pad_shape {A : Type} (n : nat) (l : list A) (d : A) :
  firstn n (l ++ repeat d n) = firstn n l ++ repeat d (n - List.length l).
Proof.
  rewrite firstn_app. f_equal. apply firstn_repeat. lia.
Qed.

(** What [from_dict] makes of a dict, field by field. *)
Lemma from_dict_fields (d : list (pyval * pyval)) (f : FrameState) :
  from_dict float_of_str int_of_str (VDict d) = Ok f ->
  normalize_buttons d = Ok (buttons f)
  /\ normalize_axes float_of_str d = Ok (axes f)
  /\ normalize_dpad int_of_str d = Ok (dpad f).
Proof.
  unfold from_dict, _normalize_values.
  destruct (normalize_buttons d) as [b | e]; [| discriminate].
  destruct (normalize_axes float_of_str d) as [a | e]; [| discriminate].
  destruct (normalize_dpad int_of_str d) as [h | e]; [| discriminate].
  cbn [rbind n_buttons n_axes n_dpad]. intros H. inversion H. now subst.
Qed.

(** X1.  The normalised buttons are the truth values of the given entries, in
    their positions: cut after the tenth, or filled up with [False]. *)
Theorem from_dict_buttons (d : list (pyval * pyval)) (l : list pyval)
    (f : FrameState) :
  as_sequence (dict_get d "buttons") = Some l ->
  from_dict float_of_str int_of_str (VDict d) = Ok f ->
  buttons f = firstn 10 (map py_truth l) ++ repeat false (10 - List.length l).
Proof.
  intros Hl Hf. apply from_dict_fields in Hf. destruct Hf as [Hb _].
  unfold normalize_buttons in Hb. rewrite Hl in Hb.
  destruct (rmap py_bool l) as [b |] eqn:Hr; cbn [rbind] in Hb; [| discriminate Hb].
  apply Ok_inj in Hb. rewrite <- Hb, (rmap_py_bool_truth l b Hr).
  rewrite pad_shape, length_map. reflexivity.
Qed.

(** X2.  Axis entries that are floats already within [-1.0, 1.0] pass through
    unchanged, in their positions: cut after the sixth, or filled up with
    [0.0]. *)
Theorem from_dict_axes_in_range (d : list (pyval * pyval)) (a : list float)
    (f : FrameState) :
  as_sequence (dict_get d "axes") = Some (map VFloat a) ->
  forallb in_unit_range a = true ->
  from_dict float_of_str int_of_str (VDict d) = Ok f ->
  axes f = firstn 6 a ++ repeat zero (6 - List.length a).
Proof.
  intros Hl Ha Hf. apply from_dict_fields in Hf. destruct Hf as [_ [Hx _]].
  unfold normalize_axes in Hx.
  rewrite Hl, (rmap_clamped_VFloat float_of_str a Ha) in Hx.
  cbn [rbind] in Hx. apply Ok_inj in Hx. rewrite <- Hx. apply pad_shape.
Qed.

(** The frame of parts that satisfy the invariants is a fixed point of
    export followed by normalisation. *)
Lemma from_dict_of_parts (b : list bool) (a : list float) (h : Z * Z) :
  List.length b = 10%nat -> List.length a = 6%nat ->
  forallb in_unit_range a = true ->
  dpad_component_ok (fst h) = true -> dpad_component_ok (snd h) = true ->
  from_dict float_of_str int_of_str (to_dict (frame b a h)) = Ok (frame b a h).
Proof.
  intros Lb La Ha Hx Hy. destruct h as [hx hy]. cbn [fst snd] in Hx, Hy.
  unfold from_dict, to_dict, frame, _normalize_values; cbn [buttons axes dpad fst snd].
  unfold normalize_buttons, normalize_axes, normalize_dpad.
  change (dict_get _ "buttons") with (VList (map VBool b)).
  change (dict_get _ "axes") with (VList (map VFloat a)).
  change (dict_get _ "dpad") with (VTuple [VInt hx; VInt hy]).
  cbn [as_sequence py_int rbind try_except fst snd].
  rewrite rmap_py_bool_VBool, (rmap_clamped_VFloat float_of_str _ Ha). cbn [rbind].
  rewrite (pad_exact _ _ _ Lb), (pad_exact _ _ _ La).
  rewrite (clamp_int_id _ Hx), (clamp_int_id _ Hy). reflexivity.
Qed.

(** X3.  Normalisation is idempotent: exporting what [from_dict] returned and
    normalising again gives the same frame, for every raw value. *)
Theorem from_dict_idempotent (raw : pyval) (f : FrameState) :
  from_dict float_of_str int_of_str raw = Ok f ->
  from_dict float_of_str int_of_str (to_dict f) = Ok f.
Proof.
  intros Hf.
  assert (H : exists b a h,
             f = frame b a h /\ List.length b = 10%nat /\ List.length a = 6%nat
             /\ forallb in_unit_range a = true
             /\ dpad_component_ok (fst h) = true
             /\ dpad_component_ok (snd h) = true).
  { destruct raw;
      try solve [apply Ok_inj in Hf; subst f;
                 exists (repeat false 10), (repeat zero 6), (0, 0);
                 repeat split].
    apply from_dict_fields in Hf. destruct Hf as [Hb [Ha Hh]].
    pose proof (normalize_buttons_shape _ _ Hb) as Lb.
    destruct (normalize_axes_shape float_of_str _ _ Ha) as [La Ra].
    destruct (normalize_dpad_shape int_of_str _ _ Hh) as [Hx Hy].
    exists (buttons f), (axes f), (dpad f). destruct f; repeat split; assumption. }
  destruct H as (b & a & h & -> & Lb & La & Ra & Hx & Hy).
  now apply from_dict_of_parts.
Qed.

(** A float strictly between -1.0 and 1.0 truncates to the int 0. *)
Lemma int_of_float_small (x : float) :
  (neg_one <? x)%float = true -> (x <? one)%float = true ->
  int_of_float x = Ok 0.
Proof.
  rewrite !ltb_spec, Prim2SF_one, Prim2SF_neg_one. unfold int_of_float.
  pose proof (Prim2SF_valid x) as Hv.
  destruct (Prim2SF x) as [s | s | | s m e]; try reflexivity.
  - destruct s; discriminate.
  - discriminate.
  - intros Hlo Hhi. cbn [valid_binary] in Hv.
    pose proof (valid_mantissa_bound m e Hv) as Hb.
    apply valid_finite_cases in Hv. destruct Hv as [_ Hv].
    pose proof (digits_lower m) as Hd.
    assert (He : e <= -53).
    { destruct s; unfold SFltb in Hlo, Hhi; cbn [SFcompare] in Hlo, Hhi.
      - destruct (Z.compare_spec (-52) e) as [E | E | E]; try discriminate; [| lia].
        subst e. destruct Hv as [[Hd53 _] | [E _]]; [| lia].
        rewrite Hd53 in Hd. change (2 ^ 53) with (2 * 4503599627370496) in Hd.
        destruct (Pos.compare_cont Eq 4503599627370496 m) eqn:Hc; try discriminate.
        assert (Hgt : 4503599627370496 > Z.pos m) by exact Hc.
        clear Hc Hlo. exfalso. lia.
      - destruct (Z.compare_spec e (-52)) as [E | E | E]; try discriminate; [| lia].
        subst e. destruct Hv as [[Hd53 _] | [E _]]; [| lia].
        rewrite Hd53 in Hd. change (2 ^ 53) with (2 * 4503599627370496) in Hd.
        destruct (Pos.compare_cont Eq m 4503599627370496) eqn:Hc; try discriminate.
        assert (Hlt : Z.pos m < 4503599627370496) by exact Hc.
        clear Hc Hhi. exfalso. lia. }
    rewrite Z.shiftl_div_pow2 by lia.
    assert (Hp : 2 ^ 53 <= 2 ^ (- e)) by (apply Z.pow_le_mono_r; lia).
    rewrite Z.div_small by lia. destruct s; reflexivity.
Qed.

(** X4.  The dpad is taken from the first two entries only, and as a whole:
    when both convert with [int()] they are clamped, otherwise the dpad
    is the centre, whatever the other entry is. *)
Theorem from_dict_dpad (d : list (pyval * pyval)) (d0 d1 : pyval)
    (more : list pyval) (f : FrameState) :
  as_sequence (dict_get d "dpad") = Some (d0 :: d1 :: more) ->
  from_dict float_of_str int_of_str (VDict d) = Ok f ->
  dpad f = match py_int int_of_str d0, py_int int_of_str d1 with
           | Ok hx, Ok hy => (clamp_int hx, clamp_int hy)
           | _, _ => (0, 0)
           end.
Proof.
  intros Hl Hf. apply from_dict_fields in Hf. destruct Hf as [_ [_ Hh]].
  unfold normalize_dpad in Hh. rewrite Hl in Hh. unfold try_except in Hh.
  destruct (py_int int_of_str d0) as [hx | e0] eqn:H0; cbn [rbind] in Hh.
  - destruct (py_int int_of_str d1) as [hy | e1] eqn:H1; cbn [rbind fst snd] in Hh.
    + now inversion Hh.
    + destruct (is_Exception e1); [now inversion Hh | discriminate Hh].
  - destruct (is_Exception e0); [now inversion Hh | discriminate Hh].
Qed.

(** X5.  Fractional dpad entries are truncated toward zero: floats strictly
    between -1.0 and 1.0 give the centre. *)
Theorem from_dict_dpad_fraction (d : list (pyval * pyval)) (x y : float)
    (more : list pyval) (f : FrameState) :
  as_sequence (dict_get d "dpad") = Some (VFloat x :: VFloat y :: more) ->
  (neg_one <? x)%float = true -> (x <? one)%float = true ->
  (neg_one <? y)%float = true -> (y <? one)%float = true ->
  from_dict float_of_str int_of_str (VDict d) = Ok f ->
  dpad f = (0, 0).
Proof.
  intros Hl Hx0 Hx1 Hy0 Hy1 Hf. apply from_dict_fields in Hf.
  destruct Hf as [_ [_ Hh]]. unfold normalize_dpad in Hh. rewrite Hl in Hh.
  cbn [py_int] in Hh.
  rewrite (int_of_float_small x Hx0 Hx1), (int_of_float_small y Hy0 Hy1) in Hh.
  now inversion Hh.
Qed.

End NormalizeMore.

(* ================================================================== *)
(** * Further properties of the wire encoder *)

Section EncoderMore.

Import FloatFacts.

Lemma set_bit_bits (pressed : bool) (mask i j : Z) :
  0 <= i ->
  Z.testbit (if pressed then Z.lor mask (Z.shiftl 1 i) else mask) j
  = (Z.testbit mask j || (pressed && (i =? j)))%bool.
Proof.
  intros Hi. destruct pressed; cbn [andb].
  - now rewrite Z.lor_spec, Z.shiftl_1_l, Z.pow2_bits_eqb by lia.
  - now rewrite orb_false_r.
Qed.

(** The bits of the mask under construction. *)
Lemma bitmask_from_bits (l : list bool) (i mask j : Z) :
  0 <= i -> 0 <= j ->
  Z.testbit (bitmask_from i l mask) j
  = (Z.testbit mask j || ((i <=? j) && nth (Z.to_nat (j - i)) l false))%bool.
Proof.
  revert i mask. induction l as [| pressed rest IH]; intros i mask Hi Hj;
    cbn [bitmask_from].
  - destruct (Z.to_nat (j - i)); cbn [nth]; now rewrite andb_false_r, orb_false_r.
  - rewrite IH, set_bit_bits by lia.
    destruct (Z.compare_spec i j) as [E | E | E].
    + subst j. rewrite Z.sub_diag, Z.eqb_refl, Z.leb_refl. cbn [Z.to_nat nth].
      replace (i + 1 <=? i) with false by (symmetry; apply Z.leb_gt; lia).
      destruct (Z.testbit mask i), pressed; reflexivity.
    + replace (i + 1 <=? j) with true by (symmetry; apply Z.leb_le; lia).
      replace (i <=? j) with true by (symmetry; apply Z.leb_le; lia).
      replace (i =? j) with false by (symmetry; apply Z.eqb_neq; lia).
      replace (Z.to_nat (j - i)) with (S (Z.to_nat (j - (i + 1)))) by lia.
      cbn [nth]. destruct (Z.testbit mask j), pressed; reflexivity.
    + replace (i + 1 <=? j) with false by (symmetry; apply Z.leb_gt; lia).
      replace (i <=? j) with false by (symmetry; apply Z.leb_gt; lia).
      replace (i =? j) with false by (symmetry; apply Z.eqb_neq; lia).
      destruct (Z.testbit mask j), pressed; reflexivity.
Qed.

(** Bit [j] of the button mask, for [j] below 16, is button [j]; the bits
    from 16 on are zero, however many buttons there are. *)
Lemma buttons_to_bitmask_bits (l : list bool) (j : Z) :
  0 <= j ->
  Z.testbit (buttons_to_bitmask l) j
  = ((j <? 16) && nth (Z.to_nat j) l false)%bool.
Proof.
  intros Hj. unfold buttons_to_bitmask. change 0xFFFF with (Z.ones 16).
  rewrite Z.land_spec, bitmask_from_bits, Z.bits_0, Z.sub_0_r by lia.
  replace (0 <=? j) with true by (symmetry; apply Z.leb_le; lia).
  cbn [orb andb]. destruct (Z.ltb_spec j 16) as [H | H].
  - rewrite Z.ones_spec_low by lia. now rewrite andb_true_r.
  - rewrite Z.ones_spec_high by lia. now rewrite andb_false_r.
Qed.

Lemma bits_above_bound (a n : Z) :
  0 <= a -> 0 <= n ->
  (forall j, n <= j -> Z.testbit a j = false) -> a < 2 ^ n.
Proof.
  intros Ha Hn H. destruct (Z.eq_dec a 0) as [-> | Hne].
  - now apply Z.pow_pos_nonneg.
  - apply Z.log2_lt_pow2; [lia |].
    destruct (Z_lt_le_dec (Z.log2 a) n) as [Hlt | Hge]; [exact Hlt |].
    specialize (H _ Hge). rewrite Z.bit_log2 in H by lia. discriminate H.
Qed.

(** With at most 16 buttons the mask is below [2 ^ count]: for the ten
    buttons of a frame, bits 10 to 15 are zero. *)
Lemma buttons_to_bitmask_bound (l : list bool) :
  (List.length l <= 16)%nat ->
  0 <= buttons_to_bitmask l < 2 ^ Z.of_nat (List.length l).
Proof.
  intros Hl. pose proof (buttons_to_bitmask_range l) as Hr.
  split; [lia |]. apply bits_above_bound; try lia.
  intros j Hj. rewrite buttons_to_bitmask_bits by lia.
  rewrite nth_overflow by lia. apply andb_false_r.
Qed.

(** X6.  The buttons can be read back from the mask, bit by bit. *)
Theorem buttons_to_bitmask_decode (l : list bool) :
  (List.length l <= 16)%nat ->
  map (fun i => Z.testbit (buttons_to_bitmask l) (Z.of_nat i))
      (seq 0 (List.length l))
  = l.
Proof.
  intros Hl. apply nth_ext with (d := false) (d' := false).
  - now rewrite length_map, length_seq.
  - intros n Hn. rewrite length_map, length_seq in Hn.
    rewrite (nth_indep _ false (Z.testbit (buttons_to_bitmask l) (Z.of_nat 0)))
      by (rewrite length_map, length_seq; exact Hn).
    rewrite (map_nth (fun i => Z.testbit (buttons_to_bitmask l) (Z.of_nat i))).
    rewrite seq_nth by exact Hn. cbn [Nat.add].
    rewrite buttons_to_bitmask_bits by lia.
    rewrite Nat2Z.id.
    replace (Z.of_nat n <? 16) with true by (symmetry; apply Z.ltb_lt; lia).
    reflexivity.
Qed.

(** X7.  Buttons from the seventeenth on are dropped without an error: the
    mask of a list is the mask of its first sixteen items. *)
Theorem buttons_to_bitmask_truncates (l : list bool) :
  buttons_to_bitmask l = buttons_to_bitmask (firstn 16 l).
Proof.
  apply Z.bits_inj'. intros j Hj. rewrite !buttons_to_bitmask_bits by exact Hj.
  destruct (Z.ltb_spec j 16) as [H | H]; [| reflexivity]. cbn [andb].
  rewrite nth_firstn.
  replace (Nat.ltb (Z.to_nat j) 16) with true
    by (symmetry; apply Nat.ltb_lt; lia).
  reflexivity.
Qed.

(** X8.  The dpad code of a valid dpad is between 0 and 8 and determines the
    dpad: its base-3 digits, less one, are the two components. *)
Theorem dpad_encode_decode (d : Z * Z) :
  dpad_component_ok (fst d) = true -> dpad_component_ok (snd d) = true ->
  0 <= dpad_encode d <= 8
  /\ (dpad_encode d mod 3 - 1, dpad_encode d / 3 - 1) = d.
Proof.
  destruct d as [hx hy]. unfold dpad_component_ok. cbn [fst snd dpad_encode].
  intros Hx Hy.
  apply orb_true_iff in Hx. destruct Hx as [Hx | Hx];
    [apply orb_true_iff in Hx; destruct Hx as [Hx | Hx] |];
    apply Z.eqb_eq in Hx;
    (apply orb_true_iff in Hy; destruct Hy as [Hy | Hy];
     [apply orb_true_iff in Hy; destruct Hy as [Hy | Hy] |];
     apply Z.eqb_eq in Hy); subst; split; (lia || reflexivity).
Qed.

Lemma pad_idempotent {A : Type} (n : nat) (l : list A) (d : A) :
  firstn n (firstn n (l ++ repeat d n) ++ repeat d n) = firstn n (l ++ repeat d n).
Proof.
  rewrite firstn_app, firstn_firstn, Nat.min_id.
  rewrite length_firstn, length_app, repeat_length.
  replace (n - Nat.min n (List.length l + n))%nat with 0%nat by lia.
  cbn [firstn]. apply app_nil_r.
Qed.

(** [pack] looks at the first six axes only and reads missing ones as
    0.0: a packet and the packet with its axes cut or filled to six pack
    alike. *)
Lemma pack_pads_axes (p : Packet) :
  pack p = pack {| p_buttons := p_buttons p;
                   p_axes := firstn 6 (p_axes p ++ repeat zero 6);
                   p_dpad_code := p_dpad_code p |}.
Proof.
  unfold pack. cbn [p_buttons p_axes p_dpad_code]. now rewrite pad_idempotent.
Qed.

Lemma rmap_pack_f_ok (ax : list float) :
  forallb in_unit_range ax = true ->
  exists fs, rmap pack_f ax = Ok fs
             /\ List.length (concat fs) = (4 * List.length ax)%nat.
Proof.
  induction ax as [| x xs IH]; intros H.
  - exists []. split; reflexivity.
  - cbn [forallb] in H. apply andb_prop in H. destruct H as [Hx Hxs].
    destruct (IH Hxs) as [fs [Hfs Hlen]].
    cbn [rmap]. rewrite (pack_f_in_unit_range x Hx), Hfs. cbn [rbind].
    eexists. split; [reflexivity |].
    cbn [concat]. rewrite length_app, Hlen. cbn [le_bytes List.length]. lia.
Qed.

(** X9.  For a frame with any number of buttons and of axes, all within
    [-1.0, 1.0], encoding depends on the dpad alone: it gives 29 bytes when
    the dpad code fits a byte, and raises [struct.error] otherwise. *)
Theorem pack_any_shape (f : FrameState) :
  forallb in_unit_range (axes f) = true ->
  if (0 <=? dpad_encode (dpad f)) && (dpad_encode (dpad f) <=? 255)
  then exists data, pack (packet_of_frame f) = Ok data
                    /\ List.length data = 29%nat
  else pack (packet_of_frame f) = Raise StructError.
Proof.
  intros Ha.
  assert (Hp : forallb in_unit_range (firstn 6 (axes f ++ repeat zero 6)) = true)
    by (apply pad_forallb; [exact Ha | reflexivity]).
  destruct (rmap_pack_f_ok _ Hp) as [fs [Hfs Hlen]].
  rewrite pad_length in Hlen.
  unfold pack, packet_of_frame, struct_pack_HffffffB.
  cbn [p_buttons p_axes p_dpad_code]. rewrite pad_length. cbn [Nat.eqb negb].
  rewrite (pack_H_ok _ (buttons_to_bitmask_range (buttons f))), Hfs.
  cbn [rbind].
  assert (Hcode : pack_B (dpad_encode (dpad f))
                  = if (0 <=? dpad_encode (dpad f)) && (dpad_encode (dpad f) <=? 255)
                    then Ok (le_bytes 1 (dpad_encode (dpad f)))
                    else Raise StructError) by reflexivity.
  rewrite Hcode.
  destruct ((0 <=? dpad_encode (dpad f)) && (dpad_encode (dpad f) <=? 255));
    cbn [rbind]; [| reflexivity].
  rewrite (pack_B_ok _ (checksum_range _)).
  change (pack_B HEADER) with (Ok (A := bytes) [255]). cbn [rbind].
  eexists. split; [reflexivity |].
  rewrite !length_app, Hlen. reflexivity.
Qed.

End EncoderMore.


(* ================================================================== *)
(** * Further properties of the pipeline *)

Section PipelineMore.

Import FloatFacts.

(** X10.  The modifier fold composes: folding over [ms1 ++ ms2] is folding over
    [ms1] and then, from its result, over [ms2]; after a modifier raises,
    the later modifiers are not called and stay as they were. *)
Theorem apply_modifiers_app (ms1 ms2 : list Modifier) (state : FrameState) :
  apply_modifiers (ms1 ++ ms2) state
  = match apply_modifiers ms1 state with
    | (Ok state', ms1') =>
        let '(r, ms2') := apply_modifiers ms2 state' in (r, ms1' ++ ms2')
    | (Raise e, ms1') => (Raise e, ms1' ++ ms2)
    end.
Proof.
  revert state. induction ms1 as [| m rest IH]; intros state.
  - cbn [app apply_modifiers]. now destruct (apply_modifiers ms2 state).
  - cbn [app apply_modifiers].
    destruct (update_modifier m state) as [[state' | e] m']; [| reflexivity].
    rewrite IH. destruct (apply_modifiers rest state') as [[state'' | e] rest'].
    + now destruct (apply_modifiers ms2 state'').
    + reflexivity.
Qed.

Lemma apply_modifiers_length (ms : list Modifier) (state : FrameState) :
  List.length (snd (apply_modifiers ms state)) = List.length ms.
Proof.
  revert state. induction ms as [| m rest IH]; intros state; [reflexivity |].
  cbn [apply_modifiers].
  destruct (update_modifier m state) as [[state' | e] m']; [| reflexivity].
  specialize (IH state'). destruct (apply_modifiers rest state') as [r rest'].
  cbn [snd List.length] in *. now rewrite IH.
Qed.

(** The pipeline after a tick, by cases on how far the tick got. *)
Lemma after_shape (p : InputPipeline) (now : float) :
  exists mods sent_at s,
    after p now = tick_state p (snd (combine_generators (generators p)))
                    mods sent_at s
    /\ List.length mods = List.length (modifiers p)
    /\ (s = None <-> serial p = None).
Proof.
  unfold after, update.
  destruct (combine_generators (generators p)) as [r0 gens]. cbn [snd].
  assert (Base : exists mods sent_at s,
             tick_state p gens (modifiers p) (last_send p) (serial p)
             = tick_state p gens mods sent_at s
             /\ List.length mods = List.length (modifiers p)
             /\ (s = None <-> serial p = None))
    by (exists (modifiers p), (last_send p), (serial p); repeat split; tauto).
  destruct r0 as [[state |] | e]; cbn [fst snd]; try exact Base.
  destruct (run_callbacks (_on_generate_callbacks p) state) as [[[] | e] log1];
    cbn [fst snd]; try exact Base.
  pose proof (apply_modifiers_length (modifiers p) state) as Hlen.
  destruct (apply_modifiers (modifiers p) state) as [r2 mods]. cbn [snd] in Hlen.
  assert (Mid : exists mods0 sent_at s,
             tick_state p gens mods (last_send p) (serial p)
             = tick_state p gens mods0 sent_at s
             /\ List.length mods0 = List.length (modifiers p)
             /\ (s = None <-> serial p = None))
    by (exists mods, (last_send p), (serial p); repeat split; tauto).
  destruct r2 as [state' | e]; cbn [fst snd]; try exact Mid.
  destruct (run_callbacks (_on_post_mod_callbacks p) state') as [[[] | e] log3];
    cbn [fst snd]; try exact Mid.
  destruct (transmit p now state') as [[r4 sent_at] s] eqn:Ht.
  assert (Hs : s = None <-> serial p = None).
  { unfold transmit in Ht. destruct (serial p) as [si |].
    - destruct (gate_open p now).
      + destruct (send_frame si (FrameObj state')) as [[[] | e] si'];
          inversion Ht; subst; split; discriminate.
      + inversion Ht; subst; split; discriminate.
    - inversion Ht; subst; tauto. }
  assert (Fin : exists mods0 sent_at0 s0,
             tick_state p gens mods sent_at s
             = tick_state p gens mods0 sent_at0 s0
             /\ List.length mods0 = List.length (modifiers p)
             /\ (s0 = None <-> serial p = None))
    by (exists mods, sent_at, s; repeat split; tauto).
  destruct r4; cbn [fst snd]; exact Fin.
Qed.

(** X11.  A tick calls the first registered generator once and no other: the
    generators behind it are left as they were, whatever the tick does. *)
Theorem first_generator_only (p : InputPipeline) (g : Generator)
    (rest : list Generator) (now : float) :
  generators p = g :: rest ->
  generators (after p now)
  = {| behaviour := behaviour g; calls := S (calls g) |} :: rest.
Proof.
  intros Hg. destruct (after_shape p now) as (mods & sent_at & s & -> & _).
  cbn [tick_state generators]. now rewrite Hg.
Qed.

(** X12.  A tick keeps the configuration: the interval, both callback lists, the
    number of generators and of modifiers, and whether there is a
    transport. *)
Theorem tick_keeps_configuration (p : InputPipeline) (now : float) :
  send_interval (after p now) = send_interval p
  /\ _on_generate_callbacks (after p now) = _on_generate_callbacks p
  /\ _on_post_mod_callbacks (after p now) = _on_post_mod_callbacks p
  /\ List.length (generators (after p now)) = List.length (generators p)
  /\ List.length (modifiers (after p now)) = List.length (modifiers p)
  /\ (serial (after p now) = None <-> serial p = None).
Proof.
  destruct (after_shape p now) as (mods & sent_at & s & -> & Hlen & Hs).
  cbn [tick_state send_interval _on_generate_callbacks _on_post_mod_callbacks
       generators modifiers serial].
  repeat split; try assumption; try tauto.
  unfold combine_generators. destruct (generators p) as [| g rest]; reflexivity.
Qed.

(** X13.  When a tick returns [None], no callback was invoked, no modifier was
    applied, nothing was transmitted and the time stamp is unchanged. *)
Theorem tick_returning_None (p : InputPipeline) (now : float) :
  fst (fst (update p now)) = Ok None ->
  snd (update p now) = []
  /\ modifiers (after p now) = modifiers p
  /\ serial (after p now) = serial p
  /\ last_send (after p now) = last_send p.
Proof.
  unfold after, update.
  destruct (combine_generators (generators p)) as [[[state |] | e] gens];
    cbn [fst snd]; try discriminate; [| intros _; repeat split].
  destruct (run_callbacks (_on_generate_callbacks p) state) as [[[] | e] log1];
    cbn [fst snd]; try discriminate.
  destruct (apply_modifiers (modifiers p) state) as [[state' | e] mods];
    cbn [fst snd]; try discriminate.
  destruct (run_callbacks (_on_post_mod_callbacks p) state') as [[[] | e] log3];
    cbn [fst snd]; try discriminate.
  destruct (transmit p now state') as [[[[] | e] sent_at] s];
    cbn [fst snd]; discriminate.
Qed.

(** X14.  When a modifier raises, the tick raises the same exception: the first
    callback list was invoked, the second was not, and nothing was
    transmitted. *)
Theorem modifier_fault_propagates (p : InputPipeline) (g : Generator)
    (rest : list Generator) (now : float) (state : FrameState) (e : exn)
    (mods : list Modifier) :
  raise_only_Exception (_on_generate_callbacks p) ->
  generators p = g :: rest ->
  behaviour g (calls g) = Ok (Some state) ->
  apply_modifiers (modifiers p) state = (Raise e, mods) ->
  update p now
  = (Raise e,
     tick_state p (snd (generate g) :: rest) mods (last_send p) (serial p),
     calls_of (_on_generate_callbacks p) state).
Proof.
  intros Hpre Hg Hb Hm.
  unfold update, combine_generators. rewrite Hg. unfold generate at 1.
  rewrite Hb. rewrite (run_callbacks_isolated _ state Hpre), Hm. reflexivity.
Qed.

(** What [send_frame] appends on success is the packet of the frame. *)
Lemma send_frame_data (si si' : SerialInterface) (f : FrameState) :
  send_frame si (FrameObj f) = (Ok tt, si') ->
  exists data, pack (packet_of_frame f) = Ok data
               /\ written si' = written si ++ [data].
Proof.
  unfold send_frame. destruct (ser si) as [s |] eqn:Hs; [| discriminate].
  destruct (pack (packet_of_frame f)) as [data | e]; [| discriminate].
  unfold serial_write. destruct (write_fails s); [discriminate |].
  intros H. inversion H; subst. exists data. split; [reflexivity |].
  unfold written. cbn [ser written_data]. now rewrite Hs.
Qed.

(** X15.  What a tick transmits is the encoding of the frame it returns: after
    a tick that returned a frame, the transport holds what it held before
    and at most one more packet, the packed frame. *)
Theorem tick_transmits_returned_frame (p : InputPipeline) (now : float)
    (f : FrameState) :
  fst (fst (update p now)) = Ok (Some f) ->
  transmitted (after p now) = transmitted p
  \/ exists data, pack (packet_of_frame f) = Ok data
                  /\ List.length data = 29%nat
                  /\ transmitted (after p now) = transmitted p ++ [data].
Proof.
  unfold after, update.
  destruct (combine_generators (generators p)) as [[[state |] | e] gens];
    cbn [fst snd]; try discriminate.
  destruct (run_callbacks (_on_generate_callbacks p) state) as [[[] | e] log1];
    cbn [fst snd]; try discriminate.
  destruct (apply_modifiers (modifiers p) state) as [[state' | e] mods];
    cbn [fst snd]; try discriminate.
  destruct (run_callbacks (_on_post_mod_callbacks p) state') as [[[] | e] log3];
    cbn [fst snd]; try discriminate.
  destruct (transmit p now state') as [[[[] | e] sent_at] s] eqn:Ht;
    cbn [fst snd]; try discriminate.
  intros H. apply Ok_inj in H. injection H as <-.
  unfold transmit in Ht. unfold transmitted. cbn [tick_state serial].
  destruct (serial p) as [si |]; [| inversion Ht; subst; now left].
  destruct (gate_open p now); [| inversion Ht; subst; now left].
  destruct (send_frame si (FrameObj state')) as [[[] | e] si'] eqn:Hs;
    inversion Ht; subst.
  apply send_frame_data in Hs. destruct Hs as [data [Hd Hw]].
  right. exists data. repeat split; try assumption.
  unfold pack in Hd.
  destruct (struct_pack_HffffffB _ _ _) as [payload |] eqn:Hp; [| discriminate].
  cbn [rbind] in Hd.
  unfold struct_pack_HffffffB in Hp.
  destruct (negb _); [discriminate |].
  destruct (pack_H _) as [hb |] eqn:Hh; [| discriminate].
  destruct (rmap pack_f _) as [fs |] eqn:Hfs; [| discriminate].
  destruct (pack_B (p_dpad_code _)) as [db |] eqn:Hdb; [| discriminate].
  cbn [rbind] in Hp. apply Ok_inj in Hp.
  change (pack_B HEADER) with (Ok (A := bytes) [255]) in Hd. cbn [rbind] in Hd.
  rewrite (pack_B_ok _ (checksum_range _)) in Hd. cbn [rbind] in Hd.
  apply Ok_inj in Hd. subst data payload.
  unfold pack_H in Hh. destruct (_ && _) in Hh; [| discriminate].
  apply Ok_inj in Hh. subst hb.
  unfold pack_B in Hdb. destruct (_ && _) in Hdb; [| discriminate].
  apply Ok_inj in Hdb. subst db.
  assert (Hlen : List.length (concat fs) = 24%nat).
  { assert (G : forall ax fs0, rmap pack_f ax = Ok fs0 ->
                  List.length (concat fs0) = (4 * List.length ax)%nat).
    { induction ax as [| x xs IH]; intros fs0 H0.
      - apply Ok_inj in H0. now subst.
      - cbn [rmap] in H0. unfold pack_f at 1 in H0.
        destruct (_ && _) in H0; [discriminate |]. cbn [rbind] in H0.
        destruct (rmap pack_f xs) as [ys |]; [| discriminate].
        cbn [rbind] in H0. apply Ok_inj in H0. subst fs0.
        cbn [concat]. rewrite length_app, (IH ys eq_refl).
        cbn [le_bytes List.length]. lia. }
    rewrite (G _ _ Hfs), pad_length. reflexivity. }
  rewrite !length_app, Hlen. reflexivity.
Qed.

End PipelineMore.

(* ================================================================== *)
(** * The transport across ticks, and the run loop *)

Section LoopFacts.

Import FloatFacts.

(** How the constructor sets up the transport: none for the port [None];
    for a name whose upper-case form starts with MOCK, an interface whose
    port is not open. *)
Lemma InputPipeline_init_transport (serial_Serial : pyval -> Z -> result Serial)
    (baud : Z) (interval : float) :
  (exists p, InputPipeline_init serial_Serial VNone baud interval = Ok p
             /\ serial p = None)
  /\ forall name, String.prefix "MOCK" (upper name) = true ->
       exists p, InputPipeline_init serial_Serial (VStr name) baud interval = Ok p
                 /\ serial p = Some {| ser := None |}.
Proof.
  split.
  - eexists. split; reflexivity.
  - intros name Hn. unfold InputPipeline_init, SerialInterface_init, is_mock_port.
    cbn [py_bool rbind].
    destruct name as [| c name']; [discriminate Hn |].
    cbn [String.eqb negb orb]. rewrite Hn. cbn [rbind].
    eexists. split; reflexivity.
Qed.

(** X16.  Without a transport no tick transmits or touches the time
    stamp, whatever its outcome; and when the callbacks raise nothing but
    [Exception]s, a frame is generated and the modifiers succeed, the
    tick returns the transformed frame whatever the clock reads: the
    transmit step cannot raise. *)
Theorem tick_without_transport (p : InputPipeline) (now : float) :
  serial p = None ->
  (serial (after p now) = None /\ last_send (after p now) = last_send p)
  /\ forall (g : Generator) (rest : list Generator) (state state' : FrameState)
       (mods : list Modifier),
       raise_only_Exception (_on_generate_callbacks p) ->
       raise_only_Exception (_on_post_mod_callbacks p) ->
       generators p = g :: rest ->
       behaviour g (calls g) = Ok (Some state) ->
       apply_modifiers (modifiers p) state = (Ok state', mods) ->
       fst (fst (update p now)) = Ok (Some state').
Proof.
  intros Hs. split.
  - unfold after, update.
    destruct (combine_generators (generators p)) as [[[state |] | e] gens];
      cbn [fst snd tick_state serial last_send]; try (split; [exact Hs | reflexivity]).
    destruct (run_callbacks (_on_generate_callbacks p) state) as [[[] | e] log1];
      cbn [fst snd tick_state serial last_send]; try (split; [exact Hs | reflexivity]).
    destruct (apply_modifiers (modifiers p) state) as [[state' | e] mods];
      cbn [fst snd tick_state serial last_send]; try (split; [exact Hs | reflexivity]).
    destruct (run_callbacks (_on_post_mod_callbacks p) state') as [[[] | e] log3];
      cbn [fst snd tick_state serial last_send]; try (split; [exact Hs | reflexivity]).
    unfold transmit. rewrite Hs. cbn [fst snd tick_state serial last_send].
    split; reflexivity.
  - intros g rest state state' mods Hpre Hpost Hg Hb Hm.
    unfold update, combine_generators. rewrite Hg. unfold generate.
    rewrite Hb. rewrite (run_callbacks_isolated _ state Hpre), Hm.
    rewrite (run_callbacks_isolated _ state' Hpost).
    unfold transmit. rewrite Hs. reflexivity.
Qed.

(** X17.  With an interface whose port is not open, as the constructor makes for
    a MOCK port, a tick that reaches the transmit step with the gate open
    raises [RuntimeError], after both callback lists were invoked; the
    time stamp is not updated. *)
Theorem tick_with_closed_port (p : InputPipeline) (si : SerialInterface)
    (g : Generator) (rest : list Generator) (now : float)
    (state state' : FrameState) (mods : list Modifier) :
  serial p = Some si -> ser si = None ->
  (send_interval p <=? now - last_send p)%float = true ->
  raise_only_Exception (_on_generate_callbacks p) ->
  raise_only_Exception (_on_post_mod_callbacks p) ->
  generators p = g :: rest ->
  behaviour g (calls g) = Ok (Some state) ->
  apply_modifiers (modifiers p) state = (Ok state', mods) ->
  fst (fst (update p now)) = Raise RuntimeError
  /\ snd (update p now)
     = calls_of (_on_generate_callbacks p) state
       ++ calls_of (_on_post_mod_callbacks p) state'
  /\ last_send (after p now) = last_send p.
Proof.
  intros Hs Hser Hgate Hpre Hpost Hg Hb Hm.
  unfold after, update, combine_generators. rewrite Hg. unfold generate at 1 2 3.
  rewrite Hb. rewrite (run_callbacks_isolated _ state Hpre), Hm.
  rewrite (run_callbacks_isolated _ state' Hpost).
  unfold transmit, gate_open. rewrite Hs, Hgate.
  rewrite (send_frame_not_open si state' Hser). repeat split.
Qed.

(** A deadzone or hair-trigger modifier maps a valid frame to a valid
    frame and keeps no state. *)
Lemma range_keeping_update (m : Modifier) (f : FrameState) :
  range_keeping m = true -> frame_ok f = true ->
  exists f', update_modifier m f = (Ok f', m) /\ frame_ok f' = true.
Proof.
  intros Hm Hf. apply frame_ok_inv in Hf.
  destruct Hf as (lx & ly & rx & ry & lt & rt & Ha & Lb & R0 & R1 & R2 & R3 & R4 & R5 & Dx & Dy).
  destruct f as [b a d]. cbn [axes buttons dpad] in *. subst a.
  destruct m as [dl dr | th | s th | q | fn]; try discriminate Hm;
    cbn [update_modifier].
  - eexists. split; [reflexivity |].
    unfold frame_ok.
    cbn [buttons axes dpad List.length forallb Nat.eqb skipn app].
    rewrite (deadzone_value_in_range dl lx R0), (deadzone_value_in_range dl ly R1),
      (deadzone_value_in_range dr rx R2), (deadzone_value_in_range dr ry R3).
    rewrite Lb, R4, R5, Dx, Dy. reflexivity.
  - unfold hair_update; cbn [axes buttons dpad list_get nth_error rbind
      Axis.RIGHTTRIGGER].
    destruct (th <? rt)%float; cbn [list_set List.length Nat.ltb Nat.leb
      replace_nth rbind];
      (eexists; split; [reflexivity |]);
      unfold frame_ok;
      cbn [buttons axes dpad List.length forallb Nat.eqb replace_nth
           Axis.RIGHTTRIGGER];
      rewrite Lb, R0, R1, R2, R3, R4, Dx, Dy; reflexivity.
Qed.

Lemma range_keeping_fold (ms : list Modifier) (f : FrameState) :
  forallb range_keeping ms = true -> frame_ok f = true ->
  exists f', apply_modifiers ms f = (Ok f', ms) /\ frame_ok f' = true.
Proof.
  revert f. induction ms as [| m rest IH]; intros f Hms Hf.
  - exists f. split; [reflexivity | exact Hf].
  - cbn [forallb] in Hms. apply andb_prop in Hms. destruct Hms as [Hm Hrest].
    destruct (range_keeping_update m f Hm Hf) as [f1 [H1 Hf1]].
    destruct (IH f1 Hrest Hf1) as [f2 [H2 Hf2]].
    exists f2. split; [| exact Hf2].
    cbn [apply_modifiers]. now rewrite H1, H2.
Qed.

(** A tick of a healthy pipeline returns a frame and leaves the pipeline
    healthy. *)
Lemma healthy_tick (p : InputPipeline) (now : float) :
  healthy p ->
  (exists f, fst (fst (update p now)) = Ok (Some f) /\ frame_ok f = true)
  /\ healthy (after p now).
Proof.
  intros (Hgen & Hmods & Hpre & Hpost & Htr).
  destruct Hgen as (g & rest & Hg & Hsteady).
  destruct (Hsteady (calls g)) as [f0 [Hb Hf0]].
  destruct (range_keeping_fold _ f0 Hmods Hf0) as [f1 [Hm Hf1]].
  assert (Hgen' : exists g' rest', snd (generate g) :: rest = g' :: rest'
                                   /\ steady_generator g')
    by (exists (snd (generate g)), rest; split; [reflexivity | exact Hsteady]).
  unfold after, update, combine_generators. rewrite Hg. unfold generate.
  rewrite Hb. rewrite (run_callbacks_isolated _ f0 Hpre), Hm.
  rewrite (run_callbacks_isolated _ f1 Hpost).
  unfold transmit. unfold healthy_transport in Htr.
  destruct (serial p) as [si |] eqn:Hs.
  - destruct (ser si) as [port |] eqn:Hport; [| contradiction].
    destruct (gate_open p now).
    + destruct si as [o]. cbn [ser] in Hport. subst o.
      destruct (send_frame_writes port f1 Hf1 Htr) as [data [_ Hw]].
      rewrite Hw. cbn [fst snd]. split; [exists f1; now split |].
      unfold healthy. cbn [tick_state generators modifiers serial
        _on_generate_callbacks _on_post_mod_callbacks healthy_transport ser
        write_fails].
      repeat split; assumption.
    + cbn [fst snd]. split; [exists f1; now split |].
      unfold healthy. cbn [tick_state generators modifiers serial
        _on_generate_callbacks _on_post_mod_callbacks healthy_transport].
      rewrite Hport. repeat split; assumption.
  - cbn [fst snd]. split; [exists f1; now split |].
    unfold healthy. cbn [tick_state generators modifiers serial
      _on_generate_callbacks _on_post_mod_callbacks healthy_transport].
    repeat split; assumption.
Qed.

(** X18.  Liveness: the run loop of a healthy pipeline never ends by itself,
    however many ticks it runs and whatever the clock reads. *)
Theorem healthy_run_loop (p : InputPipeline) (clock : list float) :
  healthy p ->
  fst (fst (run_loop p clock)) = StillRunning
  /\ healthy (snd (fst (run_loop p clock))).
Proof.
  revert p. induction clock as [| now later IH]; intros p Hp.
  - split; [reflexivity | exact Hp].
  - destruct (healthy_tick p now Hp) as [[f [Hr _]] Hafter].
    specialize (IH (after p now) Hafter). unfold after in *.
    cbn [run_loop]. destruct (update p now) as [[r p'] log]. cbn [fst snd] in *.
    subst r. destruct (run_loop p' later) as [[e p''] log']. cbn [fst snd] in *.
    exact IH.
Qed.

(** X19.  A tick that raises [KeyboardInterrupt] stops the loop cleanly: no
    later tick runs, the port, if any, is closed, and what was transmitted
    is kept. *)
Theorem run_loop_interrupted (p : InputPipeline) (now : float)
    (later : list float) :
  fst (fst (update p now)) = Raise KeyboardInterrupt ->
  fst (fst (run_loop p (now :: later))) = Stopped
  /\ snd (run_loop p (now :: later)) = snd (update p now)
  /\ port_closed (snd (fst (run_loop p (now :: later))))
  /\ transmitted (snd (fst (run_loop p (now :: later))))
     = transmitted (after p now).
Proof.
  unfold after. cbn [run_loop].
  destruct (update p now) as [[r p'] log]. cbn [fst snd]. intros ->.
  cbn [fst snd]. repeat split.
  - unfold port_closed. cbn [tick_state serial].
    destruct (serial p') as [si |]; cbn [option_map]; [| exact I].
    unfold close_interface. destruct (ser si) as [port |] eqn:Hport; cbn [ser].
    + reflexivity.
    + now rewrite Hport.
  - unfold transmitted. cbn [tick_state serial].
    destruct (serial p') as [si |]; cbn [option_map]; [| reflexivity].
    unfold close_interface, written. destruct (ser si) as [port |] eqn:Hport;
      cbn [ser written_data]; [reflexivity | now rewrite Hport].
Qed.

(** X20.  Any other exception leaves the loop at once, with the port left open
    and the pipeline as the failing tick left it. *)
Theorem run_loop_crashes (p : InputPipeline) (now : float)
    (later : list float) (e : exn) :
  fst (fst (update p now)) = Raise e -> e <> KeyboardInterrupt ->
  run_loop p (now :: later) = (Crashed e, after p now, snd (update p now)).
Proof.
  unfold after. cbn [run_loop].
  destruct (update p now) as [[r p'] log]. cbn [fst snd]. intros -> Hne.
  destruct e; try reflexivity. now contradiction Hne.
Qed.

End LoopFacts.


(* ================================================================== *)
(** * Further properties of the modifiers *)

Section ModifierMore.

Import FloatFacts.

Open Scope float_scope.

Lemma abs_opp (v : float) : abs (- v) = abs v.
Proof.
  apply Prim2SF_inj. rewrite !abs_spec, opp_spec.
  now destruct (Prim2SF v).
Qed.

Lemma deadzone_value_idempotent (T v : float) :
  (if abs (if abs v <? T then zero else v) <? T then zero
   else (if abs v <? T then zero else v))
  = (if abs v <? T then zero else v).
Proof.
  destruct (abs v <? T) eqn:H.
  - now destruct (abs zero <? T).
  - now rewrite H.
Qed.

(** X21.  The deadzone is idempotent: applied to its own result, it changes
    nothing, for every frame it accepts and every pair of thresholds. *)
Theorem deadzone_update_idempotent (dl dr : float) (f f' : FrameState) :
  deadzone_update dl dr f = Ok f' -> deadzone_update dl dr f' = Ok f'.
Proof.
  unfold deadzone_update.
  destruct (axes f) as [| a0 [| a1 [| a2 [| a3 r]]]]; try discriminate.
  cbn [repeat app seq rmap deadzone_axis list_get nth_error rbind skipn].
  intros H. apply Ok_inj in H. subst f'.
  cbn [axes buttons dpad app repeat seq rmap deadzone_axis list_get nth_error
       rbind skipn].
  now rewrite !deadzone_value_idempotent.
Qed.

(** X22.  The deadzone is symmetric: the mirrored stick position is zeroed on
    exactly the same axes, and is otherwise passed through. *)
Theorem deadzone_update_symmetric (dl dr : float) (b : list bool)
    (lx ly rx ry lt rt : float) (d : Z * Z) :
  exists z0 z1 z2 z3 : bool,
    deadzone_update dl dr (frame b [lx; ly; rx; ry; lt; rt] d)
    = Ok (frame b [zeroed_or z0 lx; zeroed_or z1 ly;
                   zeroed_or z2 rx; zeroed_or z3 ry; lt; rt] d)
    /\ deadzone_update dl dr (frame b [- lx; - ly; - rx; - ry; lt; rt] d)
       = Ok (frame b [zeroed_or z0 (- lx); zeroed_or z1 (- ly);
                      zeroed_or z2 (- rx); zeroed_or z3 (- ry); lt; rt] d).
Proof.
  exists (abs lx <? dl), (abs ly <? dl), (abs rx <? dr), (abs ry <? dr).
  unfold deadzone_update, frame, zeroed_or.
  cbn [axes buttons dpad repeat app seq rmap deadzone_axis list_get nth_error
       rbind skipn].
  rewrite !abs_opp. split; reflexivity.
Qed.

(** An absolute value is never below a threshold that is zero or
    negative. *)
Lemma abs_not_below (v T : float) : (T <=? 0) = true -> (abs v <? T) = false.
Proof.
  rewrite leb_spec, ltb_spec, abs_spec.
  change (Prim2SF 0) with (S754_zero false).
  unfold SFleb, SFltb.
  destruct (Prim2SF T) as [s | s | | s m e], (Prim2SF v) as [sv | sv | | sv mv ev];
    cbn [SFabs SFcompare]; try reflexivity; try discriminate;
    destruct s; try reflexivity; discriminate.
Qed.

(** X23.  A threshold that is zero or negative switches the deadzone off: the
    frame is returned as it is. *)
Theorem deadzone_update_disabled (dl dr : float) (b : list bool)
    (lx ly rx ry lt rt : float) (d : Z * Z) :
  (dl <=? 0) = true -> (dr <=? 0) = true ->
  deadzone_update dl dr (frame b [lx; ly; rx; ry; lt; rt] d)
  = Ok (frame b [lx; ly; rx; ry; lt; rt] d).
Proof.
  intros Hl Hr. unfold deadzone_update, frame.
  cbn [axes buttons dpad repeat app seq rmap deadzone_axis list_get nth_error
       rbind skipn].
  now rewrite !(abs_not_below _ dl Hl), !(abs_not_below _ dr Hr).
Qed.

(** X24.  The hair trigger turns the right trigger into exactly 1.0 or -1.0:
    1.0 when it is above the threshold, -1.0 when it is at or below it or
    is a NaN; the other five axes, the buttons and the dpad are returned
    as they were. *)
Theorem hair_update_spec (th : float) (b : list bool)
    (lx ly rx ry lt rt : float) (d : Z * Z) :
  exists rt',
    update_modifier (HairTriggers th) (frame b [lx; ly; rx; ry; lt; rt] d)
    = (Ok (frame b [lx; ly; rx; ry; lt; rt'] d), HairTriggers th)
    /\ (rt' = one \/ rt' = neg_one)
    /\ ((th <? rt) = true -> rt' = one)
    /\ ((rt <=? th) = true -> rt' = neg_one)
    /\ ((rt =? rt) = false -> rt' = neg_one).
Proof.
  exists (if th <? rt then one else neg_one). split; [| repeat split].
  - cbn [update_modifier]. unfold hair_update, frame.
    cbn [axes buttons dpad list_get nth_error rbind Axis.RIGHTTRIGGER].
    now destruct (th <? rt).
  - destruct (th <? rt); [now left | now right].
  - now intros ->.
  - intros H. now rewrite (leb_not_ltb _ _ H).
  - intros H. rewrite ltb_spec. rewrite eqb_spec in H.
    unfold SFltb. unfold SFeqb in H.
    destruct (Prim2SF rt) as [s | s | | s m e]; cbn [SFcompare] in H.
    + discriminate.
    + destruct s; discriminate.
    + now destruct (Prim2SF th).
    + destruct s; rewrite Z.compare_refl, Pos.compare_cont_refl in H; discriminate.
Qed.

(** X25.  With a threshold in [-1.0, 1.0), the hair trigger is idempotent. *)
Theorem hair_update_idempotent (th : float) (f f' : FrameState) :
  (neg_one <=? th) = true -> (th <? one) = true ->
  hair_update th f = Ok f' -> hair_update th f' = Ok f'.
Proof.
  intros Hlo Hhi. unfold hair_update.
  destruct (axes f) as [| a0 [| a1 [| a2 [| a3 [| a4 [| a5 r]]]]]];
    try discriminate.
  unfold Axis.RIGHTTRIGGER. cbn [list_get nth_error rbind].
  destruct (th <? a5); cbn [list_set List.length Nat.ltb Nat.leb replace_nth rbind];
    intros H; apply Ok_inj in H; subst f';
    cbn [axes buttons dpad list_get nth_error rbind].
  - rewrite Hhi. reflexivity.
  - rewrite (leb_not_ltb _ _ Hlo). reflexivity.
Qed.

(** X26.  A modifier given a frame with too few axes raises [IndexError] and
    returns no frame: the deadzone below four axes, the hair trigger and
    the anti-recoil below six. *)
Theorem modifiers_need_axes (f : FrameState) :
  ((List.length (axes f) < 4)%nat ->
   forall dl dr, deadzone_update dl dr f = Raise IndexError)
  /\ ((List.length (axes f) < 6)%nat ->
      (forall th, hair_update th f = Raise IndexError)
      /\ (forall s th, antirecoil_update s th f = Raise IndexError)).
Proof.
  split.
  - intros H dl dr. now apply deadzone_update_short.
  - intros H. unfold hair_update, antirecoil_update.
    destruct (axes f) as [| a0 [| a1 [| a2 [| a3 [| a4 [| a5 r]]]]]];
      cbn [List.length] in H; try lia; split; reflexivity.
Qed.

(** X27.  The chat override takes one message off the queue at every update,
    also when it raises, and touches nothing but the first axis. *)
Theorem twitch_update_frame (msg : pyval) (queue : list pyval) (f : FrameState) :
  snd (twitch_update (msg :: queue) f) = queue
  /\ forall f', fst (twitch_update (msg :: queue) f) = Ok f' ->
       buttons f' = buttons f /\ dpad f' = dpad f
       /\ skipn 1 (axes f') = skipn 1 (axes f)
       /\ List.length (axes f') = List.length (axes f).
Proof.
  split; [reflexivity |]. cbn [twitch_update fst]. intros f'.
  destruct (msg_says msg "left") as [[|] | e]; cbn [rbind]; try discriminate.
  - destruct (axes f) as [| x r]; cbn [list_get nth_error rbind list_set
      List.length Nat.ltb Nat.leb replace_nth]; try discriminate.
    intros H. apply Ok_inj in H. subst f'. repeat split.
  - destruct (msg_says msg "right") as [[|] | e]; cbn [rbind]; try discriminate.
    + destruct (axes f) as [| x r]; cbn [list_get nth_error rbind list_set
        List.length Nat.ltb Nat.leb replace_nth]; try discriminate.
      intros H. apply Ok_inj in H. subst f'. repeat split.
    + intros H. apply Ok_inj in H. subst f'. repeat split.
Qed.

(** With an empty queue, or a message that says neither [left] nor
    [right], the chat override returns the frame as it is. *)
Lemma twitch_update_passes (queue : list pyval) (f : FrameState) :
  match queue with
  | [] => True
  | msg :: _ => msg_says msg "left" = Ok false /\ msg_says msg "right" = Ok false
  end ->
  fst (twitch_update queue f) = Ok f.
Proof.
  destruct queue as [| msg rest]; [reflexivity |].
  intros [Hl Hr]. cbn [twitch_update fst]. rewrite Hl. cbn [rbind].
  rewrite Hr. cbn [rbind]. now destruct f.
Qed.

End ModifierMore.

(* ================================================================== *)
(** * The XInput generator ([modules/xinput.py]) *)

Section XInputFacts.

Variable float_of_str : string -> option float.
Variable int_of_str : string -> option Z.

Import FloatFacts.

(** *** [float(n)] for an int below [2^53] in magnitude *)

Lemma binary_round_aux_64_finite (s : bool) (m e : Z) (l : location) :
  0 <= m < 2 ^ 53 -> e <= 0 ->
  is_infinity_sf (binary_round_aux prec emax s m e l) = false.
Proof.
  intros Hm He. unfold binary_round_aux, shr_fexp.
  pose proof (Zdigits2_bound m 53 ltac:(lia) Hm) as Hd.
  pose proof (shr_bounds (shr_record_of_loc m l) e
                (fexp prec emax (Zdigits2 m + e) - e)) as H1.
  rewrite shr_m_of_loc in H1. specialize (H1 (proj1 Hm)).
  destruct (shr (shr_record_of_loc m l) e _) as [mrs' e'].
  cbn [fst snd] in H1. destruct H1 as [Hm' He'].
  assert (He'' : e' <= 0) by (unfold fexp, SpecFloat.emin, prec, emax in He'; lia).
  pose proof (round_nearest_even_bounds (shr_m mrs') (loc_of_shr_record mrs')
                (proj1 Hm')) as Hr.
  set (mr := round_nearest_even (shr_m mrs') (loc_of_shr_record mrs')) in *.
  assert (Hmr : 0 <= mr < 2 ^ 54)
    by (change (2 ^ 54) with (2 * 2 ^ 53); lia).
  pose proof (Zdigits2_bound mr 54 ltac:(lia) Hmr) as Hd'.
  pose proof (shr_bounds (shr_record_of_loc mr loc_Exact) e'
                (fexp prec emax (Zdigits2 mr + e') - e')) as H2.
  rewrite shr_m_of_loc in H2. specialize (H2 (proj1 Hmr)).
  destruct (shr (shr_record_of_loc mr loc_Exact) e' _) as [mrs'' e''].
  cbn [fst snd] in H2. destruct H2 as [_ H2].
  assert (Hfin : e'' <= 1) by (unfold fexp, SpecFloat.emin, prec, emax in H2; lia).
  destruct (shr_m mrs''); try reflexivity.
  replace (e'' <=? emax - prec) with true
    by (symmetry; apply Z.leb_le; unfold prec, emax; lia).
  reflexivity.
Qed.

Lemma binary_round_64_finite (s : bool) (m : positive) :
  Zpos m < 2 ^ 53 -> is_infinity_sf (binary_round prec emax s m 0) = false.
Proof.
  intros Hm. unfold binary_round, shl_align.
  destruct (fexp prec emax (Zpos (digits2_pos m) + 0) - 0) as [| k | k] eqn:Hk.
  - apply binary_round_aux_64_finite; lia.
  - apply binary_round_aux_64_finite; lia.
  - apply binary_round_aux_64_finite; [| lia].
    pose proof (digits_upper (shift_pos k m)) as Hu.
    unfold shift_pos in *. rewrite digits_iter_xO in Hu.
    assert (2 ^ (Zpos (digits2_pos m) + Zpos k) <= 2 ^ 53)
      by (apply Z.pow_le_mono_r; unfold fexp, SpecFloat.emin, prec, emax in Hk; lia).
    lia.
Qed.

Lemma float_of_int_small (z : Z) :
  - 2 ^ 53 < z < 2 ^ 53 -> float_of_int z = Ok (XInput.float_of z).
Proof.
  intros Hz. unfold float_of_int, XInput.float_of.
  assert (H : is_infinity_sf (binary_normalize prec emax z 0 false) = false).
  { destruct z as [| m | m]; cbn [binary_normalize]; [reflexivity | |];
      apply binary_round_64_finite; lia. }
  destruct (binary_normalize prec emax z 0 false); try reflexivity. discriminate.
Qed.

(** *** The unit range is symmetric *)

Lemma SFcompare_opp (x y : spec_float) :
  SFcompare (SFopp x) (SFopp y) = SFcompare y x.
Proof.
  rewrite (SFcompare_antisym x y).
  destruct x as [sx| sx | | sx mx ex], y as [sy | sy | | sy my ey];
    cbn [SFopp SFcompare option_map];
    try reflexivity;
    try (destruct sx; reflexivity);
    try (destruct sy; reflexivity);
    try (destruct sx, sy; reflexivity).
  destruct sx, sy; cbn [negb option_map]; try reflexivity;
    destruct (ex ?= ey); cbn [option_map CompOpp]; try reflexivity;
    destruct (Pos.compare_cont Eq mx my); reflexivity.
Qed.

Lemma in_unit_range_opp (x : float) :
  in_unit_range x = true -> in_unit_range (- x)%float = true.
Proof.
  unfold in_unit_range. rewrite !leb_spec, opp_spec, Prim2SF_one, Prim2SF_neg_one.
  intros H. apply andb_prop in H. destruct H as [Hlo Hhi].
  unfold SFleb in *.
  change (S754_finite true 4503599627370496 (-52))
    with (SFopp (S754_finite false 4503599627370496 (-52))) at 1.
  rewrite SFcompare_opp.
  change (S754_finite false 4503599627370496 (-52))
    with (SFopp (S754_finite true 4503599627370496 (-52))) at 2.
  rewrite SFcompare_opp.
  rewrite Hhi, Hlo. reflexivity.
Qed.

(** *** Scaling the raw readings *)

Lemma normalize_stick_small (z : Z) :
  - 2 ^ 53 < z < 2 ^ 53 -> XInput._normalize_stick z = Ok (XInput.stick z).
Proof.
  intros Hz. unfold XInput._normalize_stick, XInput.stick.
  rewrite (float_of_int_small z Hz). reflexivity.
Qed.

Lemma normalize_trigger_small (z : Z) :
  - 2 ^ 53 < z < 2 ^ 53 -> XInput._normalize_trigger z = Ok (XInput.trigger z).
Proof.
  intros Hz. unfold XInput._normalize_trigger, XInput.trigger.
  rewrite (float_of_int_small z Hz). reflexivity.
Qed.

Lemma short_range (lo hi : Z) :
  0 <= lo <= 255 -> 0 <= hi <= 255 -> -32768 <= XInput.short lo hi <= 32767.
Proof.
  intros Hlo Hhi. unfold XInput.short.
  destruct (Z.ltb_spec (lo + 256 * hi) 32768); lia.
Qed.

Lemma stick_of_bytes (lo hi : Z) (more : list Z) :
  0 <= lo <= 255 -> 0 <= hi <= 255 ->
  (let? v := XInput.c_short_value (lo :: hi :: more) in XInput._normalize_stick v)
  = Ok (XInput.stick (XInput.short lo hi)).
Proof.
  intros Hlo Hhi. pose proof (short_range lo hi Hlo Hhi) as Hs.
  cbn [XInput.c_short_value rbind]. fold (XInput.short lo hi).
  apply normalize_stick_small. change (2 ^ 53) with 9007199254740992. lia.
Qed.

Lemma stick_in_unit_range (z : Z) : in_unit_range (XInput.stick z) = true.
Proof. apply clamp_in_unit_range. Qed.

Lemma trigger_in_unit_range (z : Z) : in_unit_range (XInput.trigger z) = true.
Proof. apply clamp_in_unit_range. Qed.

Lemma read_dpad_ok (w : Z) :
  dpad_component_ok (fst (XInput.read_dpad w)) = true
  /\ dpad_component_ok (snd (XInput.read_dpad w)) = true.
Proof.
  unfold XInput.read_dpad.
  destruct (XInput.is_set w 1), (XInput.is_set w 2), (XInput.is_set w 4),
    (XInput.is_set w 8); split; reflexivity.
Qed.

(** A buffer of twenty items, spelt out. *)
Lemma twenty_items (raw : list Z) :
  List.length raw = 20%nat ->
  exists b0 b1 b2 b3 b4 b5 b6 b7 b8 b9 b10 b11 b12 b13 b14 b15 b16 b17 b18 b19,
    raw = [b0; b1; b2; b3; b4; b5; b6; b7; b8; b9;
           b10; b11; b12; b13; b14; b15; b16; b17; b18; b19].
Proof.
  intros H.
  do 20 (destruct raw as [| ? raw]; [discriminate H |]).
  destruct raw; [| discriminate H].
  repeat eexists.
Qed.

Lemma decoded_ok (raw : list Z) : frame_ok (XInput.decoded raw) = true.
Proof.
  unfold XInput.decoded, frame_ok, frame. cbn [buttons axes dpad].
  destruct (read_dpad_ok (XInput.byte raw 4 + 256 * XInput.byte raw 5)) as [Hx Hy].
  rewrite Hx, Hy. cbn [forallb].
  rewrite !stick_in_unit_range, !trigger_in_unit_range.
  rewrite !(in_unit_range_opp _ (stick_in_unit_range _)). reflexivity.
Qed.

(** What [read_xinput] returns for a connected controller. *)
Lemma read_xinput_connected (raw : list Z) :
  List.length raw = 20%nat -> Forall (fun b => 0 <= b <= 255) raw ->
  XInput.read_xinput (Ok (XInput.ERROR_SUCCESS, raw))
  = Ok (to_dict (XInput.decoded raw)).
Proof.
  intros Hlen Hb. destruct (twenty_items raw Hlen)
    as (b0 & b1 & b2 & b3 & b4 & b5 & b6 & b7 & b8 & b9 & b10 & b11 & b12
        & b13 & b14 & b15 & b16 & b17 & b18 & b19 & ->).
  repeat match goal with
         | H : Forall _ (_ :: _) |- _ => apply Forall_cons_iff in H; destruct H as [? H]
         end.
  unfold XInput.read_xinput.
  change (XInput.ERROR_SUCCESS =? XInput.ERROR_SUCCESS) with true.
  change (Nat.leb 16 (List.length _)) with true. cbn [andb].
  unfold XInput.decode_state, XInput.read_sticks.
  change (list_get _ 6) with (Ok b6). change (list_get _ 7) with (Ok b7).
  cbn [rbind].
  rewrite (normalize_trigger_small b6), (normalize_trigger_small b7)
    by (change (2 ^ 53) with 9007199254740992; lia).
  change (XInput.slice _ 8 10) with [b8; b9].
  change (XInput.slice _ 10 12) with [b10; b11].
  change (XInput.slice _ 12 14) with [b12; b13].
  change (XInput.slice _ 14 16) with [b14; b15].
  rewrite !stick_of_bytes by assumption.
  cbn [rbind XInput.try_block].
  change (XInput.slice _ 4 6) with [b4; b5]. cbn [XInput.int_from_bytes_little].
  replace (b4 + 256 * (b5 + 256 * 0)) with (b4 + 256 * b5) by lia.
  change (skipn _ (XInput.l_buttons XInput.neutral)) with (@nil bool).
  cbn [XInput.l_buttons]. rewrite app_nil_r.
  reflexivity.
Qed.

(** X28.  For a connected controller whose state buffer holds twenty
    bytes, [generate] returns the frame the buffer stands for: no
    exception handler is entered, the normalisation of [from_dict] changes
    nothing, and the frame satisfies the data-model invariants. *)
Theorem xinput_generate_decodes (raw : list Z) :
  List.length raw = 20%nat -> Forall (fun b => 0 <= b <= 255) raw ->
  XInput.generate float_of_str int_of_str true (Ok (XInput.ERROR_SUCCESS, raw))
  = Ok (XInput.decoded raw)
  /\ frame_ok (XInput.decoded raw) = true.
Proof.
  intros Hlen Hb. split; [| apply decoded_ok].
  unfold XInput.generate. cbn [negb].
  rewrite (read_xinput_connected raw Hlen Hb). cbn [rbind].
  pose proof (decoded_ok raw) as Hok.
  unfold XInput.decoded in *. unfold frame_ok in Hok.
  cbn [frame buttons axes dpad] in Hok.
  apply andb_prop in Hok. destruct Hok as [Hok Hy].
  apply andb_prop in Hok. destruct Hok as [Hok Hx].
  apply andb_prop in Hok. destruct Hok as [_ Ha].
  rewrite (from_dict_of_parts float_of_str int_of_str);
    try assumption; reflexivity.
Qed.

(** *** Failing soft *)

Lemma neutral_frame :
  from_dict float_of_str int_of_str (XInput.locals_dict XInput.neutral)
  = Ok default_state.
Proof.
  exact (from_dict_of_parts float_of_str int_of_str (repeat false 10)
           (repeat zero 6) (0, 0) eq_refl eq_refl eq_refl eq_refl eq_refl).
Qed.

(** X29.  Without a loaded DLL, when the driver call raises an
    [Exception], when it reports anything but success, or when the buffer
    has fewer than 16 bytes, [generate] returns the neutral frame. *)
Theorem xinput_generate_neutral (dll_loaded : bool)
    (driver : result (Z * list Z)) :
  dll_loaded = false
  \/ (exists e, driver = Raise e /\ is_Exception e = true)
  \/ (exists res raw, driver = Ok (res, raw)
                      /\ (res <> XInput.ERROR_SUCCESS \/ (List.length raw < 16)%nat)) ->
  XInput.generate float_of_str int_of_str dll_loaded driver = Ok default_state.
Proof.
  unfold XInput.generate.
  intros [-> | H]; [reflexivity |].
  destruct dll_loaded; [| reflexivity]. cbn [negb].
  assert (Hr : XInput.read_xinput driver = Ok (XInput.locals_dict XInput.neutral)).
  { destruct H as [(e & -> & He) | (res & raw & -> & H)]; unfold XInput.read_xinput.
    - now rewrite He.
    - destruct H as [H | H].
      + apply Z.eqb_neq in H. now rewrite H.
      + apply Nat.leb_gt in H. rewrite H. now rewrite andb_false_r. }
  rewrite Hr. cbn [rbind]. now rewrite neutral_frame.
Qed.

Lemma not_exit_is_Exception (e : exn) :
  e <> KeyboardInterrupt -> e <> SystemExit -> is_Exception e = true.
Proof. destruct e; intros H1 H2; try reflexivity; congruence. Qed.

Lemma normalize_stick_raises (z : Z) (e : exn) :
  XInput._normalize_stick z = Raise e -> is_Exception e = true.
Proof.
  unfold XInput._normalize_stick, XInput.try_block.
  destruct (float_of_int z) as [v | e'] eqn:Hf; cbn [rbind]; [discriminate |].
  pose proof (float_of_int_raises z e' Hf) as He'.
  destruct (XInput.is_TypeError_or_ValueError e'); [discriminate |].
  intros H. inversion H. now subst.
Qed.

Lemma normalize_trigger_raises (z : Z) (e : exn) :
  XInput._normalize_trigger z = Raise e -> is_Exception e = true.
Proof.
  unfold XInput._normalize_trigger, XInput.try_block.
  destruct (float_of_int z) as [v | e'] eqn:Hf; cbn [rbind]; [discriminate |].
  pose proof (float_of_int_raises z e' Hf) as He'.
  destruct (XInput.is_TypeError_or_ValueError e'); [discriminate |].
  intros H. inversion H. now subst.
Qed.

Lemma trigger_read_raises (raw : list Z) (i : nat) (e : exn) :
  (let? b := list_get raw i in XInput._normalize_trigger b) = Raise e ->
  is_Exception e = true.
Proof.
  unfold list_get. destruct (nth_error raw i); cbn [rbind].
  - apply normalize_trigger_raises.
  - intros H. inversion H. reflexivity.
Qed.

Lemma stick_read_raises (b : list Z) (e : exn) :
  (let? v := XInput.c_short_value b in XInput._normalize_stick v) = Raise e ->
  is_Exception e = true.
Proof.
  destruct b as [| lo [| hi more]]; cbn [XInput.c_short_value rbind];
    try (intros H; inversion H; reflexivity).
  apply normalize_stick_raises.
Qed.

Lemma read_sticks_raises (raw : list Z) (e : exn) :
  XInput.read_sticks raw = Raise e -> is_Exception e = true.
Proof.
  unfold XInput.read_sticks, XInput.try_block.
  repeat match goal with
         | |- context [rbind ?r _] =>
             let H := fresh "H" in
             destruct r eqn:H; cbn [rbind];
             [| apply stick_read_raises in H;
                match goal with
                | |- context [XInput.is_ValueError_or_BufferError ?x] =>
                    destruct (XInput.is_ValueError_or_BufferError x);
                    [discriminate | intros H'; inversion H'; now subst]
                end]
         end.
  discriminate.
Qed.

Lemma decode_state_raises (raw : list Z) (st : XInput.locals) (e : exn) :
  snd (XInput.decode_state raw st) = Some e -> is_Exception e = true.
Proof.
  unfold XInput.decode_state.
  destruct (rbind (list_get raw 6) _) as [lt | e1] eqn:H1;
    [| cbn [snd]; intros H; inversion H; subst; exact (trigger_read_raises _ _ _ H1)].
  destruct (rbind (list_get raw 7) _) as [rt | e2] eqn:H2;
    [| cbn [snd]; intros H; inversion H; subst; exact (trigger_read_raises _ _ _ H2)].
  destruct (XInput.read_sticks raw) as [[[[lx ly] rx] ry] | e3] eqn:H3;
    [| cbn [snd]; intros H; inversion H; subst; exact (read_sticks_raises _ _ H3)].
  discriminate.
Qed.

(** [read_xinput] returns its dict unless the driver call itself is
    interrupted. *)
Lemma read_xinput_returns (driver : result (Z * list Z)) :
  (forall e, driver = Raise e -> is_Exception e = true) ->
  exists st, XInput.read_xinput driver = Ok (XInput.locals_dict st).
Proof.
  intros Hd. unfold XInput.read_xinput. destruct driver as [[res raw] | e].
  - destruct ((res =? XInput.ERROR_SUCCESS) && Nat.leb 16 (List.length raw));
      [| eexists; reflexivity].
    destruct (XInput.decode_state raw XInput.neutral) as [st raised] eqn:Hs.
    destruct raised as [e |]; [| eexists; reflexivity].
    assert (He : is_Exception e = true)
      by (apply (decode_state_raises raw XInput.neutral); now rewrite Hs).
    rewrite He. destruct (XInput.is_IndexError_or_ValueError e); eexists; reflexivity.
  - rewrite (Hd e eq_refl). eexists; reflexivity.
Qed.

(** The dict of [read_xinput] holds bools, floats and ints: their
    conversions raise nothing. *)
Lemma locals_dict_fields (st : XInput.locals) :
  forallb bool_returns
    (entries [ (VStr "buttons", VList (map VBool (XInput.l_buttons st)));
               (VStr "axes", VList (map VFloat (XInput.l_axes st)));
               (VStr "dpad", VTuple [VInt (fst (XInput.l_dpad st));
                                     VInt (snd (XInput.l_dpad st))]) ] "buttons")
  = true
  /\ forallb (float_caught float_of_str)
       (entries [ (VStr "buttons", VList (map VBool (XInput.l_buttons st)));
                  (VStr "axes", VList (map VFloat (XInput.l_axes st)));
                  (VStr "dpad", VTuple [VInt (fst (XInput.l_dpad st));
                                        VInt (snd (XInput.l_dpad st))]) ] "axes")
     = true
  /\ forallb (int_caught int_of_str)
       (firstn 2
          (entries [ (VStr "buttons", VList (map VBool (XInput.l_buttons st)));
                     (VStr "axes", VList (map VFloat (XInput.l_axes st)));
                     (VStr "dpad", VTuple [VInt (fst (XInput.l_dpad st));
                                           VInt (snd (XInput.l_dpad st))]) ] "dpad"))
     = true.
Proof.
  repeat split.
  - change (entries _ "buttons") with (map VBool (XInput.l_buttons st)).
    induction (XInput.l_buttons st) as [| x xs IH]; [reflexivity | exact IH].
  - change (entries _ "axes") with (map VFloat (XInput.l_axes st)).
    induction (XInput.l_axes st) as [| x xs IH]; [reflexivity | exact IH].
Qed.

(** X30.  Whatever the driver reports and whatever the buffer holds, as
    long as the driver call is not interrupted by a non-[Exception],
    [generate] raises nothing and returns a frame that satisfies the
    data-model invariants. *)
Theorem xinput_generate_valid (dll_loaded : bool)
    (driver : result (Z * list Z)) :
  (forall e, driver = Raise e -> is_Exception e = true) ->
  exists f, XInput.generate float_of_str int_of_str dll_loaded driver = Ok f
            /\ frame_ok f = true.
Proof.
  intros Hd. unfold XInput.generate.
  destruct dll_loaded; cbn [negb]; [| exists default_state; split; reflexivity].
  destruct (read_xinput_returns driver Hd) as [st Hst]. rewrite Hst. cbn [rbind].
  unfold XInput.locals_dict, from_dict, _normalize_values.
  destruct (locals_dict_fields st) as [Cb [Ca Cd]].
  match goal with
  | |- context [normalize_buttons ?d] =>
      destruct (normalize_buttons_ok d Cb) as [b Hb];
      destruct (normalize_axes_ok float_of_str d Ca) as [a Ha];
      destruct (normalize_dpad_ok int_of_str d Cd) as [h Hh];
      pose proof (normalize_buttons_shape d b Hb) as Lb;
      destruct (normalize_axes_shape float_of_str d a Ha) as [La Ra];
      destruct (normalize_dpad_shape int_of_str d h Hh) as [Hx Hy]
  end.
  rewrite Hb, Ha, Hh. cbn [rbind]. eexists; split; [reflexivity |].
  unfold frame_ok; cbn [buttons axes dpad n_buttons n_axes n_dpad].
  rewrite Lb, La, Ra, Hx, Hy. reflexivity.
Qed.

End XInputFacts.

(* ================================================================== *)
(** * Concrete instances of the further properties *)

Lemma no_callbacks_raise_only_Exception : raise_only_Exception [].
Proof. intros cb f e []. Defined.

Lemma quiet_callback_raises_only_Exception (id : nat) :
  raise_only_Exception [quiet_callback id].
Proof. intros cb f e [<- | []] H; discriminate H. Defined.

Lemma steady_pipeline_healthy : healthy steady_pipeline.
Proof.
  unfold healthy. split.
  - exists (constant_generator sample_frame), []. split; [reflexivity |].
    intros n. exists sample_frame. split; reflexivity.
  - split; [reflexivity |].
    split; [exact no_callbacks_raise_only_Exception |].
    split; [exact no_callbacks_raise_only_Exception | reflexivity].
Defined.

Lemma from_dict_idempotent_witness :
  from_dict no_float_text no_int_text (to_dict raw_sample_frame)
  = Ok raw_sample_frame.
Proof.
  apply (from_dict_idempotent no_float_text no_int_text (VDict raw_sample)).
  reflexivity.
Defined.

Lemma from_dict_buttons_witness :
  buttons raw_sample_frame
  = firstn 10 (map py_truth [VBool true; VStr "x"; VNone; VInt 0])
    ++ repeat false (10 - 4).
Proof.
  exact (from_dict_buttons no_float_text no_int_text raw_sample
           [VBool true; VStr "x"; VNone; VInt 0] raw_sample_frame
           eq_refl eq_refl).
Defined.

Lemma from_dict_axes_in_range_witness :
  axes raw_sample_frame = firstn 6 [0.5; -0.25]%float ++ repeat zero (6 - 2).
Proof.
  exact (from_dict_axes_in_range no_float_text no_int_text raw_sample
           [0.5; -0.25]%float raw_sample_frame eq_refl eq_refl eq_refl).
Defined.

Lemma from_dict_dpad_witness : dpad raw_sample_frame = (0, 0).
Proof.
  exact (from_dict_dpad no_float_text no_int_text raw_sample
           (VInt 5) (VStr "x") [] raw_sample_frame eq_refl eq_refl).
Defined.

Lemma from_dict_dpad_fraction_witness :
  from_dict no_float_text no_int_text
    (VDict [(VStr "dpad", VList [VFloat 0.75; VFloat (-0.5)])])
  = Ok default_state
  /\ dpad default_state = (0, 0).
Proof.
  split; [reflexivity |].
  apply (from_dict_dpad_fraction no_float_text no_int_text
           [(VStr "dpad", VList [VFloat 0.75; VFloat (-0.5)])]
           0.75 (-0.5) [] default_state); reflexivity.
Defined.

Lemma buttons_to_bitmask_decode_witness :
  map (fun i => Z.testbit (buttons_to_bitmask (buttons sample_frame)) (Z.of_nat i))
      (seq 0 10)
  = buttons sample_frame.
Proof.
  apply (buttons_to_bitmask_decode (buttons sample_frame)).
  cbn [sample_frame frame buttons List.length]. lia.
Defined.

Lemma dpad_encode_decode_witness :
  0 <= dpad_encode (1, -1) <= 8
  /\ (dpad_encode (1, -1) mod 3 - 1, dpad_encode (1, -1) / 3 - 1) = (1, -1).
Proof. exact (dpad_encode_decode (1, -1) eq_refl eq_refl). Defined.

Lemma pack_any_shape_witness :
  pack (packet_of_frame (frame [true] [0.5%float] (100, 100))) = Raise StructError
  /\ exists data,
       pack (packet_of_frame (frame [true] [0.5%float] (1, 1))) = Ok data
       /\ List.length data = 29%nat.
Proof.
  split.
  - exact (pack_any_shape (frame [true] [0.5%float] (100, 100)) eq_refl).
  - exact (pack_any_shape (frame [true] [0.5%float] (1, 1)) eq_refl).
Defined.

Lemma first_generator_only_witness :
  generators
    (after (mock_pipeline [constant_generator sample_frame;
                           failing_generator RuntimeError] [] [] []) 1)
  = [ {| behaviour := behaviour (constant_generator sample_frame); calls := 1 |};
      failing_generator RuntimeError ].
Proof.
  exact (first_generator_only
           (mock_pipeline [constant_generator sample_frame;
                           failing_generator RuntimeError] [] [] [])
           (constant_generator sample_frame) [failing_generator RuntimeError]
           1 eq_refl).
Defined.

Lemma tick_returning_None_witness :
  snd (update (mock_pipeline [] [chat_left] [quiet_callback 1] []) 1) = []
  /\ modifiers (after (mock_pipeline [] [chat_left] [quiet_callback 1] []) 1)
     = [chat_left]
  /\ serial (after (mock_pipeline [] [chat_left] [quiet_callback 1] []) 1)
     = Some {| ser := Some mock_serial |}
  /\ last_send (after (mock_pipeline [] [chat_left] [quiet_callback 1] []) 1) = zero.
Proof.
  exact (tick_returning_None
           (mock_pipeline [] [chat_left] [quiet_callback 1] []) 1 eq_refl).
Defined.

Lemma modifier_fault_propagates_witness :
  fst (fst (update (mock_pipeline [constant_generator one_axis_frame]
                      [HairTriggers_default; DeadzoneModifier_default]
                      [quiet_callback 1] [quiet_callback 2]) 1))
  = Raise IndexError
  /\ snd (update (mock_pipeline [constant_generator one_axis_frame]
                    [HairTriggers_default; DeadzoneModifier_default]
                    [quiet_callback 1] [quiet_callback 2]) 1)
     = [Called 1 one_axis_frame].
Proof.
  rewrite (modifier_fault_propagates
             (mock_pipeline [constant_generator one_axis_frame]
                [HairTriggers_default; DeadzoneModifier_default]
                [quiet_callback 1] [quiet_callback 2])
             (constant_generator one_axis_frame) [] 1 one_axis_frame IndexError
             [HairTriggers_default; DeadzoneModifier_default]
             (quiet_callback_raises_only_Exception 1) eq_refl eq_refl eq_refl).
  split; reflexivity.
Defined.

Lemma tick_transmits_returned_frame_witness :
  transmitted (after steady_pipeline 1) = transmitted steady_pipeline
  \/ exists data, pack (packet_of_frame sample_frame) = Ok data
                  /\ List.length data = 29%nat
                  /\ transmitted (after steady_pipeline 1)
                     = transmitted steady_pipeline ++ [data].
Proof.
  exact (tick_transmits_returned_frame steady_pipeline 1 sample_frame eq_refl).
Defined.

Lemma tick_without_transport_witness :
  (serial (after offline_pipeline 1) = None
   /\ last_send (after offline_pipeline 1) = last_send offline_pipeline)
  /\ fst (fst (update offline_pipeline 1)) = Ok (Some sample_frame_fired).
Proof.
  destruct (tick_without_transport offline_pipeline 1 eq_refl) as [H1 H2].
  split; [exact H1 |].
  exact (H2 (constant_generator sample_frame) [] sample_frame
           sample_frame_fired [HairTriggers_default]
           no_callbacks_raise_only_Exception
           no_callbacks_raise_only_Exception eq_refl eq_refl eq_refl).
Defined.

Lemma tick_with_closed_port_witness :
  fst (fst (update closed_port_pipeline 1)) = Raise RuntimeError
  /\ snd (update closed_port_pipeline 1)
     = [Called 1 sample_frame; Called 2 sample_frame_fired]
  /\ last_send (after closed_port_pipeline 1) = last_send closed_port_pipeline.
Proof.
  exact (tick_with_closed_port closed_port_pipeline {| ser := None |}
           (constant_generator sample_frame) [] 1 sample_frame
           sample_frame_fired [HairTriggers_default]
           eq_refl eq_refl eq_refl
           (quiet_callback_raises_only_Exception 1)
           (quiet_callback_raises_only_Exception 2)
           eq_refl eq_refl eq_refl).
Defined.

Lemma healthy_run_loop_witness :
  fst (fst (run_loop steady_pipeline [1; 1.001; 1.006; 2]%float)) = StillRunning
  /\ healthy (snd (fst (run_loop steady_pipeline [1; 1.001; 1.006; 2]%float))).
Proof.
  exact (healthy_run_loop steady_pipeline [1; 1.001; 1.006; 2]%float
           steady_pipeline_healthy).
Defined.

Lemma run_loop_interrupted_witness :
  fst (fst (run_loop (mock_pipeline [failing_generator KeyboardInterrupt] [] [] [])
              [1; 2]%float))
  = Stopped
  /\ port_closed
       (snd (fst (run_loop
                    (mock_pipeline [failing_generator KeyboardInterrupt] [] [] [])
                    [1; 2]%float))).
Proof.
  pose proof (run_loop_interrupted
                (mock_pipeline [failing_generator KeyboardInterrupt] [] [] [])
                1 [2]%float eq_refl) as H.
  split; [exact (proj1 H) | exact (proj1 (proj2 (proj2 H)))].
Defined.

Lemma run_loop_crashes_witness :
  run_loop faulty_pipeline [1; 2]%float
  = (Crashed RuntimeError, after faulty_pipeline 1, []).
Proof.
  apply (run_loop_crashes faulty_pipeline 1 [2]%float RuntimeError).
  - reflexivity.
  - intros H. discriminate H.
Defined.

Lemma deadzone_update_idempotent_witness :
  deadzone_update 0.1 0.1 (frame [] [0; 0.5; 0; 1; 0; 0]%float (0, 0))
  = Ok (frame [] [0; 0.5; 0; 1; 0; 0]%float (0, 0)).
Proof.
  apply (deadzone_update_idempotent 0.1 0.1
           (frame [] [0.05; 0.5; -0.05; 1; 0; 0]%float (0, 0))).
  reflexivity.
Defined.

Lemma deadzone_update_disabled_witness :
  deadzone_update 0 (-1) (frame [] [0.001; 0.5; -0.001; 1; 0; 0]%float (0, 0))
  = Ok (frame [] [0.001; 0.5; -0.001; 1; 0; 0]%float (0, 0)).
Proof.
  exact (deadzone_update_disabled 0 (-1) [] 0.001 0.5 (-0.001) 1 0 0 (0, 0)
           eq_refl eq_refl).
Defined.

Lemma hair_update_idempotent_witness :
  hair_update 0.1 sample_frame_fired = Ok sample_frame_fired.
Proof.
  exact (hair_update_idempotent 0.1 sample_frame sample_frame_fired
           eq_refl eq_refl eq_refl).
Defined.

Lemma sample_state_bytes : Forall (fun b => 0 <= b <= 255) sample_state.
Proof. unfold sample_state. repeat constructor; discriminate. Defined.

Lemma xinput_generate_decodes_witness :
  XInput.generate no_float_text no_int_text true (Ok (XInput.ERROR_SUCCESS, sample_state))
  = Ok (XInput.decoded sample_state)
  /\ frame_ok (XInput.decoded sample_state) = true.
Proof.
  exact (xinput_generate_decodes no_float_text no_int_text sample_state
           eq_refl sample_state_bytes).
Defined.

Lemma xinput_generate_neutral_witness :
  XInput.generate no_float_text no_int_text true
    (Ok (XInput.ERROR_DEVICE_NOT_CONNECTED, repeat 0 20))
  = Ok default_state
  /\ XInput.generate no_float_text no_int_text true
       (Raise (OtherException "OSError"))
     = Ok default_state.
Proof.
  split; apply xinput_generate_neutral; right.
  - right. exists XInput.ERROR_DEVICE_NOT_CONNECTED, (repeat 0 20).
    split; [reflexivity |]. left. intros H. discriminate H.
  - left. exists (OtherException "OSError"). split; reflexivity.
Defined.

Lemma xinput_generate_valid_witness :
  exists f,
    XInput.generate no_float_text no_int_text true
      (Ok (XInput.ERROR_SUCCESS, sample_state)) = Ok f
    /\ frame_ok f = true.
Proof.
  apply xinput_generate_valid. intros e H. discriminate H.
Defined.
